(** * blade/builtin_tools.py: the artifact composers

    A shallow embedding of the build functions of [blade/builtin_tools.py]
    (Python 2): command line parsing, the generic package composer, the
    python_binary composer and the one-jar composer, together with the
    properties of the composed archives; then the other generators of the
    module (wrapper scripts, library descriptors, copies of files, resource
    indexes, jars of resources) and [main], which calls them by name.

    Python [str] values are byte strings and are modelled by [string];
    [dict] and [set] objects by [gmap] and [gset]; raised exceptions and the
    effects on the output files by a small state and error monad. *)

From Stdlib Require Import Ascii String ZArith Lia.
From stdpp Require Import gmap strings list sorting.

Set Default Proof Using "Type".

Local Open Scope Z_scope.
Local Open Scope nat_scope.

(** ** Python [str] operations *)

Module Str.

Definition nl : ascii := "010"%char.
Definition dq : ascii := "034"%char.
Definition slash : ascii := "/"%char.

Definition of_char (c : ascii) : string := String c "".

(** [s.startswith(p)] *)
Fixpoint startswith (p s : string) : bool :=
  match p, s with
  | "", _ => true
  | String _ _, "" => false
  | String a p', String b s' => Ascii.eqb a b && startswith p' s'
  end.

(** [s.endswith(suf)]: some tail of [s] is [suf]. *)
Fixpoint endswith (suf s : string) : bool :=
  if String.eqb s suf then true
  else match s with
       | "" => false
       | String _ s' => endswith suf s'
       end.

(** [s.find(c)] for a one-character needle; [-1] when it is absent. *)
Fixpoint find (c : ascii) (s : string) : Z :=
  match s with
  | "" => (-1)%Z
  | String a s' =>
      if Ascii.eqb a c then 0%Z
      else let r := find c s' in
           if (r <? 0)%Z then (-1)%Z else (r + 1)%Z
  end.

(** [s[i:]] for [0 <= i]. *)
Fixpoint drop (i : nat) (s : string) : string :=
  match i, s with
  | O, _ => s
  | S _, "" => ""
  | S i', String _ s' => drop i' s'
  end.

(** [s[:j]] for [0 <= j]. *)
Fixpoint take (j : nat) (s : string) : string :=
  match j, s with
  | O, _ => ""
  | S _, "" => ""
  | S j', String a s' => String a (take j' s')
  end.

(** [s[i:j]] for [0 <= i] and [0 <= j]. *)
Definition slice (i j : nat) (s : string) : string := take (j - i) (drop i s).

(** [c in s] *)
Fixpoint contains_char (c : ascii) (s : string) : bool :=
  match s with
  | "" => false
  | String a s' => Ascii.eqb a c || contains_char c s'
  end.

(** [sub in s] *)
Fixpoint contains (sub s : string) : bool :=
  if startswith sub s then true
  else match s with
       | "" => false
       | String _ s' => contains sub s'
       end.

(** [s.split(c)]: never the empty list. *)
Fixpoint split (c : ascii) (s : string) : list string :=
  match s with
  | "" => [""]
  | String a s' =>
      if Ascii.eqb a c then "" :: split c s'
      else match split c s' with
           | [] => [String a ""]
           | w :: ws => String a w :: ws
           end
  end.

(** [sep.join(l)] *)
Definition join (sep : string) (l : list string) : string := String.concat sep l.

Definition lower_char (a : ascii) : ascii :=
  let n := nat_of_ascii a in
  if (65 <=? n) && (n <=? 90) then ascii_of_nat (n + 32) else a.

Definition upper_char (a : ascii) : ascii :=
  let n := nat_of_ascii a in
  if (97 <=? n) && (n <=? 122) then ascii_of_nat (n - 32) else a.

Fixpoint map (f : ascii -> ascii) (s : string) : string :=
  match s with
  | "" => ""
  | String a s' => String (f a) (map f s')
  end.

(** [s.lower()] and [s.upper()] in the C locale. *)
Definition lower : string -> string := map lower_char.
Definition upper : string -> string := map upper_char.

(** [s.lstrip('/')] *)
Fixpoint lstrip_slash (s : string) : string :=
  match s with
  | String a s' => if Ascii.eqb a slash then lstrip_slash s' else s
  | "" => ""
  end.

(** [s.rstrip('/')] *)
Fixpoint rstrip_slash (s : string) : string :=
  match s with
  | "" => ""
  | String a s' =>
      match rstrip_slash s' with
      | "" => if Ascii.eqb a slash then "" else String a ""
      | r => String a r
      end
  end.

(** [s == '/' * len(s)] *)
Fixpoint all_slash (s : string) : bool :=
  match s with
  | "" => true
  | String a s' => Ascii.eqb a slash && all_slash s'
  end.

(** [(p[:i], p[i:])] for [i = p.rfind('/') + 1]. *)
Fixpoint rsplit_slash (p : string) : string * string :=
  match p with
  | "" => ("", "")
  | String a p' =>
      let '(h, t) := rsplit_slash p' in
      if Ascii.eqb a slash then (String a h, t)
      else match h with
           | "" => ("", String a t)
           | _ => (String a h, t)
           end
  end.

End Str.

(** ** [os.path] for POSIX *)

Module Path.
Import Str.

(** [posixpath.dirname] *)
Definition dirname (p : string) : string :=
  let head := fst (rsplit_slash p) in
  if negb (String.eqb head "") && negb (all_slash head)
  then rstrip_slash head else head.

(** [posixpath.basename] *)
Definition basename (p : string) : string := snd (rsplit_slash p).

(** One step of [posixpath.join]. *)
Definition join2 (path b : string) : string :=
  if startswith "/" b then b
  else if String.eqb path "" || endswith "/" path then path +:+ b
  else path +:+ "/" +:+ b.

(** [posixpath.join(a, *p)] *)
Definition join (a : string) (p : list string) : string := fold_left join2 p a.

Definition isabs (p : string) : bool := startswith "/" p.

(** The loop body of [posixpath.normpath]; [new_comps] is kept reversed. *)
Definition norm_step (initial_slashes : nat) (new_comps : list string) (comp : string)
  : list string :=
  if String.eqb comp "" || String.eqb comp "." then new_comps
  else if negb (String.eqb comp "..")
          || (Nat.eqb initial_slashes 0 && match new_comps with [] => true | _ => false end)
          || match new_comps with c :: _ => String.eqb c ".." | [] => false end
       then comp :: new_comps
       else match new_comps with
            | [] => []
            | _ :: rest => rest
            end.

Definition initial_slashes (path : string) : nat :=
  if startswith "/" path then
    if startswith "//" path && negb (startswith "///" path) then 2 else 1
  else 0.

(** [posixpath.normpath] *)
Definition normpath (path : string) : string :=
  if String.eqb path "" then "."
  else
    let i := initial_slashes path in
    let comps := rev (fold_left (norm_step i) (split slash path) []) in
    let p := Str.join "/" comps in
    let p := match i with
             | 0 => p
             | 1 => "/" +:+ p
             | _ => "//" +:+ p
             end in
    if String.eqb p "" then "." else p.

(** [posixpath.abspath], with the working directory made explicit. *)
Definition abspath (cwd path : string) : string :=
  normpath (if isabs path then path else join cwd [path]).

(** The length of [os.path.commonprefix] of two component lists. *)
Fixpoint common_len (l1 l2 : list string) : nat :=
  match l1, l2 with
  | a :: l1', b :: l2' => if String.eqb a b then S (common_len l1' l2') else 0
  | _, _ => 0
  end.

Definition nonempty (x : string) : bool := negb (String.eqb x "").

(** [posixpath.relpath(path, start)]; [None] is the [ValueError] for an
    empty [path]. *)
Definition relpath (cwd path start : string) : option string :=
  if String.eqb path "" then None
  else
    let start_list := List.filter nonempty (split slash (abspath cwd start)) in
    let path_list := List.filter nonempty (split slash (abspath cwd path)) in
    let i := common_len start_list path_list in
    let rel_list := repeat ".." (length start_list - i) ++ List.skipn i path_list in
    match rel_list with
    | [] => Some "."
    | a :: p => Some (join a p)
    end.

End Path.

(** ** Exceptions, files and archives *)

Inductive exn :=
  | AssertionError
  | IndexError
  | KeyError
  | ValueError
  | IOError
  | OSError
  | UnboundLocalError.

(** The outcome of a call: a value, a raised exception, or a loop that never
    ends. *)
Inductive result (A : Type) :=
  | Ok (a : A)
  | Raise (e : exn)
  | Diverge.
Arguments Ok {A} a.
Arguments Raise {A} e.
Arguments Diverge {A}.

(** A regular file: modification time and content. Times are counted in
    seconds of local time from 1980-01-01 00:00:00, the first moment the
    header of a zip member can hold. *)
Record file := File { f_mtime : Z; f_data : string }.

(** The times a zip member can be given: from 1980 to the end of 2107.
    With another time [zipfile] raises instead of writing the member;
    the build functions below are described for files and clocks within
    this range. *)
Definition zip_time_ok (t : Z) : Prop := (0 ≤ t < 4039286400)%Z.

(** The header of a zip member keeps the time to two seconds: an odd
    second is stored as the even second before it. *)
Definition zip_stamp (t : Z) : Z := (2 * (t / 2))%Z.

(** A member of an archive. The header of a zip or tar member stores its
    name and its date and time next to the data. *)
Record entry := Entry { e_name : string; e_time : Z; e_data : string }.

(** What [eval] yields on a [.pylib] file written by [generate_python_library]. *)
Record pylib := Pylib { base_dir : string; srcs : list (string * string) }.

(** The inputs of a run, none of which is the output itself: the working
    directory, the regular files, the files as [zipfile.ZipFile(p, 'r')] and
    [eval(open(p).read())] see them, and the wall clock, read when the log
    of effects has a given length.

    The file system is described as far as the build functions are meant
    to be used: a path is a regular file or nothing, so that a directory
    is not told from a missing path; what a function writes can be
    written; and the times of the files and of the clock are times a zip
    member can hold. The statements below that say that a function
    returns name the conditions on the inputs among their hypotheses
    ([input_file], [clock_ok]). *)
Record env := Env {
  cwd : string;
  files : string -> option file;
  zips : string -> option (list entry);
  pylibs : string -> option pylib;
  clock : nat -> Z;
}.

Inductive container :=
  | ZipStored
  | ZipDeflated
  | Tar (mode : string).

(** The effects of a run on the file system, oldest first. *)
Inductive event :=
  | Open (path : string) (c : container)
  | Put (path : string) (e : entry)
  | Close (path : string)
  | WriteFile (path : string) (data : string)
  | Chmod (path : string) (mode : N).

Definition log := list event.

#[global] Instance exn_eq_dec : EqDecision exn.
Proof. solve_decision. Defined.
#[global] Instance entry_eq_dec : EqDecision entry.
Proof. solve_decision. Defined.
#[global] Instance container_eq_dec : EqDecision container.
Proof. solve_decision. Defined.
#[global] Instance event_eq_dec : EqDecision event.
Proof. solve_decision. Defined.

(** The members written so far to the archive at [path]. *)
Definition archive_of (path : string) (l : log) : list entry :=
  omap (fun ev => match ev with
                  | Put p e => if decide (p = path) then Some e else None
                  | _ => None
                  end) l.

(** ** The monad of the build functions: a log of effects and a result *)

Definition M (A : Type) : Type := log -> log * result A.

#[global] Instance M_ret : MRet M := fun A a l => (l, Ok a).
#[global] Instance M_bind : MBind M := fun A B f m l =>
  match m l with
  | (l', Ok a) => f a l'
  | (l', Raise e) => (l', Raise e)
  | (l', Diverge) => (l', Diverge)
  end.

Definition raise {A} (e : exn) : M A := fun l => (l, Raise e).
Definition diverge {A} : M A := fun l => (l, Diverge).
Definition emit (ev : event) : M unit := fun l => (l ++ [ev], Ok tt).
Definition get_log : M log := fun l => (l, Ok l).

(** [x] when it is there, the exception [e] otherwise. *)
Definition orelse {A} (o : option A) (e : exn) : M A :=
  match o with
  | Some a => mret a
  | None => raise e
  end.

(** [assert c] *)
Definition assert (c : bool) : M unit :=
  if c then mret tt else raise AssertionError.

(** [for x in xs: s = body(s, x)] *)
Fixpoint foldM {A S} (body : S -> A -> M S) (s : S) (xs : list A) : M S :=
  match xs with
  | [] => mret s
  | x :: xs' => s' ← body s x; foldM body s' xs'
  end.

(** [for x in xs: body(x)] *)
Definition forM {A} (xs : list A) (body : A -> M unit) : M unit :=
  foldM (fun _ x => body x) tt xs.

(** A run from the empty log. *)
Definition run {A} (m : M A) : log * result A := m [].

(** [enumerate(xs)] *)
Definition enumerate {A} (xs : list A) : list (nat * A) :=
  zip (seq 0 (length xs)) xs.

(** ** [zipfile] and [tarfile] *)

Section Archives.
Variable E : env.

(** [os.stat] and reading a regular file; a path that is no regular file
    is taken to be missing. *)
Definition stat (name : string) : M file := orelse (files E name) OSError.
Definition read_file (name : string) : M string :=
  f ← orelse (files E name) IOError; mret (f_data f).

Definition now : M Z := l ← get_log; mret (clock E (length l)).

(** [zipfile.ZipFile(path, 'w', compression)] *)
Definition zip_open (path : string) (c : container) : M unit := emit (Open path c).

(** The name [ZipFile.write] gives a member: [arcname] normalised, without
    leading separators; indexing the empty string raises [IndexError]. *)
Definition zip_arcname (arcname : string) : option string :=
  let a := Str.lstrip_slash (Path.normpath arcname) in
  if String.eqb a "" then None else Some a.

(** [zip.write(filename, arcname)]: a member with the date and time of
    the file, to two seconds. *)
Definition zip_write (path filename arcname : string) : M unit :=
  f ← stat filename;
  a ← orelse (zip_arcname arcname) IndexError;
  emit (Put path (Entry a (zip_stamp (f_mtime f)) (f_data f))).

(** [zip.writestr(name, data)]: a member with the current date and time,
    to two seconds. *)
Definition zip_writestr (path name data : string) : M unit :=
  t ← now;
  emit (Put path (Entry name (zip_stamp t) data)).

Definition zip_close (path : string) : M unit := emit (Close path).

(** [zipfile.ZipFile(path, 'r')]; [IOError] stands for every failure to
    open the archive, be the file missing or no zip archive. *)
Definition zip_read_open (path : string) : M (list entry) := orelse (zips E path) IOError.

(** [zip.namelist()] *)
Definition namelist (z : list entry) : list string := e_name <$> z.

(** [zip.read(name)]: the last member of that name is the one the index
    of names keeps. *)
Fixpoint zip_lookup (z : list entry) (name : string) : option string :=
  match z with
  | [] => None
  | e :: z' =>
      match zip_lookup z' name with
      | Some d => Some d
      | None => if String.eqb (e_name e) name then Some (e_data e) else None
      end
  end.
Definition zip_read (z : list entry) (name : string) : M string :=
  orelse (zip_lookup z name) KeyError.

(** [tarfile.open(path, mode, dereference=True)] *)
Definition tar_open (path mode : string) : M unit := emit (Open path (Tar mode)).

(** The member [tar.add] writes for an opened file; the header of a tar
    member keeps the time of the file to the second. *)
Definition tar_put (path : string) (f : file) (arcname : string) : M unit :=
  emit (Put path (Entry (Str.lstrip_slash arcname) (f_mtime f) (f_data f))).

(** [tar.add(name, arcname)] *)
Definition tar_add (path name arcname : string) : M unit :=
  f ← stat name; tar_put path f arcname.

Definition tar_close (path : string) : M unit := emit (Close path).

(** [open(path, 'w').write(data)]; the file gets the current time. The
    file can be written: its directory is there. *)
Definition write_file (path data : string) : M file :=
  t ← now;
  emit (WriteFile path data);;
  mret (File t data).

Definition chmod (path : string) (mode : N) : M unit := emit (Chmod path mode).
End Archives.

(** ** The build functions *)

(** [parse_command_line(argv)] *)
Definition parse_command_line (argv : list string) : gmap string string * list string :=
  fold_left
    (fun '(options, args) arg =>
       if Str.startswith "--" arg then
         let pos := Str.find "=" arg in
         if (pos <? 0)%Z then (options, args ++ [arg])
         else
           let name := Str.slice 2 (Z.to_nat pos) arg in
           let value := Str.drop (Z.to_nat (pos + 1)) arg in
           (<[name := value]> options, args)
       else (options, args ++ [arg]))
    argv (∅, []).

Definition _PACKAGE_MANIFEST : string := "MANIFEST.TXT".

(** The dictionary [_TAR_WRITE_MODES], in the order of the source. *)
Definition _TAR_WRITE_MODES : list (string * string) :=
  [("tar", "w"); ("tar.gz", "w:gz"); ("tgz", "w:gz"); ("tar.bz2", "w:bz2"); ("tbz", "w:bz2")].

Definition LF : string := Str.of_char Str.nl.
Definition DQ : string := Str.of_char Str.dq.

Section Tools.
(** [fnmatch.fnmatch(filename, pattern)] *)
Variable fnmatch : string -> string -> bool.
(** The digest [blade_util.md5sum_file] computes from the content of a file. *)
Variable md5sum : string -> string.
(** The bytes of a closed zip archive with the given members. *)
Variable zip_bytes : list entry -> string.

Variable E : env.

(** [blade_util.md5sum_file(s)] *)
Definition md5sum_file (s : string) : M string :=
  d ← read_file E s; mret (md5sum d).

(** [archive_package_sources(package, sources, destinations)] *)
Definition archive_package_sources (package : string -> string -> M unit)
    (sources destinations : list string) : M (list string) :=
  foldM (fun manifest '(i, s) =>
           d ← orelse (destinations !! i) IndexError;
           package s d;;
           digest ← md5sum_file s;
           mret (manifest ++ [digest +:+ " " +:+ d]))
        [] (enumerate sources).

(** [generate_zip_package(path, sources, destinations)] *)
Definition generate_zip_package (path : string) (sources destinations : list string)
  : M unit :=
  zip_open path ZipDeflated;;
  manifest ← archive_package_sources (zip_write E path) sources destinations;
  zip_writestr E path _PACKAGE_MANIFEST (Str.join LF manifest +:+ LF);;
  zip_close path.

(** [generate_tar_package(path, sources, destinations, suffix)]; the member
    added last is the manifest file written just before. *)
Definition generate_tar_package (path : string) (sources destinations : list string)
    (suffix : string) : M unit :=
  mode ← orelse (snd <$> List.find (fun kv => String.eqb (fst kv) suffix) _TAR_WRITE_MODES)
                KeyError;
  tar_open path mode;;
  manifest ← archive_package_sources (tar_add E path) sources destinations;
  let manifest_path := path +:+ ".MANIFEST" in
  m ← write_file E manifest_path (Str.join LF manifest +:+ LF +:+ LF);
  tar_put path m _PACKAGE_MANIFEST;;
  tar_close path.

(** [generate_package(args)]; [suffix] stays unbound when no key of
    [_TAR_WRITE_MODES] ends the path. At most one key ends a path, so the
    order in which Python visits the dictionary is of no account. *)
Definition generate_package (args : list string) : M unit :=
  path ← orelse (args !! 0) IndexError;
  let manifest := List.skipn 1 args in
  assert (length manifest mod 2 =? 0);;
  let middle := length manifest / 2 in
  let sources := List.firstn middle manifest in
  let destinations := List.skipn middle manifest in
  if Str.endswith ".zip" path then generate_zip_package path sources destinations
  else
    match List.find (fun ext => Str.endswith ext path) (fst <$> _TAR_WRITE_MODES) with
    | Some suffix => generate_tar_package path sources destinations suffix
    | None => raise UnboundLocalError
    end.

(** The text of the manifest of a one-jar, after [textwrap.dedent]. *)
Definition onejar_manifest (main_class : string) : string :=
  "Manifest-Version: 1.0" +:+ LF +:+
  "Main-Class: com.simontuffs.onejar.Boot" +:+ LF +:+
  "One-Jar-Main-Class: " +:+ main_class +:+ LF +:+ LF.

(** One turn of the loop over the names of the boot jar. *)
Definition onejar_add_boot (path : string) (zip_file : list entry)
    (jar_path_set : gset string) (name : string) : M (gset string) :=
  if negb (Str.endswith "manifest.mf" (Str.lower name)) then
    data ← zip_read zip_file name;
    zip_writestr E path name data;;
    mret ({[name]} ∪ jar_path_set)
  else mret jar_path_set.

(** One turn of the loop over the names of the main jar or of a
    dependency. *)
Definition onejar_add_resource (path : string) (jar : list entry)
    (jar_path_set : gset string) (name : string) : M (gset string) :=
  if Str.endswith ".class" name || Str.startswith "META-INF" (Str.upper name)
  then mret jar_path_set
  else if decide (name ∉ jar_path_set) then
    let jar_path_set := {[name]} ∪ jar_path_set in
    data ← zip_read jar name;
    zip_writestr E path name data;;
    mret jar_path_set
  else mret jar_path_set.

(** One turn of the loop over [[main_jar] + jars]. *)
Definition onejar_add_resources (path : string) (jar_path_set : gset string)
    (jar : string) : M (gset string) :=
  jar ← zip_read_open E jar;
  foldM (onejar_add_resource path jar) jar_path_set (namelist jar).

(** [generate_one_jar(onejar, main_class, bootjar, args)] *)
Definition generate_one_jar (onejar main_class bootjar : string) (args : list string)
  : M unit :=
  main_jar ← orelse (args !! 0) IndexError;
  let jars := List.skipn 1 args in
  let path := onejar in
  zip_open path ZipStored;;
  zip_file ← zip_read_open E bootjar;
  jar_path_set ← foldM (onejar_add_boot path zip_file) ∅ (namelist zip_file);
  zip_write E path main_jar (Path.join "main" [Path.basename main_jar]);;
  forM jars (fun dep =>
               let dep_name := Path.basename dep in
               zip_write E path dep (Path.join "lib" [dep_name]));;
  foldM (onejar_add_resources path) jar_path_set (main_jar :: jars);;
  zip_writestr E path (Path.join "META-INF" ["MANIFEST.MF"]) (onejar_manifest main_class);;
  zip_close path.

(** [_is_python_excluded_path(filename, exclusions)] *)
Definition _is_python_excluded_path (filename : string) (exclusions : list string) : bool :=
  existsb (fun exclusion => fnmatch filename exclusion) exclusions.

(** The loop [while dir: dirs.add(dir); dir = os.path.dirname(dir)]; [None]
    when the fuel runs out. *)
Fixpoint walk_up (fuel : nat) (dir : string) (dirs : gset string) : option (gset string) :=
  if String.eqb dir "" then Some dirs
  else match fuel with
       | O => None
       | S n => walk_up n (Path.dirname dir) ({[dir]} ∪ dirs)
       end.

(** [_update_init_py_dirs(arcname, dirs, dirs_with_init_py)], returning
    the two sets it updates. The loop is run with more fuel than it can
    use when it ends (see [walk_up_fuel]). *)
Definition _update_init_py_dirs (arcname : string) (dirs dirs_with_init_py : gset string)
  : M (gset string * gset string) :=
  let dir := Path.dirname arcname in
  let dirs_with_init_py :=
    if String.eqb (Path.basename arcname) "__init__.py"
    then {[dir]} ∪ dirs_with_init_py else dirs_with_init_py in
  match walk_up (S (String.length arcname)) dir dirs with
  | Some dirs => mret (dirs, dirs_with_init_py)
  | None => diverge
  end.

(** One turn of the loop over [data['srcs']] of [_pybin_add_pylib]. *)
Definition pylib_add_src (pybin pylib_base_dir : string) (exclusions : list string)
    (st : gset string * gset string) (src : string * string)
  : M (gset string * gset string) :=
  let '(dirs, dirs_with_init_py) := st in
  let '(libsrc, digest) := src in
  arcname ← orelse (Path.relpath (cwd E) libsrc pylib_base_dir) ValueError;
  if negb (_is_python_excluded_path arcname exclusions) then
    '(dirs, dirs_with_init_py) ← _update_init_py_dirs arcname dirs dirs_with_init_py;
    zip_write E pybin libsrc arcname;;
    mret (dirs, dirs_with_init_py)
  else mret (dirs, dirs_with_init_py).

(** [_pybin_add_pylib(pybin, libname, exclusions, dirs, dirs_with_init_py)] *)
Definition _pybin_add_pylib (pybin libname : string) (exclusions : list string)
    (dirs dirs_with_init_py : gset string) : M (gset string * gset string) :=
  data ← orelse (pylibs E libname) IOError;
  let pylib_base_dir := base_dir data in
  foldM (pylib_add_src pybin pylib_base_dir exclusions)
        (dirs, dirs_with_init_py) (srcs data).

(** One turn of the loop over [lib.namelist()] of [_pybin_add_zip]. *)
Definition zip_add_name (pybin : string) (lib : list entry) (filter : string -> bool)
    (exclusions : list string) (st : option (gset string) * option (gset string))
    (name : string) : M (option (gset string) * option (gset string)) :=
  let '(dirs, dirs_with_init_py) := st in
  if filter name && negb (_is_python_excluded_path name exclusions) then
    '(dirs, dirs_with_init_py) ←
      match dirs, dirs_with_init_py with
      | Some d, Some w =>
          '(d, w) ← _update_init_py_dirs name d w; mret (Some d, Some w)
      | _, _ => mret (dirs, dirs_with_init_py)
      end;
    data ← zip_read lib name;
    zip_writestr E pybin name data;;
    mret (dirs, dirs_with_init_py)
  else mret (dirs, dirs_with_init_py).

(** [_pybin_add_zip(pybin, libname, filter, exclusions, dirs, dirs_with_init_py)];
    the two sets may be [None]. *)
Definition _pybin_add_zip (pybin libname : string) (filter : string -> bool)
    (exclusions : list string) (dirs dirs_with_init_py : option (gset string))
  : M (option (gset string) * option (gset string)) :=
  lib ← zip_read_open E libname;
  foldM (zip_add_name pybin lib filter exclusions)
        (dirs, dirs_with_init_py) (namelist lib).

Definition egg_filter (name : string) : bool :=
  if Str.startswith "EGG-INFO" name then false
  else if Str.endswith ".pyc" name then false
  else true.

(** [_pybin_add_egg(pybin, libname, exclusions)] *)
Definition _pybin_add_egg (pybin libname : string) (exclusions : list string) : M unit :=
  _pybin_add_zip pybin libname egg_filter exclusions None None;; mret tt.

Definition whl_filter (name : string) : bool :=
  if Str.contains ".dist-info/" name then false else true.

(** [_pybin_add_whl(pybin, libname, exclusions, dirs, dirs_with_init_py)] *)
Definition _pybin_add_whl (pybin libname : string) (exclusions : list string)
    (dirs dirs_with_init_py : gset string) : M (gset string * gset string) :=
  '(d, w) ← _pybin_add_zip pybin libname whl_filter exclusions
              (Some dirs) (Some dirs_with_init_py);
  mret (default dirs d, default dirs_with_init_py w).

(** The shell prologue of a python binary. *)
Definition bootstrap (mainentry : string) : string :=
  "#!/bin/sh" +:+ LF +:+ LF +:+
  "PYTHONPATH=" +:+ DQ +:+ "$0:$PYTHONPATH" +:+ DQ +:+ " exec python -m " +:+
  DQ +:+ mainentry +:+ DQ +:+ " " +:+ DQ +:+ "$@" +:+ DQ +:+ LF.

(** [sorted(s)] for a set of strings. *)
Definition sorted (s : gset string) : list string := merge_sort String.le (elements s).

(** One turn of the loop over [args] of [generate_python_binary]. *)
Definition pybin_add (pybin : string) (exclusions : list string)
    (st : gset string * gset string) (arg : string) : M (gset string * gset string) :=
  let '(dirs, dirs_with_init_py) := st in
  if Str.endswith ".pylib" arg then
    _pybin_add_pylib pybin arg exclusions dirs dirs_with_init_py
  else if Str.endswith ".egg" arg then
    _pybin_add_egg pybin arg exclusions;; mret (dirs, dirs_with_init_py)
  else if Str.endswith ".whl" arg then
    _pybin_add_whl pybin arg exclusions dirs dirs_with_init_py
  else raise AssertionError.

(** [generate_python_binary(pybin, basedir, exclusions, mainentry, args)] *)
Definition generate_python_binary (pybin basedir exclusions mainentry : string)
    (args : list string) : M unit :=
  zip_open pybin ZipDeflated;;
  let exclusions := Str.split "," exclusions in
  '(dirs, dirs_with_init_py) ← foldM (pybin_add pybin exclusions) (∅, ∅) args;
  let dirs_missing_init_py := dirs ∖ dirs_with_init_py in
  forM (sorted dirs_missing_init_py)
       (fun dir => zip_writestr E pybin (Path.join dir ["__init__.py"]) "");;
  zip_writestr E pybin "__init__.py" "";;
  zip_close pybin;;
  l ← get_log;
  let zip_content := zip_bytes (archive_of pybin l) in
  emit (WriteFile pybin (bootstrap mainentry +:+ zip_content));;
  chmod pybin 493.
End Tools.

(** * The notions of the specification *)

(** ** Command line parsing *)

(** The spec's words: [s] cut at its first [=]. *)
Fixpoint cut_eq (s : string) : option (string * string) :=
  match s with
  | "" => None
  | String a s' =>
      if Ascii.eqb a "=" then Some ("", s')
      else match cut_eq s' with
           | Some (n, v) => Some (String a n, v)
           | None => None
           end
  end.

(** The spec's words: an argument [--name=value] is an option, anything
    else is positional. *)
Definition classify (arg : string) : option (string * string) :=
  match arg with
  | String "-" (String "-" rest) => cut_eq rest
  | _ => None
  end.

Definition positional (arg : string) : bool :=
  match classify arg with
  | None => true
  | Some _ => false
  end.

(** [arg] is [--name=value] and the [=] shown is its first. *)
Definition option_form (arg name value : string) : Prop :=
  arg = "--" +:+ name +:+ "=" +:+ value ∧ Str.contains_char "=" name = false.

Definition parse_step (st : gmap string string * list string) (arg : string)
  : gmap string string * list string :=
  match classify arg with
  | Some (n, v) => (<[n := v]> st.1, st.2)
  | None => (st.1, st.2 ++ [arg])
  end.

(** ** The package composer *)

(** A way to add a file to the archive at [path]: [os.stat], then a member
    under the name [namef] gives, with the time [stamp] makes of the time
    of the file. *)
Definition adds (E : env) (path : string) (namef : string → option string)
    (stamp : Z → Z) (package : string → string → M unit) : Prop :=
  ∀ s d l, package s d l =
    match files E s with
    | None => (l, Raise OSError)
    | Some f =>
        match namef d with
        | None => (l, Raise IndexError)
        | Some a => (l ++ [Put path (Entry a (stamp (f_mtime f)) (f_data f))], Ok tt)
        end
    end.

(** What [archive_package_sources] adds for one source, and its line of
    the manifest. *)
Definition packaged (md5sum : string → string) (E : env) (namef : string → option string)
    (stamp : Z → Z) (s d : string) (e : entry) (line : string) : Prop :=
  ∃ f a, files E s = Some f ∧ namef d = Some a
         ∧ e = Entry a (stamp (f_mtime f)) (f_data f)
         ∧ line = md5sum (f_data f) +:+ " " +:+ d.

(** The time a member gets in the container chosen by [path]. *)
Definition member_time (path : string) (t : Z) : Z :=
  if Str.endswith ".zip" path then zip_stamp t else t.

Definition aps_body (md5sum : string → string) (E : env) (package : string → string → M unit) (destinations : list string)
    (manifest : list string) (p : nat * string) : M (list string) :=
  let '(i, s) := p in
  d ← orelse (destinations !! i) IndexError;
  package s d;;
  digest ← md5sum_file md5sum E s;
  mret (manifest ++ [digest +:+ " " +:+ d]).

(** Every source is a regular file and every destination names a member. *)
Definition packable (E : env) (namef : string → option string) (s d : string) : Prop :=
  ∃ f a, files E s = Some f ∧ namef d = Some a.

(** The name a destination gets in the container chosen by [path]. *)
Definition member_name (path d : string) : option string :=
  if Str.endswith ".zip" path then zip_arcname d else Some (Str.lstrip_slash d).

(** The lines of a text, as reading it line by line gives them: each ends
    at a line feed, and a last line without one counts when it is not
    empty. *)
Fixpoint text_lines (s : string) : list string :=
  match s with
  | "" => []
  | String a s' =>
      if Ascii.eqb a Str.nl then "" :: text_lines s'
      else match text_lines s' with
           | [] => [String a ""]
           | w :: ws => String a w :: ws
           end
  end.

(** The claim as the spec states it: the manifest of a composed package has
    as many lines as there are sources. *)
Definition manifest_line_count (md5sum : string → string) (E : env)
    (path : string) (sources destinations : list string) : Prop :=
  ∀ l, run (generate_package md5sum E (path :: sources ++ destinations)) = (l, Ok tt) →
       ∃ es m, archive_of path l = es ++ [m]
               ∧ length (text_lines (e_data m)) = length sources.

(** The manifest [m] closes the archive [es ++ [m]]: its lines are [lines]
    followed by [extra]; member [i] has the name [namef] gives
    [destinations[i]] and the data of the file [sources[i]], and line [i]
    pairs the digest of the data of member [i] with [destinations[i]]. *)
Definition manifest_records (md5sum : string → string) (E : env)
    (namef : string → option string)
    (sources destinations : list string) (es : list entry) (m : entry)
    (extra : list string) : Prop :=
  e_name m = _PACKAGE_MANIFEST
  ∧ length es = length sources
  ∧ ∃ lines,
      text_lines (e_data m) = lines ++ extra
      ∧ length lines = length sources
      ∧ ∀ i s d, sources !! i = Some s → destinations !! i = Some d →
          ∃ e f, es !! i = Some e
                 ∧ files E s = Some f
                 ∧ namef d = Some (e_name e)
                 ∧ e_data e = f_data f
                 ∧ lines !! i = Some (md5sum (e_data e) +:+ " " +:+ d).

(** The clock stays within the times a zip member can hold. *)
Definition clock_ok (E : env) : Prop := ∀ n, zip_time_ok (clock E n).

(** The file [s] is not the file written at [path]. [tarfile] leaves out
    the archive it is writing, and a zip archive read while it is written
    has no content to speak of. *)
Definition not_output (E : env) (path s : string) : Prop :=
  Path.abspath (cwd E) s ≠ Path.abspath (cwd E) path.

(** An input of the archive written at [path]: a regular file other than
    the archive, with a time a zip member can hold. *)
Definition input_file (E : env) (path s : string) : Prop :=
  ∃ f, files E s = Some f ∧ zip_time_ok (f_mtime f) ∧ not_output E path s.

(** The members named [x] of the archive at [path], in the order written. *)
Definition named (x path : string) (l : log) : list entry :=
  filter (λ e, e_name e = x) (archive_of path l).

(** The data of [x] in the first of the jars that has a member of that
    name. *)
Fixpoint first_copy (E : env) (x : string) (jars : list string) : option string :=
  match jars with
  | [] => None
  | jar :: rest =>
      match zips E jar with
      | Some z => if decide (x ∈ namelist z) then zip_lookup z x else first_copy E x rest
      | None => None
      end
  end.

(** A name the one-jar composer copies to the root of the one-jar. *)
Definition is_resource (x : string) : Prop :=
  Str.endswith ".class" x = false ∧ Str.startswith "META-INF" (Str.upper x) = false.

(** The name under which the composer nests a jar. *)
Definition nested_name (dir jar : string) : option string :=
  zip_arcname (Path.join dir [Path.basename jar]).

(** The loader claims the names it has, its manifest apart. *)
Definition boot_claims (x : string) (boot : list entry) : Prop :=
  x ∈ namelist boot ∧ Str.endswith "manifest.mf" (Str.lower x) = false.

#[global] Instance is_resource_dec x : Decision (is_resource x).
Proof. unfold is_resource. apply _. Defined.

#[global] Instance boot_claims_dec x boot : Decision (boot_claims x boot).
Proof. unfold boot_claims. apply _. Defined.

(** The data of the members named [x] that the one-jar composer copies
    from the loader: one for every entry of that name in the list of names
    of the loader, each with the data the loader gives for the name. *)
Definition loader_copies (boot : list entry) (names : list string) (x : string)
  : list string :=
  omap (λ n, if decide (n = x ∧ Str.endswith "manifest.mf" (Str.lower n) = false)
             then zip_lookup boot n else None) names.

(** The data of the members named [x] among the jars nested under [dir]:
    one for every jar whose nested name is [x]. *)
Definition nested_copies (E : env) (dir x : string) (jars : list string) : list string :=
  omap (λ j, if decide (nested_name dir j = Some x) then f_data <$> files E j else None)
       jars.

(** The data of the members named [x] of a one-jar, in the order written:
    the copies from the loader, the nested jars of that name, the copy of
    the first of main jar and dependencies that has the resource [x] when
    the loader did not claim it, and the manifest. *)
Definition onejar_copies (E : env) (main_class : string) (boot : list entry)
    (main_jar : string) (jars : list string) (x : string) : list string :=
  loader_copies boot (namelist boot) x
  ++ nested_copies E "main" x [main_jar]
  ++ nested_copies E "lib" x jars
  ++ (if decide (is_resource x ∧ ¬ boot_claims x boot)
      then option_list (first_copy E x (main_jar :: jars)) else [])
  ++ (if decide (x = "META-INF/MANIFEST.MF") then [onejar_manifest main_class] else []).

(** C3 as the spec states it: the first writer of a name wins and later
    duplicates of the name are dropped, so that no two members of a
    composed one-jar have the same name; and a resource that the main jar
    and a dependency both have is there once, with the data of the main
    jar. *)
Definition first_writer_wins (E : env) (onejar main_class bootjar main_jar : string)
    (jars : list string) : Prop :=
  ∀ l, run (generate_one_jar E onejar main_class bootjar (main_jar :: jars)) = (l, Ok tt) →
    NoDup (e_name <$> archive_of onejar l)
    ∧ ∀ x zmain dep zdep d,
        is_resource x →
        zips E main_jar = Some zmain → dep ∈ jars → zips E dep = Some zdep →
        x ∈ namelist zmain → x ∈ namelist zdep → zip_lookup zmain x = Some d →
        ∃ t, named x onejar l = [Entry x t d].

(** [up d e]: the directory [d] is [e] or lies above it. *)
Inductive up : string → string → Prop :=
  | up_here d : d ≠ "" → up d d
  | up_parent d e : e ≠ "" → up d (Path.dirname e) → up d e.

(** The directories above the member [a]: its parent, the parent of its
    parent, and so on. *)
Definition ancestor_dir (d a : string) : Prop := up d (Path.dirname a).

Fixpoint last_is_slash (s : string) : bool :=
  match s with
  | "" => false
  | String a "" => Ascii.eqb a "/"
  | String _ s' => last_is_slash s'
  end.

(** ** What the sources of a python binary contribute *)

(** A member a source contributes: the name under which the composer keeps
    its books, the name of the member in the archive and its data, both
    [None] when they cannot be had. *)
Record item := Item {
  i_arcname : string;
  i_name : option string;
  i_data : option string;
}.

Section Items.
Variable fnmatch : string → string → bool.
Variable E : env.
Variable exclusions : list string.

Definition pylib_item (base : string) (src : string * string) : option item :=
  match Path.relpath (cwd E) src.1 base with
  | Some a =>
      if _is_python_excluded_path fnmatch a exclusions then None
      else Some (Item a (zip_arcname a) (f_data <$> files E src.1))
  | None => None
  end.

(** The members of a library descriptor. *)
Definition pylib_items (d : pylib) : list item := omap (pylib_item (base_dir d)) (srcs d).

(** The members of an egg or of a wheel. *)
Definition zip_items (keep : string → bool) (z : list entry) : list item :=
  (λ n, Item n (Some n) (zip_lookup z n))
    <$> List.filter (λ n, keep n && negb (_is_python_excluded_path fnmatch n exclusions))
          (namelist z).

(** The members of one source. *)
Definition items (arg : string) : list item :=
  if Str.endswith ".pylib" arg then from_option pylib_items [] (pylibs E arg)
  else if Str.endswith ".egg" arg then from_option (zip_items egg_filter) [] (zips E arg)
  else if Str.endswith ".whl" arg then from_option (zip_items whl_filter) [] (zips E arg)
  else [].

(** The sources whose members enter the books of directories: library
    descriptors and wheels, not eggs. *)
Definition tracked (arg : string) : bool :=
  Str.endswith ".pylib" arg || (negb (Str.endswith ".egg" arg) && Str.endswith ".whl" arg).

Definition tracked_items (args : list string) : list item :=
  flat_map (λ arg, if tracked arg then items arg else []) args.

Definition all_items (args : list string) : list item := flat_map items args.

End Items.

(** The member [e] is the item [it]. *)
Definition wrote (e : entry) (it : item) : Prop :=
  i_name it = Some (e_name e) ∧ i_data it = Some (e_data e).

(** The books after the items [its]: [dirs] gains the directories above
    them, [dirs_with_init_py] the directories of those named
    [__init__.py]. *)
Definition books (its : list item) (dirs dwi dirs' dwi' : gset string) : Prop :=
  (∀ d, d ∈ dirs' ↔ d ∈ dirs ∨ ∃ it, it ∈ its ∧ ancestor_dir d (i_arcname it))
  ∧ (∀ d, d ∈ dwi' ↔ d ∈ dwi
            ∨ ∃ it, it ∈ its ∧ Path.basename (i_arcname it) = "__init__.py"
                    ∧ Path.dirname (i_arcname it) = d)
  ∧ Forall (λ it, Path.isabs (i_arcname it) = false) its.

(** A source of a kind [generate_python_binary] knows. *)
Definition recognized (arg : string) : bool :=
  Str.endswith ".pylib" arg || Str.endswith ".egg" arg || Str.endswith ".whl" arg.

(** The marker the composer adds for the directory [d]. *)
Definition marker_of (d : string) (m : entry) : Prop :=
  ∃ t, m = Entry (Path.join d ["__init__.py"]) t "".

(** An item that can be written: its member name and its data are there. *)
Definition item_ok (it : item) : Prop := is_Some (i_name it) ∧ is_Some (i_data it).

Definition item_rel (it : item) : Prop := Path.isabs (i_arcname it) = false.

(** A source that can be read: of a known kind, its file is a descriptor
    whose paths are not empty, or an archive; its items can be written, and
    those that enter the books have relative names. *)
Definition source_ok (fnmatch : string → string → bool) (E : env)
    (exclusions : list string) (arg : string) : Prop :=
  recognized arg = true
  ∧ (if Str.endswith ".pylib" arg
     then ∃ d, pylibs E arg = Some d
               ∧ Forall (λ src, is_Some (Path.relpath (cwd E) src.1 (base_dir d))) (srcs d)
     else is_Some (zips E arg))
  ∧ Forall item_ok (items fnmatch E exclusions arg)
  ∧ (tracked arg = true → Forall item_rel (items fnmatch E exclusions arg)).

(** The source [arg] contributes a member [x] with the data [data]. *)
Definition contributes (fnmatch : string → string → bool) (E : env)
    (exclusions : list string) (arg x data : string) : Prop :=
  ∃ it, it ∈ items fnmatch E exclusions arg ∧ i_name it = Some x ∧ i_data it = Some data.

(** C1 as the spec states it: of two sources that contribute [x], the
    archive has the copy of the first and no other. *)
Definition first_wins_dedup (fnmatch : string → string → bool)
    (zip_bytes : list entry → string) (E : env)
    (pybin basedir exclusions mainentry : string) (args : list string) : Prop :=
  ∀ l, run (generate_python_binary fnmatch zip_bytes E pybin basedir exclusions
              mainentry args) = (l, Ok tt) →
    ∀ pre A mid B post x a b,
      args = pre ++ A :: mid ++ B :: post →
      contributes fnmatch E (Str.split "," exclusions) A x a →
      contributes fnmatch E (Str.split "," exclusions) B x b →
      ∃ t, named x pybin l = [Entry x t a].

(** C2 as the spec states it: the directory of every member has a member
    [__init__.py]. *)
Definition marker_law (fnmatch : string → string → bool)
    (zip_bytes : list entry → string) (E : env)
    (pybin basedir exclusions mainentry : string) (args : list string) : Prop :=
  ∀ l, run (generate_python_binary fnmatch zip_bytes E pybin basedir exclusions
              mainentry args) = (l, Ok tt) →
    ∀ e, e ∈ archive_of pybin l → Path.dirname (e_name e) ≠ "" →
      ∃ m, m ∈ archive_of pybin l
           ∧ e_name m = Path.join (Path.dirname (e_name e)) ["__init__.py"].

(** ** What a run that fails leaves behind *)

(** A computation that only adds members to the archive at [path],
    whatever its result. *)
Definition puts {A} (path : string) (m : M A) : Prop :=
  ∀ l, ∃ es, (m l).1 = l ++ (Put path <$> es).

(** [generate_python_binary] after its loop over the sources. *)
Definition pybin_finish (zip_bytes : list entry → string) (E : env)
    (pybin mainentry : string) (dirs dwi : gset string) : M unit :=
  forM (sorted (dirs ∖ dwi))
       (λ dir, zip_writestr E pybin (Path.join dir ["__init__.py"]) "");;
  zip_writestr E pybin "__init__.py" "";;
  zip_close pybin;;
  l ← get_log;
  emit (WriteFile pybin (bootstrap mainentry +:+ zip_bytes (archive_of pybin l)));;
  chmod pybin 493.

(** The line of the prologue that hands over to the interpreter. *)
Definition exec_line (mainentry : string) : string :=
  "PYTHONPATH=" +:+ DQ +:+ "$0:$PYTHONPATH" +:+ DQ +:+ " exec python -m " +:+
  DQ +:+ mainentry +:+ DQ +:+ " " +:+ DQ +:+ "$@" +:+ DQ.

(** The permission bits of execution, [0o111]. *)
Definition S_IXUGO : N := 73.

(** The inputs [E] with another clock. *)
Definition at_clock (c : nat → Z) (E : env) : env :=
  Env (cwd E) (files E) (zips E) (pylibs E) c.

(** C5 as the spec states it: a composer run twice on the same inputs
    does the same, down to the bytes it writes. The header of a member
    holds its date and time, so the same bytes are the same members, times
    included. *)
Definition repeatable {A} (m : env → M A) (E : env) : Prop :=
  ∀ c1 c2, run (m (at_clock c1 E)) = run (m (at_clock c2 E)).

(** The names and the data of the members of the archive at [path]. *)
Definition members (path : string) (l : log) : list (string * string) :=
  (λ e, (e_name e, e_data e)) <$> archive_of path l.

Definition res_sim {A} (R : A → A → Prop) (r1 r2 : result A) : Prop :=
  match r1, r2 with
  | Ok a1, Ok a2 => R a1 a2
  | Raise e1, Raise e2 => e1 = e2
  | Diverge, Diverge => True
  | _, _ => False
  end.

Section Clocked.
(** The bytes of a zip archive, and the clocks of two runs. *)
Variable zip_bytes : list entry → string.
Variable c1 c2 : nat → Z.

(** The effect one run makes after the effects [l1], next to the effect the
    other run makes after [l2]. They are the same effect, or they differ in
    one of three ways: a member written with [writestr], which carries the
    time its run reads from the clock at this step, to two seconds; a
    member of a tar archive that is the file its run wrote just before,
    which carries the time its run read from the clock when it wrote the
    file; or a file made of the same prologue and the bytes of the archive
    of its run. *)
Inductive ev_sim (l1 l2 : log) : event → event → Prop :=
  | ev_same ev : ev_sim l1 l2 ev ev
  | ev_stamped p n d :
      ev_sim l1 l2 (Put p (Entry n (zip_stamp (c1 (length l1))) d))
                   (Put p (Entry n (zip_stamp (c2 (length l2))) d))
  | ev_written p q n d l1' l2' :
      l1 = l1' ++ [WriteFile q d] → l2 = l2' ++ [WriteFile q d] →
      ev_sim l1 l2 (Put p (Entry n (c1 (length l1')) d))
                   (Put p (Entry n (c2 (length l2')) d))
  | ev_bytes p pre :
      ev_sim l1 l2 (WriteFile p (pre +:+ zip_bytes (archive_of p l1)))
                   (WriteFile p (pre +:+ zip_bytes (archive_of p l2))).

(** The effects of two runs, compared one by one. *)
Inductive log_sim : log → log → Prop :=
  | log_sim_nil : log_sim [] []
  | log_sim_snoc l1 l2 ev1 ev2 :
      log_sim l1 l2 → ev_sim l1 l2 ev1 ev2 → log_sim (l1 ++ [ev1]) (l2 ++ [ev2]).

(** Two computations that do the same up to [log_sim], with results related
    by [R]. *)
Definition sim_m {A} (R : A → A → Prop) (m1 m2 : M A) : Prop :=
  ∀ l1 l2, log_sim l1 l2 →
    log_sim (m1 l1).1 (m2 l2).1 ∧ res_sim R (m1 l1).2 (m2 l2).2.
End Clocked.

(** ** Instances of the parameters, for the examples *)

(** [fnmatch] on patterns without brackets: [*] stands for any string, [?]
    for any character. *)
Fixpoint glob (pat : string) : string → bool :=
  match pat with
  | "" => λ s, String.eqb s ""
  | String c pat' =>
      if Ascii.eqb c "*" then
        fix star (s : string) : bool :=
          glob pat' s || match s with
                         | "" => false
                         | String _ s' => star s'
                         end
      else λ s, match s with
                | "" => false
                | String a s' => (Ascii.eqb c "?" || Ascii.eqb c a) && glob pat' s'
                end
  end.

Definition glob_fnmatch (filename pattern : string) : bool := glob pattern filename.

Definition hex_digit (n : nat) : ascii :=
  match n with
  | 0 => "0" | 1 => "1" | 2 => "2" | 3 => "3" | 4 => "4" | 5 => "5" | 6 => "6" | 7 => "7"
  | 8 => "8" | 9 => "9" | 10 => "a" | 11 => "b" | 12 => "c" | 13 => "d" | 14 => "e"
  | _ => "f"
  end%char.

Fixpoint byte_sum (s : string) : nat :=
  match s with
  | "" => 0
  | String a s' => (nat_of_ascii a + byte_sum s') mod 256
  end.

(** A digest of two hexadecimal digits, in the place of MD5. *)
Definition sum_digest (data : string) : string :=
  let n := byte_sum data in
  String (hex_digit (n / 16)) (String (hex_digit (n mod 16)) "").

(** A container format read from its end: the bytes of an archive are the
    reverse of a code that can be read from its first byte, so that a reader
    going backwards from the end of the file finds the whole archive before
    it meets what was put in front. *)
Module TrailerCodec.

Fixpoint enc_nat (n : nat) : list ascii :=
match n with
| 0 => ["0"%char]
| S n' => "1"%char :: enc_nat n'
end.

Fixpoint dec_nat (l : list ascii) : option (nat * list ascii) :=
match l with
| [] => None
| a :: l' =>
    if Ascii.eqb a "0" then Some (0, l')
    else if Ascii.eqb a "1" then
      match dec_nat l' with
      | Some (n, r) => Some (S n, r)
      | None => None
      end
    else None
end.

Definition enc_str (s : string) : list ascii :=
enc_nat (String.length s) ++ list_ascii_of_string s.

Definition dec_str (l : list ascii) : option (string * list ascii) :=
match dec_nat l with
| Some (n, r) =>
    if n <=? length r then Some (string_of_list_ascii (take n r), drop n r) else None
| None => None
end.

Definition enc_Z (z : Z) : list ascii :=
(if (z <? 0)%Z then "-" else "+")%char :: enc_nat (Z.abs_nat z).

Definition dec_Z (l : list ascii) : option (Z * list ascii) :=
match l with
| [] => None
| a :: l' =>
    match dec_nat l' with
    | Some (n, r) =>
        if Ascii.eqb a "-" then Some ((- Z.of_nat n)%Z, r) else Some (Z.of_nat n, r)
    | None => None
    end
end.

Definition enc_entry (e : entry) : list ascii :=
enc_str (e_name e) ++ enc_Z (e_time e) ++ enc_str (e_data e).

Definition dec_entry (l : list ascii) : option (entry * list ascii) :=
match dec_str l with
| Some (n, r) =>
    match dec_Z r with
    | Some (t, r) =>
        match dec_str r with
        | Some (d, r) => Some (Entry n t d, r)
        | None => None
        end
    | None => None
    end
| None => None
end.

Fixpoint dec_entries (k : nat) (l : list ascii) : option (list entry) :=
match k with
| 0 => Some []
| S k' =>
    match dec_entry l with
    | Some (e, r) =>
        match dec_entries k' r with
        | Some es => Some (e :: es)
        | None => None
        end
    | None => None
    end
end.

Definition enc (arch : list entry) : list ascii :=
enc_nat (length arch) ++ flat_map enc_entry arch.

Definition dec (l : list ascii) : option (list entry) :=
match dec_nat l with
| Some (k, r) => dec_entries k r
| None => None
end.

Definition zip_bytes (arch : list entry) : string := string_of_list_ascii (rev (enc arch)).

Definition zip_reader (s : string) : option (list entry) := dec (rev (list_ascii_of_string s)).

End TrailerCodec.

(** A table of files by path. *)
Fixpoint table {A} (t : list (string * A)) (p : string) : option A :=
  match t with
  | [] => None
  | (k, v) :: t' => if String.eqb k p then Some v else table t' p
  end.

(** The inputs of the examples: two library descriptors with the same
    relative path, an egg, a wheel, and the jars of a one-jar. The times
    are a few seconds into 1980; the clock starts a quarter of an hour
    later and shows one second more at each effect, for a minute. *)
Definition sample_env : env := {|
  cwd := "/w";
  files := table [
    ("a.txt", File 1 "alpha");
    ("b.txt", File 2 "beta");
    ("src/a/pkg/mod.py", File 10 "A = 1");
    ("src/b/pkg/mod.py", File 20 "B = 2");
    ("build/app.jar", File 30 "app-bytes");
    ("build/dep.jar", File 40 "dep-bytes")
  ];
  zips := table [
    ("c.egg", [Entry "egg/x.py" 4 "X"; Entry "EGG-INFO/PKG-INFO" 4 "info"]);
    ("d.whl", [Entry "w/sub/y.py" 6 "Y"; Entry "w/__init__.py" 6 "W";
               Entry "d-1.0.dist-info/METADATA" 6 "meta"]);
    ("boot.jar", [Entry "META-INF/MANIFEST.MF" 8 "boot"; Entry "Boot.class" 8 "cafe"]);
    ("build/app.jar", [Entry "App.class" 10 "cafe"; Entry "config.properties" 10 "main=1"]);
    ("build/dep.jar", [Entry "Dep.class" 12 "cafe"; Entry "config.properties" 12 "dep=2"])
  ];
  pylibs := table [
    ("a.pylib", Pylib "src/a" [("src/a/pkg/mod.py", "d1")]);
    ("b.pylib", Pylib "src/b" [("src/b/pkg/mod.py", "d2")])
  ];
  clock := λ n, (1000 + Z.of_nat (n `min` 60))%Z;
|}.

(** A loader with a resource of its own, and two dependencies with the
    same base name. *)
Definition clash_env : env := {|
  cwd := "/w";
  files := table [
    ("build/app.jar", File 30 "app-bytes");
    ("x/dep.jar", File 40 "dep-x");
    ("y/dep.jar", File 50 "dep-y")
  ];
  zips := table [
    ("boot.jar", [Entry "META-INF/MANIFEST.MF" 8 "boot"; Entry "Boot.class" 8 "cafe";
                  Entry "config.properties" 8 "loader=0"]);
    ("build/app.jar", [Entry "App.class" 10 "cafe"; Entry "config.properties" 10 "main=1"]);
    ("x/dep.jar", [Entry "X.class" 12 "cafe"; Entry "config.properties" 12 "dep=2"]);
    ("y/dep.jar", [Entry "Y.class" 14 "cafe"])
  ];
  pylibs := λ _, None;
  clock := λ n, 1000%Z;
|}.

(** The run of scenario B. *)
Definition scenario_b_log : log :=
  Eval vm_compute in
    (run (generate_python_binary glob_fnmatch TrailerCodec.zip_bytes sample_env
            "out" "" "*.pyc" "main" ["a.pylib"; "b.pylib"])).1.

(** A binary from an egg alone. *)
Definition egg_log : log :=
  Eval vm_compute in
    (run (generate_python_binary glob_fnmatch TrailerCodec.zip_bytes sample_env
            "out" "" "*.pyc" "main" ["c.egg"])).1.

(** A binary from a library descriptor, an egg and a wheel. *)
Definition mixed_log : log :=
  Eval vm_compute in
    (run (generate_python_binary glob_fnmatch TrailerCodec.zip_bytes sample_env
            "out" "" "*.pyc" "main" ["a.pylib"; "c.egg"; "d.whl"])).1.

(** * The other functions of the module, and more notions *)

(** ** Command lines, as the build system writes them *)

(** The argument that passes the parameter [kv.1] with the value [kv.2]. *)
Definition option_arg (kv : string * string) : string :=
  "--" +:+ kv.1 +:+ "=" +:+ kv.2.

(** ** Effects, whatever the result *)

(** A computation that adds to the log only effects [Q] holds of, whether
    it returns, raises or loops. *)
Definition emits {A} (Q : event → Prop) (m : M A) : Prop :=
  ∀ l, ∃ l2, (m l).1 = l ++ l2 ∧ Forall Q l2.

(** The effect is not a member with an absolute name. *)
Definition relative_member (ev : event) : Prop :=
  match ev with
  | Put _ e => Path.isabs (e_name e) = false
  | _ => True
  end.

(** ** What a one-jar may hold *)

(** The member [e] is one the one-jar composer writes: a member of the
    loader other than a manifest, the main jar or a dependency nested as a
    whole, a resource of the main jar or of a dependency, or the manifest
    of the one-jar. *)
Definition onejar_member (E : env) (main_class bootjar main_jar : string)
    (jars : list string) (e : entry) : Prop :=
  (∃ boot, zips E bootjar = Some boot ∧ boot_claims (e_name e) boot
           ∧ zip_lookup boot (e_name e) = Some (e_data e))
  ∨ (∃ f, files E main_jar = Some f ∧ nested_name "main" main_jar = Some (e_name e)
          ∧ e_data e = f_data f)
  ∨ (∃ dep f, dep ∈ jars ∧ files E dep = Some f
              ∧ nested_name "lib" dep = Some (e_name e) ∧ e_data e = f_data f)
  ∨ (∃ j z, j ∈ main_jar :: jars ∧ zips E j = Some z ∧ e_name e ∈ namelist z
            ∧ is_resource (e_name e) ∧ zip_lookup z (e_name e) = Some (e_data e))
  ∨ (e_name e = "META-INF/MANIFEST.MF" ∧ e_data e = onejar_manifest main_class).

(** The effect is not a member, or it is the member [P] holds of, written
    to the archive at [path]. *)
Definition member_effect (path : string) (P : entry → Prop) (ev : event) : Prop :=
  match ev with
  | Put p e => p = path ∧ P e
  | _ => True
  end.

(** ** Inputs of more examples *)

(** A wheel whose second member has an absolute name. *)
Definition bad_wheel_env : env := {|
  cwd := "/w";
  files := λ _, None;
  zips := table [("bad.whl", [Entry "ok.py" 1 "a"; Entry "/usr/lib/x.py" 1 "X"])];
  pylibs := λ _, None;
  clock := λ n, 0%Z;
|}.

(** ** Test classes and coverage *)

(** [s.replace(old, new)] for one-character [old] and [new]. *)
Definition replace_char (old new : ascii) (s : string) : string :=
  Str.map (λ a, if Ascii.eqb a old then new else a) s.

(** [s[:-n]] *)
Definition drop_end (n : nat) (s : string) : string :=
  Str.take (String.length s - n) s.

Section JavaTests.
Variable E : env.

(** [_get_all_test_class_names_in_jar(jar)] *)
Definition _get_all_test_class_names_in_jar (jar : string) : M (list string) :=
zip_file ← zip_read_open E jar;
let name_list := namelist zip_file in
mret (fold_left
        (λ test_class_names name,
           let basename := Path.basename name in
           if Str.endswith "Test.class" basename
              && (String.length "Test.class" <? String.length basename)
              && negb (Str.contains_char "$" basename)
           then
             let class_name := drop_end 6 (replace_char "/" "." name) in
             test_class_names ++ [class_name]
           else test_class_names)
        name_list []).

(** [_jacoco_test_coverage_flag(jacocoagent, packages_under_test)]; the
  empty string is false. *)
Definition _jacoco_test_coverage_flag (jacocoagent packages_under_test : string) : string :=
if negb (String.eqb packages_under_test "") && negb (String.eqb jacocoagent "") then
  let jacocoagent := Path.abspath (cwd E) jacocoagent in
  let packages := Str.split ":" packages_under_test in
  let options :=
    [ "includes=" +:+
        Str.join ":" ((λ p, p +:+ ".*")
                        <$> List.filter (λ p, negb (String.eqb p "")) packages);
      "output=file" ] in
  "-javaagent:" +:+ jacocoagent +:+ "=" +:+ Str.join "," options
else "".
End JavaTests.

(** The member [name] is the class file of a test: its file name ends in
    [Test.class], is longer than that, and holds no [$]. *)
Definition test_class (name : string) : bool :=
  let basename := Path.basename name in
  Str.endswith "Test.class" basename
  && (String.length "Test.class" <? String.length basename)
  && negb (Str.contains_char "$" basename).

(** A jar of tests: a test, the class it tests, an inner class, a class
    named [Test] and a manifest. *)
Definition test_jar_env : env := {|
  cwd := "/w";
  files := λ _, None;
  zips := table [("t.jar", [Entry "com/x/FooTest.class" 1 "cafe";
                            Entry "com/x/Foo.class" 1 "cafe";
                            Entry "com/x/Outer$InnerTest.class" 1 "cafe";
                            Entry "com/x/Test.class" 1 "cafe";
                            Entry "BarTest.class" 1 "cafe";
                            Entry "META-INF/MANIFEST.MF" 1 "m"])];
  pylibs := λ _, None;
  clock := λ n, 0%Z;
|}.

(** ** Wrapper scripts *)

Section Wrappers.
Variable E : env.

(** The text of the script of [generate_java_test], after
  [textwrap.dedent] and [%]. *)
Definition java_test_script (coverage_flags classpath main_class test_classes : string)
: string :=
"#!/bin/sh" +:+ LF +:+
"# Auto generated wrapper shell script by blade" +:+ LF +:+
LF +:+
"if [ -n " +:+ DQ +:+ "$BLADE_COVERAGE" +:+ DQ +:+ " ]; then" +:+ LF +:+
"    coverage_options=" +:+ DQ +:+ coverage_flags +:+ DQ +:+ LF +:+
"fi" +:+ LF +:+
LF +:+
"exec java $coverage_options -classpath " +:+ classpath +:+ " " +:+ main_class
  +:+ " " +:+ test_classes +:+ " $@".

(** [generate_java_test(script, main_class, jacocoagent, packages_under_test, args)] *)
Definition generate_java_test (script main_class jacocoagent packages_under_test : string)
  (args : list string) : M unit :=
let jars := args in
test_jar ← orelse (jars !! 0) IndexError;
test_class_names ← _get_all_test_class_names_in_jar E test_jar;
let test_classes := Str.join " " test_class_names in
let coverage_flags := _jacoco_test_coverage_flag E jacocoagent packages_under_test in
write_file E script
  (java_test_script coverage_flags (Str.join ":" jars) main_class test_classes);;
chmod script 493.

(** The text of the script of [generate_java_binary]. *)
Definition java_binary_script (basename fullpath : string) : string :=
"#!/bin/sh" +:+ LF +:+
"# Auto generated wrapper shell script by blade" +:+ LF +:+
LF +:+
"jar=`dirname " +:+ DQ +:+ "$0" +:+ DQ +:+ "`/" +:+ DQ +:+ basename +:+ DQ +:+ LF +:+
"if [ ! -f " +:+ DQ +:+ "$jar" +:+ DQ +:+ " ]; then" +:+ LF +:+
"  jar=" +:+ DQ +:+ fullpath +:+ DQ +:+ LF +:+
"fi" +:+ LF +:+
LF +:+
"exec java -jar " +:+ DQ +:+ "$jar" +:+ DQ +:+ " $@" +:+ LF.

(** [generate_java_binary(args)]; unpacking [args] into two names raises
  [ValueError] when they are not two. *)
Definition generate_java_binary (args : list string) : M unit :=
match args with
| [script; onejar] =>
    let basename := Path.basename onejar in
    let fullpath := Path.abspath (cwd E) onejar in
    write_file E script (java_binary_script basename fullpath);;
    chmod script 493
| _ => raise ValueError
end.

(** The text of the script of [generate_scala_test]. *)
Definition scala_test_script (java_args java scala classpath run_args : string) : string :=
"#!/bin/sh" +:+ LF +:+
"# Auto generated wrapper shell script by blade" +:+ LF +:+
LF +:+
"if [ -n " +:+ DQ +:+ "$BLADE_COVERAGE" +:+ DQ +:+ " ]; then" +:+ LF +:+
"    coverage_options=" +:+ DQ +:+ java_args +:+ DQ +:+ LF +:+
"fi" +:+ LF +:+
LF +:+
"JAVACMD=" +:+ java +:+ " exec " +:+ scala +:+ " " +:+ DQ +:+ "$coverage_options" +:+ DQ
  +:+ " -classpath " +:+ classpath +:+ " " +:+ run_args +:+ " $@" +:+ LF.

(** [generate_scala_test(script, java, scala, jacocoagent, packages_under_test, args)] *)
Definition generate_scala_test (script java scala jacocoagent packages_under_test : string)
  (args : list string) : M unit :=
let jars := args in
test_jar ← orelse (jars !! 0) IndexError;
test_class_names ← _get_all_test_class_names_in_jar E test_jar;
let scala := Path.abspath (cwd E) scala in
let java := Path.abspath (cwd E) java in
let java_args := "" in
let coverage_flags := _jacoco_test_coverage_flag E jacocoagent packages_under_test in
let java_args :=
  if negb (String.eqb coverage_flags "") then "-J" +:+ coverage_flags else java_args in
let run_args := "org.scalatest.run " +:+ Str.join " " test_class_names in
write_file E script
  (scala_test_script java_args java scala (Str.join ":" jars) run_args);;
chmod script 493.

(** The text of the wrapper of [generate_shell_test]. *)
Definition shell_test_script (sourcing : string) : string :=
"#!/bin/sh" +:+ LF +:+
"# Auto generated wrapper shell script by blade" +:+ LF +:+
LF +:+
"set -e" +:+ LF +:+
LF +:+
sourcing +:+ LF +:+
LF.

(** [generate_shell_test(args)] *)
Definition generate_shell_test (args : list string) : M unit :=
wrapper ← orelse (args !! 0) IndexError;
let scripts := List.skipn 1 args in
write_file E wrapper
  (shell_test_script
     (Str.join LF ((λ s, ". " +:+ Path.abspath (cwd E) s) <$> scripts)));;
chmod wrapper 493.

(** [generate_shell_testdata(args)]; the file is written line by line. *)
Definition generate_shell_testdata (args : list string) : M unit :=
path ← orelse (args !! 0) IndexError;
let testdata := List.skipn 1 args in
assert (length testdata mod 2 =? 0);;
let middle := length testdata / 2 in
let sources := List.firstn middle testdata in
let destinations := List.skipn middle testdata in
text ← foldM (λ text i,
                s ← orelse (sources !! i) IndexError;
                d ← orelse (destinations !! i) IndexError;
                mret (text +:+ Path.abspath (cwd E) s +:+ " " +:+ d +:+ LF))
             "" (seq 0 middle);
write_file E path text;;
mret tt.
End Wrappers.

(** ** Library descriptors *)

(** The inputs [E] with other library descriptors. *)
Definition with_pylibs (pl : string → option pylib) (E : env) : env :=
  Env (cwd E) (files E) (zips E) pl (clock E).

(** Two descriptors that differ at most in the digests they give. *)
Definition same_paths (d1 d2 : pylib) : Prop :=
  base_dir d1 = base_dir d2 ∧ (srcs d1).*1 = (srcs d2).*1.

Section Library.
Variable md5sum : string → string.
(** [str(d)] for the dictionary [d] of a library descriptor. *)
Variable pylib_str : pylib → string.
Variable E : env.

(** [generate_python_library(pylib, basedir, args)] *)
Definition generate_python_library (pylib basedir : string) (args : list string) : M unit :=
sources ← foldM (λ sources py,
                   digest ← md5sum_file md5sum E py;
                   mret (sources ++ [(py, digest)]))
                [] args;
write_file E pylib (pylib_str (Pylib basedir sources) +:+ LF);;
mret tt.
End Library.

(** ** Copies of files *)

(** What was last written as a whole to the file [name], if anything. *)
Definition written (name : string) (l : log) : option string :=
  last (omap (λ ev, match ev with
                    | WriteFile p d => if decide (p = name) then Some d else None
                    | _ => None
                    end) l).

(** The content of the file [name] after the effects [l]: what was last
    written to it, or else what the inputs hold. *)
Definition content_after (E : env) (l : log) (name : string) : option string :=
  match written name l with
  | Some d => Some d
  | None => f_data <$> files E name
  end.

(** [shutil.copy(src, dst)] when [src] and [dst] are not one and the same
    file and [dst] is no directory: the content of [src] is read and
    written to [dst]. (The permission bits, which follow, are no part of
    a [file].) *)
Definition copy_file (E : env) (src dst : string) : M unit :=
  l ← get_log;
  data ← orelse (content_after E l src) IOError;
  emit (WriteFile dst data).

Section Copies.
Variable md5sum : string → string.
Variable E : env.
(** [shutil.copy]; copying a file to itself raises [shutil.Error], which is
  none of the exceptions of [exn], so the function is a parameter, equal
  to [copy_file] off that case (see [copies] below). *)
Variable shutil_copy : string → string → M unit.

(** [generate_securecc_object(args)]; [obj, phony_obj = args] raises
  [ValueError] unless [args] has two elements. *)
Definition generate_securecc_object (args : list string) : M unit :=
match args with
| [obj; phony_obj] =>
    match files E obj with
    | None => shutil_copy phony_obj obj
    | Some _ =>
        digest ← md5sum_file md5sum E obj;
        phony_digest ← md5sum_file md5sum E phony_obj;
        if negb (String.eqb digest phony_digest) then shutil_copy phony_obj obj
        else mret tt
    end
| _ => raise ValueError
end.

(** [generate_java_resource(args)] *)
Definition generate_java_resource (args : list string) : M unit :=
assert (length args mod 2 =? 0);;
let middle := length args / 2 in
let targets := List.firstn middle args in
let sources := List.skipn middle args in
forM (seq 0 middle)
     (λ i,
        s ← orelse (sources !! i) IndexError;
        t ← orelse (targets !! i) IndexError;
        shutil_copy s t).
End Copies.

(** What is known of [shutil.copy]. *)
Definition copies (E : env) (shutil_copy : string → string → M unit) : Prop :=
  ∀ src dst l,
    src ≠ dst ∨ content_after E l src = None →
    shutil_copy src dst l = copy_file E src dst l.

(** ** The other generators *)

(** [s.replace(old, new)] for a non-empty [old]: the occurrences of [old]
    are replaced from left to right. Every step takes at least one
    character of [s], so the fuel is not used up. *)
Fixpoint replace_fuel (fuel : nat) (old new s : string) : string :=
  match fuel with
  | O => s
  | S n =>
      if Str.startswith old s
      then new +:+ replace_fuel n old new (Str.drop (String.length old) s)
      else match s with
           | "" => ""
           | String a s' => String a (replace_fuel n old new s')
           end
  end.

Definition replace (old new s : string) : string :=
  replace_fuel (S (String.length s)) old new s.

(** ['%d' % n] *)
Fixpoint decimal_fuel (fuel n : nat) (acc : string) : string :=
  match fuel with
  | O => acc
  | S f =>
      let acc := String (ascii_of_nat (48 + n mod 10)) acc in
      if n <? 10 then acc else decimal_fuel f (n / 10) acc
  end.

Definition decimal (n : nat) : string := decimal_fuel (S n) n "".

Definition SP16 : string := "                ".

(** The text of [scm.c]. The template is a raw string that starts with a
    backslash and a line feed, so [textwrap.dedent] finds no margin to
    remove and [\n] stays a backslash and an [n]. *)
Definition scm_text (version profile build_time user host compiler : string) : string :=
  "\" +:+ LF +:+
  SP16 +:+ "/* This file was generated by blade */" +:+ LF +:+
  SP16 +:+ "extern " +:+ DQ +:+ "C" +:+ DQ +:+ " {" +:+ LF +:+
  SP16 +:+ "namespace binary_version {" +:+ LF +:+
  SP16 +:+ "extern const int kSvnInfoCount = 1;" +:+ LF +:+
  SP16 +:+ "extern const char* const kSvnInfo[] = {" +:+ DQ +:+ version +:+ "\n" +:+ DQ
       +:+ "};" +:+ LF +:+
  SP16 +:+ "extern const int kScmInfoCount = 1;" +:+ LF +:+
  SP16 +:+ "extern const char* const kScmInfo[] = {" +:+ DQ +:+ version +:+ "\n" +:+ DQ
       +:+ "};" +:+ LF +:+
  SP16 +:+ "extern const char kBuildType[] = " +:+ DQ +:+ profile +:+ DQ +:+ ";" +:+ LF +:+
  SP16 +:+ "extern const char kBuildTime[] = " +:+ DQ +:+ build_time +:+ DQ +:+ ";" +:+ LF +:+
  SP16 +:+ "extern const char kBuilderName[] = " +:+ DQ +:+ user +:+ DQ +:+ ";" +:+ LF +:+
  SP16 +:+ "extern const char kHostName[] = " +:+ DQ +:+ host +:+ DQ +:+ ";" +:+ LF +:+
  SP16 +:+ "extern const char kCompiler[] = " +:+ DQ +:+ compiler +:+ DQ +:+ ";" +:+ LF +:+
  SP16 +:+ "}}".

(** The four pieces of fixed text of a resource index, after
    [textwrap.dedent] and [format]. *)
Definition resource_header_head (guard_name : string) : string :=
  "// This file was automatically generated by blade" +:+ LF +:+
  "#ifndef " +:+ guard_name +:+ LF +:+
  "#define " +:+ guard_name +:+ LF +:+
  LF +:+
  "#ifdef __cplusplus" +:+ LF +:+
  "extern " +:+ DQ +:+ "C" +:+ DQ +:+ " {" +:+ LF +:+
  "#endif" +:+ LF +:+
  LF +:+
  "#ifndef BLADE_RESOURCE_TYPE_DEFINED" +:+ LF +:+
  "#define BLADE_RESOURCE_TYPE_DEFINED" +:+ LF +:+
  "struct BladeResourceEntry {" +:+ LF +:+
  "    const char* name;" +:+ LF +:+
  "    const char* data;" +:+ LF +:+
  "    unsigned int size;" +:+ LF +:+
  "};" +:+ LF +:+
  "#endif".

Definition resource_source_head (header index_name : string) : string :=
  "// This file was automatically generated by blade" +:+ LF +:+
  "#include " +:+ DQ +:+ header +:+ DQ +:+ LF +:+
  LF +:+
  "const struct BladeResourceEntry " +:+ index_name +:+ "[] = {".

Definition resource_source_tail (index_name : string) (n : nat) : string :=
  "};" +:+ LF +:+
  "const unsigned " +:+ index_name +:+ "_len = " +:+ decimal n +:+ ";".

Definition resource_header_tail (index_name guard_name : string) : string :=
  "// Resource index" +:+ LF +:+
  "extern const struct BladeResourceEntry " +:+ index_name +:+ "[];" +:+ LF +:+
  "extern const unsigned " +:+ index_name +:+ "_len;" +:+ LF +:+
  LF +:+
  "#ifdef __cplusplus" +:+ LF +:+
  "}  // extern " +:+ DQ +:+ "C" +:+ DQ +:+ LF +:+
  "#endif" +:+ LF +:+
  LF +:+
  "#endif  // " +:+ guard_name.

Section Generators.
Variable E : env.
(** [time.asctime()] at a given time, [getpass.getuser()] and
  [socket.gethostname()]. *)
Variable asctime : Z → string.
Variable getuser gethostname : string.
(** [blade_util.regular_variable_name] and [blade_util.shell]; what a
  command does is up to [shell]. *)
Variable regular_variable_name : string → string.
Variable shell : list string → M (option Z).
(** [shutil.copy2] *)
Variable shutil_copy2 : string → string → M unit.
(** [console.set_log_file], [console.enable_color] and
  [fatjar.generate_fat_jar]. *)
Variable console_set_log_file : string → M unit.
Variable console_enable_color : bool → M unit.
Variable fatjar_generate_fat_jar : string → list string → M unit.

(** [generate_scm(scm, revision, url, profile, compiler, args)] *)
Definition generate_scm (scm revision url profile compiler : string) (args : list string)
: M unit :=
let version := url +:+ "@" +:+ revision in
t ← now E;
write_file E scm (scm_text version profile (asctime t) getuser gethostname compiler);;
mret tt.

(** The loop of [_generate_resource_index] over the sources: the text
  written so far to the header and to the source file, and the exception
  that ended the loop, if any. The size is that of a regular file. *)
Fixpoint resource_entries (path : string) (sources : list string) (h c : string)
: string * string * option exn :=
match sources with
| [] => (h, c, None)
| s :: rest =>
    let entry_var := regular_variable_name s in
    match Path.relpath (cwd E) s path with
    | None => (h, c, Some ValueError)
    | Some entry_name =>
        match files E s with
        | None => (h, c, Some OSError)
        | Some f =>
            let entry_size := decimal (String.length (f_data f)) in
            let h := h +:+ "// " +:+ entry_name +:+ LF in
            let h := h +:+ "extern const char RESOURCE_" +:+ entry_var +:+ "["
                       +:+ entry_size +:+ "];" +:+ LF in
            let h := h +:+ "extern const unsigned RESOURCE_" +:+ entry_var +:+ "_len;"
                       +:+ LF in
            let c := c +:+ "    { " +:+ DQ +:+ entry_name +:+ DQ +:+ ", RESOURCE_"
                       +:+ entry_var +:+ ", " +:+ entry_size +:+ " }," +:+ LF in
            resource_entries path rest h c
        end
    end
end.

(** [_generate_resource_index(targets, sources, name, path)]; both files
  are closed with what was written to them, also when the loop raises. *)
Definition _generate_resource_index (targets : string * string) (sources : list string)
  (name path : string) : M unit :=
let '(header, source) := targets in
let full_name := regular_variable_name (Path.join path [name]) in
let guard_name := "BLADE_RESOURCE_" +:+ Str.upper full_name +:+ "_H_" in
let index_name := "RESOURCE_INDEX_" +:+ full_name in
let h := resource_header_head guard_name in
let c := resource_source_head header index_name in
match resource_entries path sources h c with
| (h, c, Some e) =>
    emit (WriteFile header h);;
    emit (WriteFile source c);;
    raise e
| (h, c, None) =>
    let c := c +:+ resource_source_tail index_name (length sources) in
    let h := h +:+ resource_header_tail index_name guard_name in
    emit (WriteFile header h);;
    emit (WriteFile source c)
end.

(** [generate_resource_index(args)] *)
Definition generate_resource_index (args : list string) : M unit :=
name ← orelse (args !! 0) IndexError;
path ← orelse (args !! 1) IndexError;
t0 ← orelse (args !! 2) IndexError;
t1 ← orelse (args !! 3) IndexError;
let targets := (t0, t1) in
let sources := List.skipn 4 args in
_generate_resource_index targets sources name path.

(** [archive_resources(resources_dir, resources, new)] of
  [generate_java_jar]. *)
Definition archive_resources (jar target resources_dir : string) (resources : list string)
  (new : bool) : M (option Z) :=
let option := if new then "cf" else "uf" in
let cmd := [jar +:+ " " +:+ option +:+ " " +:+ target] in
cmd ← foldM (λ cmd resource,
               rel ← orelse (Path.relpath (cwd E) resource resources_dir) ValueError;
               mret (cmd ++ ["-C '" +:+ resources_dir +:+ "' '" +:+ rel +:+ "'"]))
            cmd resources;
shell cmd.

(** [generate_java_jar(args)]; the value is [None] where the function
  returns nothing. *)
Definition generate_java_jar (args : list string) : M (option Z) :=
jar ← orelse (args !! 0) IndexError;
target ← orelse (args !! 1) IndexError;
let resources_dir := replace ".jar" ".resources" target in
arg ← orelse (args !! 2) IndexError;
let '(classes_jar, resources) :=
  if Str.endswith "__classes__.jar" arg then (arg, List.skipn 3 args)
  else ("", List.skipn 2 args) in
if negb (String.eqb classes_jar "") then
  shutil_copy2 classes_jar target;;
  match resources with
  | [] => mret None
  | _ => archive_resources jar target resources_dir resources false
  end
else archive_resources jar target resources_dir resources true.

(** [generate_fat_jar(args)] *)
Definition generate_fat_jar (args : list string) : M unit :=
jar ← orelse (args !! 0) IndexError;
console_set_log_file (replace ".fat.jar" "__fatjar__" jar +:+ ".log");;
console_enable_color true;;
fatjar_generate_fat_jar jar (List.skipn 1 args).
End Generators.

(** ** The command line tool *)

(** A build function: the names of its parameters other than [args], and
    the call with a value for each of them; the value returned is [None]
    or a number. *)
Record tool := Tool {
  tool_params : list string;
  tool_call : (string → string) → list string → M (option Z);
}.

(** A function that ends without [return]. *)
Definition returns_none (m : M unit) : M (option Z) := m;; mret None.

(** How the interpreter ends: with an exit status, with an exception no one
    caught, or never. *)
Inductive status :=
  | Exit (code : Z)
  | Uncaught (e : exn)
  | Hang.

(** The exit status of [sys.exit(ret)] for a number [ret]. A number within
    the range of a C [long] is a Python [int]: the interpreter hands it to
    [exit], and the system keeps its low eight bits, so that [-9] gives 247
    and [256] gives 0. A number beyond that range is a [long], which
    [sys.exit] prints before it ends with status 1. *)
Definition exit_status (ret : Z) : Z :=
  if decide (- 2 ^ 63 ≤ ret < 2 ^ 63)%Z then (ret mod 256)%Z else 1%Z.

(** [f(args=args, **options)] for a function whose parameters all are
    required: the call is made when the keys of [options] are the
    parameters of [f] other than [args], no more and no less; [None] is the
    [TypeError] raised otherwise. *)
Definition call_tool (t : tool) (options : gmap string string) (args : list string)
  : option (M (option Z)) :=
  if decide (dom options = list_to_set (tool_params t))
  then Some (tool_call t (λ name, default "" (options !! name)) args)
  else None.

Section Main.
Variable fnmatch : string → string → bool.
Variable md5sum : string → string.
Variable zip_bytes : list entry → string.
Variable pylib_str : pylib → string.
Variable E : env.
Variable asctime : Z → string.
Variable getuser gethostname : string.
Variable regular_variable_name : string → string.
Variable shell : list string → M (option Z).
Variable shutil_copy shutil_copy2 : string → string → M unit.
Variable console_set_log_file : string → M unit.
Variable console_enable_color : bool → M unit.
Variable fatjar_generate_fat_jar : string → list string → M unit.

(** The dictionary [_BUILTIN_TOOLS], in the order of the source. *)
Definition _BUILTIN_TOOLS : list (string * tool) := [
("scm",
 Tool ["scm"; "revision"; "url"; "profile"; "compiler"]
   (λ kw args, returns_none
      (generate_scm E asctime getuser gethostname
         (kw "scm") (kw "revision") (kw "url") (kw "profile") (kw "compiler") args)));
("package",
 Tool [] (λ kw args, returns_none (generate_package md5sum E args)));
("securecc_object",
 Tool [] (λ kw args, returns_none (generate_securecc_object md5sum E shutil_copy args)));
("resource_index",
 Tool [] (λ kw args, returns_none (generate_resource_index E regular_variable_name args)));
("java_jar",
 Tool [] (λ kw args, generate_java_jar E shell shutil_copy2 args));
("java_resource",
 Tool [] (λ kw args, returns_none (generate_java_resource shutil_copy args)));
("java_test",
 Tool ["script"; "main_class"; "jacocoagent"; "packages_under_test"]
   (λ kw args, returns_none
      (generate_java_test E (kw "script") (kw "main_class") (kw "jacocoagent")
         (kw "packages_under_test") args)));
("java_fatjar",
 Tool [] (λ kw args, returns_none
            (generate_fat_jar console_set_log_file console_enable_color
               fatjar_generate_fat_jar args)));
("java_onejar",
 Tool ["onejar"; "main_class"; "bootjar"]
   (λ kw args, returns_none
      (generate_one_jar E (kw "onejar") (kw "main_class") (kw "bootjar") args)));
("java_binary",
 Tool [] (λ kw args, returns_none (generate_java_binary E args)));
("scala_test",
 Tool ["script"; "java"; "scala"; "jacocoagent"; "packages_under_test"]
   (λ kw args, returns_none
      (generate_scala_test E (kw "script") (kw "java") (kw "scala") (kw "jacocoagent")
         (kw "packages_under_test") args)));
("shell_test",
 Tool [] (λ kw args, returns_none (generate_shell_test E args)));
("shell_testdata",
 Tool [] (λ kw args, returns_none (generate_shell_testdata E args)));
("python_library",
 Tool ["pylib"; "basedir"]
   (λ kw args, returns_none
      (generate_python_library md5sum pylib_str E (kw "pylib") (kw "basedir") args)));
("python_binary",
 Tool ["pybin"; "basedir"; "exclusions"; "mainentry"]
   (λ kw args, returns_none
      (generate_python_binary fnmatch zip_bytes E (kw "pybin") (kw "basedir")
         (kw "exclusions") (kw "mainentry") args)))
].

(** [_BUILTIN_TOOLS[name]] *)
Definition builtin_tool (name : string) : option tool :=
snd <$> List.find (λ kv, String.eqb (fst kv) name) _BUILTIN_TOOLS.

(** How the interpreter ends after [ret] got its value: [sys.exit(ret)]
  is called when [ret] is neither [None] nor [0], and the status of a
  program that ends without it is 0, which is [exit_status 0]. *)
Definition finish (r : log * result (option Z)) : log * status :=
match r with
| (l, Ok (Some code)) => (l, Exit (exit_status code))
| (l, Ok None) => (l, Exit 0)
| (l, Raise _) => (l, Exit 1)
| (l, Diverge) => (l, Hang)
end.

(** [main()], for [sys.argv = argv]. [sys.argv[1]] is read outside [try].
  Inside, every exception of [exn] is an [Exception], so that
  [except Exception] catches it and [ret = 1]; so it is for the
  [KeyError] of a name that is no tool and for the [TypeError] of a call
  with the wrong keywords. [sys.exit(ret)] is called when [ret] is
  neither [None] nor [0]. The message [console.error] prints is no effect
  on the files. *)
Definition main (argv : list string) (l : log) : log * status :=
match argv !! 1 with
| None => (l, Uncaught IndexError)
| Some name =>
    let '(options, args) := parse_command_line (List.skipn 2 argv) in
    match builtin_tool name with
    | None => (l, Exit 1)
    | Some t =>
        match call_tool t options args with
        | None => (l, Exit 1)
        | Some m => finish (m l)
        end
    end
end.
End Main.

(** ** The tool of the examples *)

(** [main] on the inputs of the examples; the commands of [shell] and the
    calls of [console] and [fatjar] do nothing. *)
Definition sample_main : list string → log → log * status :=
  main glob_fnmatch sum_digest TrailerCodec.zip_bytes (λ _, "") sample_env
    (λ _, "") "" "" (λ s, s) (λ _, mret None)
    (copy_file sample_env) (copy_file sample_env)
    (λ _, mret tt) (λ _, mret tt) (λ _ _, mret tt).

(** The command of [archive_resources]. *)
Definition jar_command (E : env) (jar option target resources_dir : string)
    (resources : list string) : list string :=
  (jar +:+ " " +:+ option +:+ " " +:+ target)
  :: omap (λ resource,
             rel ← Path.relpath (cwd E) resource resources_dir;
             Some ("-C '" +:+ resources_dir +:+ "' '" +:+ rel +:+ "'"))
          resources.

(** * Properties *)

Example dirname_ex1 : Path.dirname "a/b/c.py" = "a/b". Proof. reflexivity. Qed.
Example dirname_ex2 : Path.dirname "c.py" = "". Proof. reflexivity. Qed.
Example dirname_ex3 : Path.dirname "/a" = "/". Proof. reflexivity. Qed.
Example dirname_ex4 : Path.dirname "/" = "/". Proof. reflexivity. Qed.
Example dirname_ex5 : Path.dirname "a//b" = "a". Proof. reflexivity. Qed.
Example basename_ex1 : Path.basename "a/b/c.py" = "c.py". Proof. reflexivity. Qed.
Example normpath_ex1 : Path.normpath "a/./b/../c" = "a/c". Proof. reflexivity. Qed.
Example normpath_ex2 : Path.normpath "/../a//b/" = "/a/b". Proof. reflexivity. Qed.
Example normpath_ex3 : Path.normpath "../../a" = "../../a". Proof. reflexivity. Qed.
Example relpath_ex1 : Path.relpath "/w" "src/pkg/mod.py" "src" = Some "pkg/mod.py".
Proof. reflexivity. Qed.
Example relpath_ex2 : Path.relpath "/w" "lib/x.py" "src/a" = Some "../../lib/x.py".
Proof. reflexivity. Qed.
Example split_ex1 : Str.split "," "a,,b" = ["a"; ""; "b"]. Proof. reflexivity. Qed.
Example split_ex2 : Str.split "," "" = [""]. Proof. reflexivity. Qed.
Example find_ex1 : Str.find "=" "--a=b=c" = 3%Z. Proof. reflexivity. Qed.
Example endswith_ex1 : Str.endswith ".whl" "a.whl" = true. Proof. reflexivity. Qed.

Lemma cut_eq_app n v :
  Str.contains_char "=" n = false → cut_eq (n +:+ "=" +:+ v) = Some (n, v).
Proof.
  induction n as [|a n IH]; simpl; [done|].
  intros [Ha Hn]%orb_false_elim.
  change (String a n +:+ "=" +:+ v) with (String a (n +:+ "=" +:+ v)).
  simpl. by rewrite Ha, IH.
Qed.

Lemma cut_eq_inv s n v :
  cut_eq s = Some (n, v) → s = n +:+ "=" +:+ v ∧ Str.contains_char "=" n = false.
Proof.
  revert n v. induction s as [|a s IH]; intros n v; simpl; [done|].
  destruct (Ascii.eqb a "=") eqn:Ha.
  - apply Ascii.eqb_eq in Ha as ->. by intros [= <- <-].
  - destruct (cut_eq s) as [[n' v']|]; [|done].
    intros [= <- <-]. destruct (IH n' v' eq_refl) as [-> Hn].
    split; [done|]. simpl. by rewrite Ha.
Qed.

Lemma cut_eq_form s n v :
  cut_eq s = Some (n, v) ↔ s = n +:+ "=" +:+ v ∧ Str.contains_char "=" n = false.
Proof.
  split; [apply cut_eq_inv|]. intros [-> Hn]. by apply cut_eq_app.
Qed.

Lemma classify_form arg n v : classify arg = Some (n, v) ↔ option_form arg n v.
Proof.
  unfold option_form. destruct arg as [|a [|b rest]]; simpl.
  - split; [done|]. by intros [? _].
  - split; [by destruct a as [[][][][][][][][]]|]. intros [H _]. discriminate.
  - split.
    + intros H.
      assert (a = "-"%char ∧ b = "-"%char ∧ cut_eq rest = Some (n, v)) as (-> & -> & Hc).
      { destruct a as [[][][][][][][][]]; try done;
        destruct b as [[][][][][][][][]]; try done. }
      apply cut_eq_form in Hc as [-> Hn]. done.
    + intros [[= -> -> ->] Hn]. by apply cut_eq_form.
Qed.

Lemma find_cut s :
  match cut_eq s with
  | Some (n, v) => Str.find "=" s = Z.of_nat (String.length n)
                   ∧ Str.take (String.length n) s = n
                   ∧ Str.drop (S (String.length n)) s = v
  | None => Str.find "=" s = (-1)%Z
  end.
Proof.
  induction s as [|a s IH]; simpl; [done|].
  destruct (Ascii.eqb a "=") eqn:Ha; [done|].
  destruct (cut_eq s) as [[n v]|].
  - destruct IH as (Hf & Hn & Hv). rewrite Hf. cbn [String.length Str.take Str.drop].
    rewrite Hn. split_and!; [|done|done].
    destruct (Z.ltb_spec (Z.of_nat (String.length n)) 0); lia.
  - rewrite IH. done.
Qed.

Lemma startswith_dashes arg :
  Str.startswith "--" arg = true ↔ ∃ rest, arg = String "-" (String "-" rest).
Proof.
  split.
  - destruct arg as [|a [|b rest]]; cbn [Str.startswith];
      [done|by rewrite andb_false_r|].
    rewrite andb_true_r. intros [Ha Hb]%andb_true_iff.
    apply Ascii.eqb_eq in Ha as <-, Hb as <-. eauto.
  - by intros [rest ->].
Qed.

Lemma classify_none_prefix arg :
  Str.startswith "--" arg = false → classify arg = None.
Proof.
  intros Hp. destruct (classify arg) as [[n v]|] eqn:Hc; [|done].
  assert (Str.startswith "--" arg = true); [|congruence].
  apply startswith_dashes. destruct arg as [|a [|b rest]]; try done.
  - by destruct a as [[][][][][][][][]].
  - destruct a as [[][][][][][][][]]; try done;
      destruct b as [[][][][][][][][]]; try done; eauto.
Qed.

(** The body of the loop of [parse_command_line] is [parse_step]. *)
Lemma body_step (options : gmap string string) (args : list string) arg :
  (if Str.startswith "--" arg then
     let pos := Str.find "=" arg in
     if (pos <? 0)%Z then (options, args ++ [arg])
     else (<[Str.slice 2 (Z.to_nat pos) arg := Str.drop (Z.to_nat (pos + 1)) arg]> options,
           args)
   else (options, args ++ [arg])) = parse_step (options, args) arg.
Proof.
  unfold parse_step. destruct (Str.startswith "--" arg) eqn:Hp.
  - apply startswith_dashes in Hp as [rest ->].
    cbn [classify]. pose proof (find_cut rest) as Hf.
    cbn [Str.find]. change (Ascii.eqb "-" "=") with false. cbv iota.
    destruct (cut_eq rest) as [[n v]|].
    + destruct Hf as (-> & Hn & Hv). cbn zeta.
      destruct (Z.ltb_spec (Z.of_nat (String.length n)) 0) as [|_]; [lia|].
      destruct (Z.ltb_spec (Z.of_nat (String.length n) + 1) 0) as [|_]; [lia|].
      destruct (Z.ltb_spec (Z.of_nat (String.length n) + 1 + 1) 0) as [|_]; [lia|].
      replace (Z.to_nat (Z.of_nat (String.length n) + 1 + 1))
        with (S (S (String.length n))) by lia.
      replace (Z.to_nat (Z.of_nat (String.length n) + 1 + 1 + 1))
        with (S (S (S (String.length n)))) by lia.
      unfold Str.slice.
      replace (S (S (String.length n)) - 2) with (String.length n) by lia.
      change (Str.drop (S (S (S (String.length n)))) (String "-" (String "-" rest)))
        with (Str.drop (S (String.length n)) rest).
      change (Str.drop 2 (String "-" (String "-" rest))) with rest.
      cbn [fst snd]. by rewrite Hn, Hv.
    + rewrite Hf. done.
  - by rewrite classify_none_prefix.
Qed.

Lemma parse_fold argv : parse_command_line argv = fold_left parse_step argv (∅, []).
Proof.
  unfold parse_command_line. generalize (∅ : gmap string string, [] : list string).
  induction argv as [|arg argv IH]; intros [options args]; [done|].
  cbn [fold_left]. rewrite body_step. apply IH.
Qed.

Lemma fold_step_args argv st :
  (fold_left parse_step argv st).2 = st.2 ++ List.filter positional argv.
Proof.
  revert st. induction argv as [|arg argv IH]; intros st; simpl.
  - by rewrite app_nil_r.
  - rewrite IH. unfold parse_step, positional.
    destruct (classify arg) as [[n v]|]; simpl; [done|].
    by rewrite <-app_assoc.
Qed.

Lemma fold_step_options argv st :
  (fold_left parse_step argv st).1 = list_to_map (reverse (omap classify argv)) ∪ st.1.
Proof.
  revert st. induction argv as [|arg argv IH]; intros st; simpl.
  - by rewrite (left_id_L ∅ (∪)).
  - rewrite IH. unfold parse_step.
    destruct (classify arg) as [[n v]|]; simpl; [|done].
    rewrite reverse_cons, list_to_map_app. simpl.
    rewrite <-(assoc_L (∪)). f_equal.
    rewrite insert_empty. by rewrite <-insert_union_singleton_l.
Qed.

Lemma fold_step_keeps post st name :
  (∀ a v, a ∈ post → ¬ option_form a name v) →
  (fold_left parse_step post st).1 !! name = st.1 !! name.
Proof.
  revert st. induction post as [|a post IH]; intros st Hpost; [done|].
  simpl. rewrite IH by (intros; apply Hpost; by right).
  unfold parse_step. destruct (classify a) as [[n v]|] eqn:Hc; [|done].
  simpl. apply lookup_insert_ne. intros ->.
  apply (Hpost a v); [by left|]. by apply classify_form.
Qed.

Lemma classify_no_eq rest :
  Str.contains_char "=" rest = false → classify ("--" +:+ rest) = None.
Proof.
  intros Hr. change ("--" +:+ rest) with (String "-" (String "-" rest)).
  cbn [classify]. destruct (cut_eq rest) as [[n v]|] eqn:Hc; [|done].
  apply cut_eq_inv in Hc as [-> _]. exfalso. clear -Hr.
  induction n as [|a n IH].
  - change ("" +:+ "=" +:+ v) with (String "=" v) in Hr. done.
  - change (String a n +:+ "=" +:+ v) with (String a (n +:+ "=" +:+ v)) in Hr.
    simpl in Hr. apply orb_false_elim in Hr as [_ Hr]. auto.
Qed.

(** C9. [parse_command_line] classifies its arguments as the spec says: the
  options are the arguments of the form [--name=value], cut at the first
  [=], collected so that a later value replaces an earlier one, and the
  positional arguments are all the others, among them those that start
  with [--] and hold no [=], in their order. *)
Theorem parse_command_line_classifies :
(∀ argv,
   parse_command_line argv =
     (list_to_map (reverse (omap classify argv)),
      List.filter positional argv))
∧ (∀ arg name value,
     classify arg = Some (name, value)
     ↔ option_form arg name value)
∧ (∀ rest, Str.contains_char "=" rest = false →
     positional ("--" +:+ rest) = true)
∧ (∀ arg, Str.startswith "--" arg = false → positional arg = true)
∧ (∀ pre post name value,
     Str.contains_char "=" name = false →
     (∀ a v, a ∈ post → ¬ option_form a name v) →
     (parse_command_line (pre ++ ("--" +:+ name +:+ "=" +:+ value) :: post)).1 !! name
     = Some value).
Proof.
split_and!.
- intros argv. rewrite parse_fold.
  rewrite (surjective_pairing (fold_left _ _ _)).
  rewrite fold_step_options, fold_step_args. simpl.
  by rewrite (right_id_L ∅ (∪)).
- apply classify_form.
- intros rest Hr. unfold positional.
  by rewrite classify_no_eq.
- intros arg Hp. unfold positional.
  by rewrite classify_none_prefix.
- intros pre post name value Hn Hpost.
  rewrite parse_fold, fold_left_app. cbn [fold_left].
  rewrite fold_step_keeps by done.
  unfold parse_step at 1.
  assert (classify ("--" +:+ name +:+ "=" +:+ value) = Some (name, value))
    as ->.
  { by apply classify_form. }
  apply lookup_insert_eq.
Qed.

Example parse_command_line_ex :
parse_command_line ["--a=b"; "c"; "--d"; "--a=e=f"; "-x=1"]
= (<["a" := "e=f"]> ∅, ["c"; "--d"; "-x=1"]).
Proof. vm_compute. reflexivity. Qed.

(** ** The monad *)

Lemma bind_eq {A B} (m : M A) (f : A → M B) l :
  (m ≫= f) l = match m l with
               | (l', Ok a) => f a l'
               | (l', Raise e) => (l', Raise e)
               | (l', Diverge) => (l', Diverge)
               end.
Proof. reflexivity. Qed.

Lemma bind_ok {A B} (m : M A) (f : A → M B) l l' b :
  (m ≫= f) l = (l', Ok b) ↔ ∃ a l1, m l = (l1, Ok a) ∧ f a l1 = (l', Ok b).
Proof.
  rewrite bind_eq. destruct (m l) as [l1 [a|e|]]; split; try done; eauto.
  - by intros (? & ? & [= -> ->] & ?).
  - by intros (? & ? & ? & ?).
  - by intros (? & ? & ? & ?).
Qed.

Lemma ret_eq {A} (a : A) l : (mret a : M A) l = (l, Ok a).
Proof. reflexivity. Qed.

Lemma foldM_cons {A S} (body : S → A → M S) s x xs :
  foldM body s (x :: xs) = (body s x ≫= λ s', foldM body s' xs).
Proof. reflexivity. Qed.

Lemma foldM_app {A S} (body : S → A → M S) s xs ys l :
  foldM body s (xs ++ ys) l = (foldM body s xs ≫= λ s', foldM body s' ys) l.
Proof.
  revert s l. induction xs as [|x xs IH]; intros s l; [done|].
  simpl. rewrite !bind_eq. destruct (body s x l) as [l1 [s1|e|]]; [|done..].
  rewrite IH. by rewrite bind_eq.
Qed.

Section Package.
Variable md5sum : string → string.
Variable E : env.

Lemma zip_write_adds path : adds E path zip_arcname zip_stamp (zip_write E path).
Proof.
  intros s d l. unfold zip_write, stat. rewrite bind_eq.
  destruct (files E s) as [f|]; [|done]. simpl. rewrite bind_eq.
  by destruct (zip_arcname d).
Qed.

Lemma tar_add_adds path :
  adds E path (λ d, Some (Str.lstrip_slash d)) id (tar_add E path).
Proof.
  intros s d l. unfold tar_add, stat. rewrite bind_eq.
  by destruct (files E s) as [f|].
Qed.

Lemma aps_loop path namef stamp package sources destinations :
  adds E path namef stamp package →
  ∀ k acc l l' manifest,
    foldM (aps_body md5sum E package destinations) acc (zip (seq k (length sources)) sources) l
    = (l', Ok manifest) →
    ∃ es lines,
      l' = l ++ (Put path <$> es) ∧ manifest = acc ++ lines
      ∧ Forall2 (λ '(s, d) '(e, line), packaged md5sum E namef stamp s d e line)
          (zip sources (drop k destinations)) (zip es lines)
      ∧ length es = length sources ∧ length lines = length sources
      ∧ length sources ≤ length (drop k destinations).
Proof.
  intros Hadd. induction sources as [|s sources IH]; intros k acc l l' manifest.
  - intros [= <- <-]. exists [], []. simpl. rewrite !app_nil_r.
    split_and!; try done. lia.
  - cbn [length seq zip zip_with]. rewrite foldM_cons.
    intros (m1 & l1 & Hb & Hrest)%bind_ok.
    unfold aps_body in Hb at 1.
    apply bind_ok in Hb as (d & l2 & Hd & Hb).
    destruct (destinations !! k) as [d0|] eqn:Hk; [|done].
    injection Hd as <- <-.
    apply bind_ok in Hb as ([] & l3 & Hp & Hb). rewrite Hadd in Hp.
    apply bind_ok in Hb as (digest & l4 & Hm & [= <- <-]).
    unfold md5sum_file, read_file in Hm. rewrite bind_eq in Hm. rewrite bind_eq in Hm.
    destruct (files E s) as [f|] eqn:Hf; [|done].
    destruct (namef d0) as [a|] eqn:Ha; [|done].
    injection Hp as <-. simpl in Hm. injection Hm as <- <-.
    apply IH in Hrest as (es & lines & -> & -> & HF & Hes & Hlines & Hlen).
    exists (Entry a (stamp (f_mtime f)) (f_data f) :: es),
      ((md5sum (f_data f) +:+ " " +:+ d0) :: lines).
    rewrite (drop_S _ _ _ Hk). cbn [length zip zip_with fmap list_fmap].
    rewrite <-!app_assoc.
    split_and!; [done|done| |simpl; lia|simpl; lia|simpl in *; lia].
    constructor; [|done]. by exists f, a.
Qed.

Lemma aps_loop_ok path namef stamp package sources destinations :
  adds E path namef stamp package →
  ∀ k acc l,
    Forall2 (packable E namef) sources (drop k destinations) →
    ∃ l' manifest,
      foldM (aps_body md5sum E package destinations) acc (zip (seq k (length sources)) sources) l
      = (l', Ok manifest).
Proof.
  intros Hadd. induction sources as [|s sources IH]; intros k acc l HF.
  - by eexists _, _.
  - apply Forall2_cons_inv_l in HF as (d & ds & (f & a & Hf & Ha) & HF & Hd).
    assert (destinations !! k = Some d) as Hk.
    { rewrite <-(Nat.add_0_r k), <-lookup_drop, Hd. done. }
    rewrite (drop_S _ _ _ Hk) in Hd. injection Hd as <-.
    cbn [length seq zip zip_with]. rewrite foldM_cons, bind_eq.
    unfold aps_body at 1. rewrite bind_eq, Hk. simpl.
    rewrite bind_eq, Hadd, Hf, Ha. rewrite bind_eq.
    unfold md5sum_file, read_file. rewrite bind_eq, bind_eq, Hf. simpl.
    apply IH. done.
Qed.
End Package.

(** ** Archives in the log *)

Lemma archive_of_app path l1 l2 :
  archive_of path (l1 ++ l2) = archive_of path l1 ++ archive_of path l2.
Proof. apply omap_app. Qed.

Lemma archive_of_puts path es : archive_of path (Put path <$> es) = es.
Proof.
  induction es as [|e es IH]; [done|].
  unfold archive_of at 1. cbn [fmap list_fmap omap list_omap].
  rewrite decide_True by done. fold (archive_of path (Put path <$> es)).
  by rewrite IH.
Qed.

Section PackageTop.
Variable md5sum : string → string.
Variable E : env.

Lemma aps_unfold package sources destinations :
  archive_package_sources md5sum E package sources destinations
  = foldM (aps_body md5sum E package destinations) []
      (zip (seq 0 (length sources)) sources).
Proof. reflexivity. Qed.

(** The log of a zip package that was composed. *)
Lemma generate_zip_package_inv path sources destinations l :
  run (generate_zip_package md5sum E path sources destinations) = (l, Ok tt) →
  ∃ es lines,
    l = [Open path ZipDeflated] ++ (Put path <$> es)
        ++ [Put path (Entry _PACKAGE_MANIFEST (zip_stamp (clock E (S (length es))))
                        (Str.join LF lines +:+ LF));
            Close path]
    ∧ Forall2 (λ '(s, d) '(e, line), packaged md5sum E zip_arcname zip_stamp s d e line)
        (zip sources destinations) (zip es lines)
    ∧ length es = length sources ∧ length lines = length sources
    ∧ length sources ≤ length destinations.
Proof.
  unfold run, generate_zip_package.
  intros ([] & l1 & [= <-] & H)%bind_ok.
  apply bind_ok in H as (manifest & l2 & Haps & H).
  rewrite aps_unfold in Haps.
  apply (aps_loop md5sum E path zip_arcname zip_stamp) in Haps
      as (es & lines & -> & -> & HF & Hes & Hlines & Hlen);
    [|apply zip_write_adds].
  apply bind_ok in H as ([] & l3 & [= <-] & [= <-]).
  exists es, lines. rewrite drop_0 in HF, Hlen.
  split_and!; try done.
  rewrite length_fmap. simpl. by rewrite <-app_assoc.
Qed.

Lemma generate_zip_package_ok path sources destinations :
  Forall2 (packable E zip_arcname) sources destinations →
  ∃ l, run (generate_zip_package md5sum E path sources destinations) = (l, Ok tt).
Proof.
  intros HF. unfold run, generate_zip_package. rewrite bind_eq. simpl.
  rewrite bind_eq, aps_unfold.
  destruct (aps_loop_ok md5sum E path zip_arcname zip_stamp (zip_write E path)
              sources destinations (zip_write_adds E path) 0 [] [Open path ZipDeflated])
    as (l' & manifest & ->); [by rewrite drop_0|].
  by eexists.
Qed.

(** The log of a tar package that was composed. *)
Lemma generate_tar_package_inv path sources destinations suffix l :
  run (generate_tar_package md5sum E path sources destinations suffix) = (l, Ok tt) →
  ∃ mode es lines,
    (suffix, mode) ∈ _TAR_WRITE_MODES
    ∧ l = [Open path (Tar mode)] ++ (Put path <$> es)
        ++ [WriteFile (path +:+ ".MANIFEST") (Str.join LF lines +:+ LF +:+ LF);
            Put path (Entry _PACKAGE_MANIFEST (clock E (S (length es)))
                        (Str.join LF lines +:+ LF +:+ LF));
            Close path]
    ∧ Forall2 (λ '(s, d) '(e, line),
                 packaged md5sum E (λ d, Some (Str.lstrip_slash d)) id s d e line)
        (zip sources destinations) (zip es lines)
    ∧ length es = length sources ∧ length lines = length sources
    ∧ length sources ≤ length destinations.
Proof.
  unfold run, generate_tar_package.
  intros (mode & l0 & Hmode & H)%bind_ok.
  destruct (List.find _ _TAR_WRITE_MODES) as [[k m]|] eqn:Hfind; [|done].
  injection Hmode as <- <-.
  apply find_some in Hfind as [Hin Hk%String.eqb_eq]. simpl in Hk. subst k.
  apply bind_ok in H as ([] & l1 & [= <-] & H).
  apply bind_ok in H as (manifest & l2 & Haps & H).
  rewrite aps_unfold in Haps.
  apply (aps_loop md5sum E path (λ d, Some (Str.lstrip_slash d)) id) in Haps
      as (es & lines & -> & -> & HF & Hes & Hlines & Hlen);
    [|apply tar_add_adds].
  apply bind_ok in H as (mf & l3 & Hw & H).
  injection Hw as <- <-.
  apply bind_ok in H as ([] & l4 & [= <-] & [= <-]).
  exists m, es, lines. rewrite drop_0 in HF, Hlen.
  split_and!; try done.
  - by apply list_elem_of_In.
  - rewrite length_fmap. simpl. by rewrite <-!app_assoc.
Qed.

Lemma generate_tar_package_ok path sources destinations suffix mode :
  (suffix, mode) ∈ _TAR_WRITE_MODES →
  Forall2 (packable E (λ d, Some (Str.lstrip_slash d))) sources destinations →
  ∃ l, run (generate_tar_package md5sum E path sources destinations suffix) = (l, Ok tt).
Proof.
  intros Hin HF. unfold run, generate_tar_package. rewrite bind_eq.
  assert (∃ m, List.find (λ kv, String.eqb kv.1 suffix) _TAR_WRITE_MODES
               = Some (suffix, m)) as [m ->].
  { unfold _TAR_WRITE_MODES in *. set_unfold.
    destruct Hin as [[= -> ->]|[[= -> ->]|[[= -> ->]|[[= -> ->]|[[= -> ->]|[]]]]]];
      by eexists. }
  simpl. rewrite bind_eq. simpl. rewrite bind_eq, aps_unfold.
  destruct (aps_loop_ok md5sum E path _ id (tar_add E path)
              sources destinations (tar_add_adds E path) 0 [] [Open path (Tar m)])
    as (l' & manifest & ->); [by rewrite drop_0|].
  by eexists.
Qed.
End PackageTop.

(** The loop of [generate_package] over the keys of [_TAR_WRITE_MODES] stops
    at the first key that ends the path. Of two suffixes of one string one
    ends the other, and no key of the dictionary ends another key: at most
    one key ends a path, and the order in which the dictionary is visited
    does not matter. *)
Lemma endswith_chain e1 e2 s :
  Str.endswith e1 s = true → Str.endswith e2 s = true →
  Str.endswith e1 e2 = true ∨ Str.endswith e2 e1 = true.
Proof.
  induction s as [|c s IH]; cbn [Str.endswith]; intros H1 H2.
  - destruct (String.eqb_spec "" e1) as [<-|]; [|done]. by right.
  - destruct (String.eqb_spec (String c s) e1) as [<-|].
    { by right. }
    destruct (String.eqb_spec (String c s) e2) as [<-|].
    { left. cbn [Str.endswith].
      destruct (String.eqb (String c s) e1); [done|exact H1]. }
    auto.
Qed.

Lemma tar_suffix_unique path e1 e2 :
  e1 ∈ (fst <$> _TAR_WRITE_MODES) → e2 ∈ (fst <$> _TAR_WRITE_MODES) →
  Str.endswith e1 path = true → Str.endswith e2 path = true → e1 = e2.
Proof.
  intros H1 H2 E1 E2.
  unfold _TAR_WRITE_MODES in H1, H2; cbn [fmap list_fmap fst] in H1, H2.
  destruct (endswith_chain _ _ _ E1 E2) as [H|H];
    repeat (apply elem_of_cons in H1 as [-> | H1]; [|]);
    try (by apply elem_of_nil in H1);
    repeat (apply elem_of_cons in H2 as [-> | H2]; [|]);
    try (by apply elem_of_nil in H2);
    try reflexivity; vm_compute in H; discriminate.
Qed.

Section PackageClaims.
Variable md5sum : string → string.
Variable E : env.

Lemma packaged_lookup namef stamp sources destinations es lines i s d :
  Forall2 (λ '(s, d) '(e, line), packaged md5sum E namef stamp s d e line)
    (zip sources destinations) (zip es lines) →
  sources !! i = Some s → destinations !! i = Some d →
  ∃ e line, es !! i = Some e ∧ lines !! i = Some line
            ∧ packaged md5sum E namef stamp s d e line.
Proof.
  intros HF Hs Hd.
  assert (zip sources destinations !! i = Some (s, d)) as Hz.
  { apply lookup_zip_with_Some. eauto. }
  destruct (Forall2_lookup_l _ _ _ _ _ HF Hz) as ([e line] & Hel & Hp).
  apply lookup_zip_with_Some in Hel as (e' & line' & [= <- <-] & He & Hline).
  eauto.
Qed.

Lemma generate_package_eq path manifest :
  generate_package md5sum E (path :: manifest)
  = (assert (length manifest mod 2 =? 0);;
     let middle := length manifest / 2 in
     let sources := List.firstn middle manifest in
     let destinations := List.skipn middle manifest in
     if Str.endswith ".zip" path
     then generate_zip_package md5sum E path sources destinations
     else match List.find (λ ext, Str.endswith ext path) (fst <$> _TAR_WRITE_MODES) with
          | Some suffix => generate_tar_package md5sum E path sources destinations suffix
          | None => raise UnboundLocalError
          end).
Proof. reflexivity. Qed.

Lemma halves (manifest : list string) :
  length manifest mod 2 = 0 →
  let middle := length manifest / 2 in
  length (take middle manifest) = middle ∧ length (drop middle manifest) = middle.
Proof.
  intros Hm middle.
  pose proof (Nat.div_mod_eq (length manifest) 2) as Hd.
  rewrite length_take, length_drop. subst middle. lia.
Qed.
End PackageClaims.

(** ** Facts on strings *)

Lemma str_app_cons a s t : String a s +:+ t = String a (s +:+ t).
Proof. reflexivity. Qed.

Lemma str_app_nil_l t : "" +:+ t = t.
Proof. reflexivity. Qed.

Lemma str_app_nil_r s : s +:+ "" = s.
Proof. induction s as [|a s IH]; [done|]. by rewrite str_app_cons, IH. Qed.

Lemma str_app_assoc s t u : (s +:+ t) +:+ u = s +:+ (t +:+ u).
Proof. induction s as [|a s IH]; [done|]. by rewrite !str_app_cons, IH. Qed.

Lemma str_length_app s t : String.length (s +:+ t) = String.length s + String.length t.
Proof. induction s as [|a s IH]; [done|]. rewrite str_app_cons. simpl. by rewrite IH. Qed.

Lemma text_lines_line line rest :
  Str.contains_char Str.nl line = false →
  text_lines (line +:+ LF +:+ rest) = line :: text_lines rest.
Proof.
  induction line as [|a line IH]; [done|].
  simpl. intros [Ha Hl]%orb_false_elim.
  by rewrite Ha, IH.
Qed.

Lemma text_lines_join lines rest :
  lines ≠ [] →
  Forall (λ line, Str.contains_char Str.nl line = false) lines →
  text_lines (Str.join LF lines +:+ LF +:+ rest) = lines ++ text_lines rest.
Proof.
  intros Hne HF. induction HF as [|line lines Hl HF IH]; [done|].
  destruct lines as [|line' lines].
  - simpl. by apply text_lines_line.
  - change (Str.join LF (line :: line' :: lines))
      with (line +:+ LF +:+ Str.join LF (line' :: lines)).
    rewrite !str_app_assoc. rewrite text_lines_line by done.
    by rewrite IH.
Qed.

Lemma contains_char_app c s t :
  Str.contains_char c (s +:+ t) = Str.contains_char c s || Str.contains_char c t.
Proof.
  induction s as [|a s IH]; [done|]. rewrite str_app_cons. simpl.
  by rewrite IH, orb_assoc.
Qed.

Section Manifest.
Variable md5sum : string → string.
Variable E : env.
Hypothesis md5sum_line : ∀ data, Str.contains_char Str.nl (md5sum data) = false.

Lemma packable_all namef sources destinations :
  length sources = length destinations →
  Forall (λ s, is_Some (files E s)) sources →
  Forall (λ d, is_Some (namef d)) destinations →
  Forall2 (packable E namef) sources destinations.
Proof.
  intros Hlen Hs Hd. apply Forall2_same_length_lookup_2; [done|].
  intros i s d Hsi Hdi.
  destruct (proj1 (Forall_lookup _ _) Hs i s Hsi) as [f Hf].
  destruct (proj1 (Forall_lookup _ _) Hd i d Hdi) as [a Ha].
  by exists f, a.
Qed.

Lemma manifest_records_of namef stamp sources destinations es lines m extra rest :
  sources ≠ [] →
  Forall (λ d, Str.contains_char Str.nl d = false) destinations →
  Forall2 (λ '(s, d) '(e, line), packaged md5sum E namef stamp s d e line)
    (zip sources destinations) (zip es lines) →
  length es = length sources → length lines = length sources →
  length sources ≤ length destinations →
  e_name m = _PACKAGE_MANIFEST →
  e_data m = Str.join LF lines +:+ LF +:+ rest →
  text_lines rest = extra →
  manifest_records md5sum E namef sources destinations es m extra.
Proof using md5sum_line.
  intros Hne Hnl HF Hes Hlines Hlen Hname Hdata Hrest.
  split_and!; [done..|]. exists lines. split_and!; [|done|].
  - rewrite Hdata, text_lines_join, Hrest; [done| |].
    + intros ->. destruct sources; done.
    + apply Forall_lookup. intros i line Hi.
      destruct (lookup_lt_is_Some_2 sources i) as [s Hs].
      { rewrite <-Hlines. by eapply lookup_lt_Some. }
      destruct (lookup_lt_is_Some_2 destinations i) as [d Hd].
      { apply lookup_lt_Some in Hs. lia. }
      destruct (packaged_lookup md5sum E _ _ _ _ _ _ _ _ _ HF Hs Hd)
        as (e & line' & He & Hl' & f & a & Hf & Ha & -> & ->).
      rewrite Hi in Hl'. injection Hl' as ->.
      rewrite !contains_char_app, md5sum_line. simpl.
      by apply (proj1 (Forall_lookup _ _) Hnl i d).
  - intros i s d Hs Hd.
    destruct (packaged_lookup md5sum E _ _ _ _ _ _ _ _ _ HF Hs Hd)
      as (e & line' & He & Hl' & f & a & Hf & Ha & -> & ->).
    eexists _, f. split_and!; [done|done|done|done|done].
Qed.
End Manifest.

Lemma input_files_regular E path sources :
  Forall (input_file E path) sources → Forall (λ s, is_Some (files E s)) sources.
Proof. intros H. eapply Forall_impl; [exact H|]. intros s (f & Hf & _). by exists f. Qed.

(** C4, as the code has it. Take [n >= 1] sources, each a regular file
    other than the archive being written, with a time between 1980 and
    2107, as many destinations, none with a line feed in it, a digest that
    has none either, and a clock within that range. Then every container
    of the tar family is composed, and so is the zip when every
    destination leaves a name once normalised and stripped of leading
    separators. The last member of the archive is [MANIFEST.TXT], after
    [n] members; member [i] has the name of [destinations[i]] and the data
    of [sources[i]]; the manifest starts with [n] lines, line [i] being
    the digest of the data of member [i], a space and [destinations[i]].
    In a zip these are all its lines; in each container of the tar family
    one empty line follows them. *)
Theorem package_manifest_lines md5sum E path sources destinations :
  (∀ data, Str.contains_char Str.nl (md5sum data) = false) →
  Forall (λ d, Str.contains_char Str.nl d = false) destinations →
  sources ≠ [] →
  length sources = length destinations →
  Forall (input_file E path) sources →
  clock_ok E →
  (Forall (λ d, is_Some (zip_arcname d)) destinations →
   ∃ l es m,
     run (generate_zip_package md5sum E path sources destinations) = (l, Ok tt)
     ∧ archive_of path l = es ++ [m]
     ∧ manifest_records md5sum E zip_arcname sources destinations es m [])
  ∧ (∀ suffix mode, (suffix, mode) ∈ _TAR_WRITE_MODES →
     ∃ l es m,
       run (generate_tar_package md5sum E path sources destinations suffix) = (l, Ok tt)
       ∧ archive_of path l = es ++ [m]
       ∧ manifest_records md5sum E (λ d, Some (Str.lstrip_slash d))
           sources destinations es m [""]).
Proof.
  intros Hmd5 Hnl Hne Hlen Hfiles%input_files_regular _. split.
  - intros Hnames.
    destruct (generate_zip_package_ok md5sum E path sources destinations) as [l Hrun].
    { by apply packable_all. }
    pose proof Hrun as (es & lines & -> & HF & Hes & Hlines & Hle)%generate_zip_package_inv.
    eexists _, es, _. split_and!; [done| |].
    + rewrite !archive_of_app, archive_of_puts. unfold archive_of. simpl.
      rewrite decide_True by done. done.
    + by eapply (manifest_records_of md5sum E Hmd5 _ _ _ _ _ lines _ _ "").
  - intros suffix mode Hin.
    destruct (generate_tar_package_ok md5sum E path sources destinations suffix mode)
      as [l Hrun]; [done| |].
    { apply packable_all; [done..|]. apply Forall_forall. by eexists. }
    pose proof Hrun
      as (mode' & es & lines & _ & -> & HF & Hes & Hlines & Hle)%generate_tar_package_inv.
    eexists _, es, _. split_and!; [done| |].
    + rewrite !archive_of_app, archive_of_puts. unfold archive_of. simpl.
      rewrite decide_True by done. done.
    + by eapply (manifest_records_of md5sum E Hmd5 _ _ _ _ _ lines _ _ LF).
Qed.

Lemma named_app x path l1 l2 : named x path (l1 ++ l2) = named x path l1 ++ named x path l2.
Proof. unfold named. by rewrite archive_of_app, filter_app. Qed.

Lemma named_put x path e :
  named x path [Put path e] = if decide (e_name e = x) then [e] else [].
Proof.
  unfold named, archive_of. simpl. rewrite decide_True by done. simpl.
  rewrite filter_cons, filter_nil. done.
Qed.

Lemma named_put_ne x path e : e_name e ≠ x → named x path [Put path e] = [].
Proof. intros. rewrite named_put. by rewrite decide_False. Qed.

Lemma zip_lookup_namelist z x : x ∈ namelist z → is_Some (zip_lookup z x).
Proof.
  induction z as [|e z IH]; simpl; [by intros ?%elem_of_nil|].
  intros [->|Hx]%elem_of_cons.
  - destruct (zip_lookup z (e_name e)); [by eexists|].
    rewrite String.eqb_refl. by eexists.
  - destruct (IH Hx) as [d ->]. by eexists.
Qed.

Section OneJar.
Variable E : env.
Variable path x : string.

Lemma zip_writestr_eq name data l :
  zip_writestr E path name data l
  = (l ++ [Put path (Entry name (zip_stamp (clock E (length l))) data)], Ok tt).
Proof. reflexivity. Qed.

Lemma named_data_put l e :
  e_data <$> named x path (l ++ [Put path e])
  = (e_data <$> named x path l) ++ (if decide (e_name e = x) then [e_data e] else []).
Proof. rewrite named_app, fmap_app, named_put. by destruct (decide _). Qed.

Lemma named_name e l : e ∈ named x path l → e_name e = x.
Proof. unfold named. by intros [? _]%list_elem_of_filter. Qed.

(** The loop over the names of the loader: every name but a manifest is
    written, as often as it is listed, and claimed. *)
Lemma add_boot_data boot names :
  (∀ n, n ∈ names → is_Some (zip_lookup boot n)) →
  ∀ S l, ∃ l' S',
    foldM (onejar_add_boot E path boot) S names l = (l', Ok S')
    ∧ (∀ y, y ∈ S' ↔ y ∈ S ∨ (y ∈ names ∧ Str.endswith "manifest.mf" (Str.lower y) = false))
    ∧ e_data <$> named x path l'
      = (e_data <$> named x path l) ++ loader_copies boot names x.
Proof.
  induction names as [|n names IH]; intros Hnames S l.
  - exists l, S. rewrite app_nil_r. split_and!; [done| |done].
    intros y. split; [auto|]. intros [?|[?%elem_of_nil ?]]; done.
  - assert (∀ n', n' ∈ names → is_Some (zip_lookup boot n')) as Hnames'.
    { intros n' ?. apply Hnames. by right. }
    rewrite foldM_cons, bind_eq. unfold onejar_add_boot at 1.
    unfold loader_copies. cbn [omap list_omap]. fold (loader_copies boot names x).
    destruct (Str.endswith "manifest.mf" (Str.lower n)) eqn:Hman; cbn [negb].
    + rewrite ret_eq.
      destruct (IH Hnames' S l) as (l' & S' & -> & HS & Hl).
      exists l', S'. split_and!; [done| |].
      * intros y. rewrite HS. split; [set_solver|].
        intros [?|[[->|?]%elem_of_cons ?]]; [by left|congruence|by right].
      * rewrite decide_False by (intros [_ ?]; congruence). done.
    + destruct (Hnames n) as [d Hd]; [by left|].
      rewrite bind_eq. unfold zip_read. rewrite Hd. cbn [orelse].
      rewrite ret_eq, bind_eq, zip_writestr_eq, ret_eq.
      destruct (IH Hnames' ({[n]} ∪ S)
                  (l ++ [Put path (Entry n (zip_stamp (clock E (length l))) d)]))
        as (l' & S' & -> & HS & Hl).
      exists l', S'. split_and!; [done| |].
      * intros y. rewrite HS. split.
        -- intros [[->%elem_of_singleton|?]%elem_of_union|[? ?]];
             [right; split; [by left|done]|by left|right; split; [by right|done]].
        -- intros [?|[[->|?]%elem_of_cons ?]]; set_solver.
      * rewrite Hl, named_data_put. cbn [e_name e_data]. rewrite <-app_assoc. f_equal.
        destruct (decide (n = x)) as [->|Hne].
        -- rewrite decide_True by done. by rewrite ?Hd.
        -- rewrite decide_False by (by intros [? _]). done.
Qed.

(** The loop over the names of a jar: a resource not yet claimed is
    written, once, and claimed. *)
Lemma add_resource_data z names :
  (∀ n, n ∈ names → is_Some (zip_lookup z n)) →
  ∀ S l, ∃ l' S',
    foldM (onejar_add_resource E path z) S names l = (l', Ok S')
    ∧ (∀ y, y ∈ S' ↔ y ∈ S ∨ (y ∈ names ∧ is_resource y))
    ∧ e_data <$> named x path l'
      = (e_data <$> named x path l)
        ++ (if decide (is_resource x ∧ (x ∉ S) ∧ x ∈ names)
            then option_list (zip_lookup z x) else []).
Proof.
  induction names as [|n names IH]; intros Hnames S l.
  - exists l, S. split_and!; [done| |].
    + intros y. split; [auto|]. intros [?|[?%elem_of_nil ?]]; done.
    + rewrite decide_False by (intros (_ & _ & ?%elem_of_nil); done).
      by rewrite app_nil_r.
  - assert (∀ n', n' ∈ names → is_Some (zip_lookup z n')) as Hnames'.
    { intros n' ?. apply Hnames. by right. }
    rewrite foldM_cons, bind_eq. unfold onejar_add_resource at 1.
    destruct (Str.endswith ".class" n || Str.startswith "META-INF" (Str.upper n))
      eqn:Hskip.
    { rewrite ret_eq.
      assert (¬ is_resource n) as Hn.
      { intros [Hc Hm]. by rewrite Hc, Hm in Hskip. }
      destruct (IH Hnames' S l) as (l' & S' & -> & HS & Hl).
      exists l', S'. split_and!; [done| |].
      - intros y. rewrite HS. split; [set_solver|].
        intros [?|[[->|?]%elem_of_cons ?]]; [by left|done|by right].
      - rewrite Hl. f_equal. apply decide_ext. split.
        + intros (? & ? & ?). split_and!; [done..|]. by right.
        + intros (Hr & ? & [->|?]%elem_of_cons); [done|by split_and!]. }
    assert (is_resource n) as Hres.
    { apply orb_false_elim in Hskip as [? ?]. by split. }
    destruct (decide (n ∉ S)) as [HnS|HnS].
    + destruct (Hnames n) as [d Hd]; [by left|].
      cbv zeta. rewrite bind_eq. unfold zip_read. rewrite Hd.
      cbn [orelse]. rewrite ret_eq, bind_eq, zip_writestr_eq, ret_eq.
      destruct (IH Hnames' ({[n]} ∪ S)
                  (l ++ [Put path (Entry n (zip_stamp (clock E (length l))) d)]))
        as (l' & S' & -> & HS & Hl).
      exists l', S'. split_and!; [done| |].
      * intros y. rewrite HS. split.
        -- intros [[->%elem_of_singleton|?]%elem_of_union|[? ?]];
             [right; split; [by left|done]|by left|right; split; [by right|done]].
        -- intros [?|[[->|?]%elem_of_cons ?]]; set_solver.
      * rewrite Hl, named_data_put. cbn [e_name e_data]. rewrite <-app_assoc. f_equal.
        destruct (decide (n = x)) as [->|Hne].
        -- rewrite decide_False by set_solver.
           rewrite decide_True by (split_and!; [done..|by left]).
           by rewrite Hd.
        -- cbn [app]. apply decide_ext. split.
           ++ intros (? & ? & ?). split_and!; [done|set_solver|by right].
           ++ intros (? & ? & [->|?]%elem_of_cons); [done|]. split_and!; [done| |done].
              set_solver.
    + rewrite ret_eq. apply dec_stable in HnS.
      destruct (IH Hnames' S l) as (l' & S' & -> & HS & Hl).
      exists l', S'. split_and!; [done| |].
      * intros y. rewrite HS. split; [set_solver|].
        intros [?|[[->|?]%elem_of_cons ?]]; [by left|by left|by right].
      * rewrite Hl. f_equal. apply decide_ext. split.
        -- intros (? & ? & ?). split_and!; [done..|]. by right.
        -- intros (? & ? & [->|?]%elem_of_cons); [done|by split_and!].
Qed.

(** The loop over the main jar and its dependencies: the first of them
    that has the resource [x] supplies it, unless [x] was claimed before. *)
Lemma add_resources_data jars :
  (∀ j, j ∈ jars → is_Some (zips E j)) →
  ∀ S l, ∃ l' S',
    foldM (onejar_add_resources E path) S jars l = (l', Ok S')
    ∧ e_data <$> named x path l'
      = (e_data <$> named x path l)
        ++ (if decide (is_resource x ∧ x ∉ S)
            then option_list (first_copy E x jars) else []).
Proof.
  induction jars as [|j jars IH]; intros Hjars S l.
  - exists l, S. split; [done|]. cbn [first_copy option_list].
    destruct (decide _); by rewrite app_nil_r.
  - destruct (Hjars j) as [z Hz]; [by left|].
    assert (∀ j', j' ∈ jars → is_Some (zips E j')) as Hjars'.
    { intros j' ?. apply Hjars. by right. }
    rewrite foldM_cons, bind_eq. unfold onejar_add_resources at 1.
    rewrite bind_eq. unfold zip_read_open. rewrite Hz. cbn [orelse]. rewrite ret_eq.
    destruct (add_resource_data z (namelist z) (zip_lookup_namelist z) S l)
      as (l1 & S1 & -> & HS1 & Hl1).
    destruct (IH Hjars' S1 l1) as (l' & S' & -> & Hl').
    exists l', S'. split; [done|].
    rewrite Hl', Hl1, <-app_assoc. f_equal.
    cbn [first_copy]. rewrite Hz. 
    destruct (decide (is_resource x)) as [Hres|Hres].
    2: { rewrite !decide_False by tauto. done. }
    destruct (decide (x ∈ S)) as [HxS|HxS].
    { rewrite (decide_False (P := is_resource x ∧ (x ∉ S) ∧ _)) by tauto.
      rewrite (decide_False (P := is_resource x ∧ x ∉ S1)).
      2: { intros [_ H]. apply H, HS1. by left. }
      rewrite decide_False by tauto. done. }
    destruct (decide (x ∈ namelist z)) as [Hx|Hx].
    + rewrite (decide_True (P := is_resource x ∧ (x ∉ S) ∧ _)) by tauto.
      rewrite (decide_False (P := is_resource x ∧ x ∉ S1)).
      2: { intros [_ H]. apply H, HS1. by right. }
      rewrite decide_True by tauto. by rewrite app_nil_r.
    + rewrite (decide_False (P := is_resource x ∧ (x ∉ S) ∧ _)) by tauto.
      assert (x ∉ S1) as HxS1 by (rewrite HS1; tauto).
      rewrite (decide_True (P := is_resource x ∧ x ∉ S1)) by tauto.
      rewrite decide_True by tauto. done.
Qed.
End OneJar.

(** ** Names of nested archives *)

Lemma basename_no_slash p : Str.contains_char "/" (Path.basename p) = false.
Proof.
  unfold Path.basename. induction p as [|a p IH]; [done|].
  cbn [Str.rsplit_slash]. destruct (Str.rsplit_slash p) as [h t]. simpl in IH.
  unfold Str.slash in *. destruct (Ascii.eqb a "/") eqn:Ha; [done|].
  destruct h; simpl; by rewrite ?Ha, ?IH.
Qed.

Lemma split_no_sep c b : Str.contains_char c b = false → Str.split c b = [b].
Proof.
  induction b as [|a b IH]; [done|]. simpl.
  intros [Ha Hb]%orb_false_elim. by rewrite Ha, IH.
Qed.

Lemma split_app_sep c s r :
  Str.contains_char c s = false →
  Str.split c (s +:+ String c r) = s :: Str.split c r.
Proof.
  induction s as [|a s IH]; simpl.
  - intros _. by rewrite Ascii.eqb_refl.
  - intros [Ha Hs]%orb_false_elim. by rewrite Ha, IH.
Qed.

Lemma startswith_slash_no_slash b :
  Str.contains_char "/" b = false → Str.startswith "/" b = false.
Proof.
  destruct b as [|a b]; [done|]. cbn [Str.contains_char Str.startswith].
  intros [Ha _]%orb_false_elim. rewrite Ascii.eqb_sym in Ha. by rewrite Ha.
Qed.

(** A jar is nested under [dir/] and its base name; degenerate base names
    give [dir] or [.]. *)
Lemma nested_name_shape dir jar :
  dir = "main" ∨ dir = "lib" →
  nested_name dir jar = Some dir
  ∨ nested_name dir jar = Some "."
  ∨ nested_name dir jar = Some (dir +:+ "/" +:+ Path.basename jar).
Proof.
  intros Hdir. unfold nested_name.
  pose proof (basename_no_slash jar) as Hb. revert Hb.
  generalize (Path.basename jar). intros b Hb.
  assert (Path.join dir [b] = dir +:+ String "/" b) as ->.
  { unfold Path.join, Path.join2. cbn [fold_left].
    rewrite startswith_slash_no_slash by done. by destruct Hdir as [-> | ->]. }
  unfold zip_arcname, Path.normpath.
  assert (String.eqb (dir +:+ String "/" b) "" = false) as -> by by destruct Hdir as [-> | ->].
  assert (Path.initial_slashes (dir +:+ String "/" b) = 0) as -> by by destruct Hdir as [-> | ->].
  rewrite split_app_sep by by destruct Hdir as [-> | ->].
  rewrite split_no_sep by done. cbn [fold_left].
  assert (Path.norm_step 0 [] dir = [dir]) as -> by by destruct Hdir as [-> | ->].
  unfold Path.norm_step.
  destruct (String.eqb_spec b "") as [->|Hne1]; cbn [orb].
  { left. by destruct Hdir as [-> | ->]. }
  destruct (String.eqb_spec b ".") as [->|Hne2]; cbn [orb].
  { left. by destruct Hdir as [-> | ->]. }
  destruct (String.eqb_spec b "..") as [->|Hne3]; cbn [orb negb andb Nat.eqb].
  { right; left. by destruct Hdir as [-> | ->]. }
  right; right. cbn [rev app Str.join String.concat].
  by destruct Hdir as [-> | ->].
Qed.

Lemma contains_char_cons c a s :
  Str.contains_char c (String a s) = Ascii.eqb a c || Str.contains_char c s.
Proof. reflexivity. Qed.

(** No nested archive has the name of a plain file at the root. *)
Lemma nested_name_plain dir jar x :
  dir = "main" ∨ dir = "lib" →
  Str.contains_char "/" x = false → x ≠ "main" → x ≠ "lib" → x ≠ "." →
  ∃ a, nested_name dir jar = Some a ∧ a ≠ x.
Proof.
  intros Hdir Hx Hm Hl Hd.
  destruct (nested_name_shape dir jar Hdir) as [-> | [-> | ->]]; eexists; (split; [done|]).
  - by destruct Hdir as [-> | ->].
  - done.
  - intros <-. rewrite contains_char_app in Hx.
    apply orb_false_elim in Hx as [_ Hx]. done.
Qed.

Section OneJarTop.
Variable E : env.
Variable path x : string.

Lemma zip_write_nested dir jar f a l :
  files E jar = Some f → nested_name dir jar = Some a →
  zip_write E path jar (Path.join dir [Path.basename jar]) l
  = (l ++ [Put path (Entry a (zip_stamp (f_mtime f)) (f_data f))], Ok tt).
Proof.
  unfold nested_name, zip_write, stat. intros Hf Ha.
  rewrite bind_eq, Hf. cbn [orelse]. rewrite ret_eq, bind_eq, Ha. done.
Qed.

Lemma nested_name_some dir jar : dir = "main" ∨ dir = "lib" → is_Some (nested_name dir jar).
Proof. intros Hdir. destruct (nested_name_shape dir jar Hdir) as [-> | [-> | ->]]; by eexists. Qed.

(** A jar is nested whatever its name: the name is not claimed, and no
    claim is looked up. *)
Lemma nest_one dir jar l :
  dir = "main" ∨ dir = "lib" → is_Some (files E jar) →
  ∃ l', zip_write E path jar (Path.join dir [Path.basename jar]) l = (l', Ok tt)
        ∧ e_data <$> named x path l'
          = (e_data <$> named x path l) ++ nested_copies E dir x [jar].
Proof.
  intros Hdir [f Hf]. destruct (nested_name_some dir jar Hdir) as [a Ha].
  eexists. split; [by apply zip_write_nested|].
  rewrite named_data_put. cbn [e_name e_data]. f_equal.
  unfold nested_copies. cbn [omap list_omap]. rewrite Ha, Hf.
  destruct (decide (a = x)) as [->|Hne].
  - by rewrite decide_True.
  - rewrite decide_False; [done|]. by intros [= ?].
Qed.

Lemma nest_deps_data jars :
  (∀ j, j ∈ jars → is_Some (files E j)) →
  ∀ l, ∃ l',
    forM jars (λ dep, zip_write E path dep (Path.join "lib" [Path.basename dep])) l
    = (l', Ok tt)
    ∧ e_data <$> named x path l'
      = (e_data <$> named x path l) ++ nested_copies E "lib" x jars.
Proof.
  unfold forM. induction jars as [|j jars IH]; intros Hfiles l.
  - exists l. by rewrite app_nil_r.
  - destruct (nest_one "lib" j l) as (l1 & Hrun & Hl1); [by right|apply Hfiles; by left|].
    rewrite foldM_cons, bind_eq, Hrun.
    destruct (IH (λ j' H, Hfiles j' (proj2 (elem_of_cons _ _ _) (or_intror H))) l1)
      as (l' & -> & Hl').
    exists l'. split; [done|]. rewrite Hl', Hl1, <-app_assoc. f_equal.
    unfold nested_copies. cbn [omap list_omap].
    by destruct (decide _); [destruct (files E j)|].
Qed.

Lemma loader_copies_nil boot names :
  ¬ (x ∈ names ∧ Str.endswith "manifest.mf" (Str.lower x) = false) →
  loader_copies boot names x = [].
Proof.
  induction names as [|n names IH]; [done|]. intros Hx.
  unfold loader_copies. cbn [omap list_omap]. fold (loader_copies boot names x).
  rewrite decide_False.
  - apply IH. intros [? ?]. apply Hx. split; [by right|done].
  - intros [-> ?]. apply Hx. split; [by left|done].
Qed.

Lemma nested_copies_nil dir jars :
  (∀ j, j ∈ jars → nested_name dir j ≠ Some x) → nested_copies E dir x jars = [].
Proof.
  induction jars as [|j jars IH]; [done|]. intros Hj.
  unfold nested_copies. cbn [omap list_omap]. fold (nested_copies E dir x jars).
  rewrite decide_False by (apply Hj; by left).
  apply IH. intros j' ?. apply Hj. by right.
Qed.
End OneJarTop.

Lemma first_copy_main E x main_jar jars zmain :
  zips E main_jar = Some zmain → x ∈ namelist zmain →
  first_copy E x (main_jar :: jars) = zip_lookup zmain x.
Proof. intros Hz Hx. cbn [first_copy]. rewrite Hz. by rewrite decide_True. Qed.

(** The members of every name, in a one-jar composed from jars that can be
    read. *)
Lemma generate_one_jar_data E onejar main_class bootjar main_jar jars boot :
  zips E bootjar = Some boot →
  (∀ j, j ∈ main_jar :: jars → is_Some (files E j) ∧ is_Some (zips E j)) →
  ∃ l,
    run (generate_one_jar E onejar main_class bootjar (main_jar :: jars)) = (l, Ok tt)
    ∧ ∀ x, e_data <$> named x onejar l
           = onejar_copies E main_class boot main_jar jars x.
Proof.
  intros Hboot Hjars.
  unfold run, generate_one_jar. cbn [lookup list_lookup orelse].
  rewrite bind_eq, ret_eq. cbv zeta. rewrite bind_eq. unfold zip_open at 1, emit at 1.
  cbn [app]. rewrite bind_eq. unfold zip_read_open at 1. rewrite Hboot. cbn [orelse].
  rewrite ret_eq, bind_eq.
  destruct (add_boot_data E onejar "" boot (namelist boot) (zip_lookup_namelist boot)
              ∅ [Open onejar ZipStored]) as (l2 & S2 & Hrun2 & HS2 & _).
  rewrite Hrun2.
  destruct (nest_one E onejar "" "main" main_jar l2) as (l3 & Hrun3 & _);
    [by left|apply Hjars; by left|].
  rewrite bind_eq, Hrun3. rewrite bind_eq. cbn [List.skipn]. rewrite drop_0.
  destruct (nest_deps_data E onejar "" jars) with (l := l3) as (l4 & Hrun4 & _).
  { intros j Hj. apply Hjars. by right. }
  rewrite Hrun4, bind_eq.
  destruct (add_resources_data E onejar "" (main_jar :: jars)) with (S := S2) (l := l4)
    as (l5 & S5 & Hrun5 & _).
  { intros j Hj. by apply Hjars. }
  rewrite Hrun5, bind_eq, zip_writestr_eq. unfold zip_close, emit.
  eexists. split; [done|]. intros x.
  destruct (add_boot_data E onejar x boot (namelist boot) (zip_lookup_namelist boot)
              ∅ [Open onejar ZipStored]) as (l2' & S2' & Hrun2' & _ & Hl2).
  rewrite Hrun2 in Hrun2'. injection Hrun2' as <- <-.
  destruct (nest_one E onejar x "main" main_jar l2) as (l3' & Hrun3' & Hl3);
    [by left|apply Hjars; by left|].
  rewrite Hrun3 in Hrun3'. injection Hrun3' as <-.
  destruct (nest_deps_data E onejar x jars) with (l := l3) as (l4' & Hrun4' & Hl4).
  { intros j Hj. apply Hjars. by right. }
  rewrite Hrun4 in Hrun4'. injection Hrun4' as <-.
  destruct (add_resources_data E onejar x (main_jar :: jars)) with (S := S2) (l := l4)
    as (l5' & S5' & Hrun5' & Hl5).
  { intros j Hj. by apply Hjars. }
  rewrite Hrun5 in Hrun5'. injection Hrun5' as <- <-.
  change (e_data <$> named x onejar [Open onejar ZipStored]) with (@nil string) in Hl2.
  cbn [app] in Hl2.
  rewrite named_app, fmap_app, named_data_put, Hl5, Hl4, Hl3, Hl2.
  change (e_data <$> named x onejar [Close onejar]) with (@nil string).
  cbn [e_name e_data]. unfold onejar_copies. rewrite app_nil_r, <-!app_assoc.
  apply (f_equal (app _)), (f_equal (app _)), (f_equal (app _)).
  f_equal.
  - apply decide_ext. unfold boot_claims. rewrite HS2. set_solver.
  - change (Path.join "META-INF" ["MANIFEST.MF"]) with "META-INF/MANIFEST.MF".
    apply decide_ext. split; by intros ->.
Qed.

(** C3, as the code has it. Take a loader that can be read and is not the
    file being written, a main jar and dependencies that are regular files
    other than the one-jar, with times between 1980 and 2107, and that can
    be read as archives, and a clock within that range. Then the one-jar is
    composed, and its members of any name [x] are, in this order: one copy
    from the loader for every entry [x] the loader lists, its manifest
    apart; the nested main jar when its nested name is [x]; one nested
    dependency for every dependency whose nested name is [x]; when [x] is a
    resource the loader did not claim, the copy of the first of main jar
    and dependencies that has [x]; and the manifest when [x] is its name.
    Only among the members flattened last does the first writer win: the
    names of nested jars are neither claimed nor looked up, and a name the
    loader lists twice is written twice. Hence, for a resource [x] that
    the loader does not have and that is the nested name of no jar (the
    nested name of a jar with a base name other than [.] and [..] has a
    slash), a one-jar whose main jar has [x] has exactly one member [x],
    with the data of the main jar. *)
Theorem onejar_first_writer_wins E onejar main_class bootjar main_jar jars boot :
  zips E bootjar = Some boot →
  not_output E onejar bootjar →
  (∀ j, j ∈ main_jar :: jars → input_file E onejar j ∧ is_Some (zips E j)) →
  clock_ok E →
  ∃ l,
    run (generate_one_jar E onejar main_class bootjar (main_jar :: jars)) = (l, Ok tt)
    ∧ (∀ x, e_data <$> named x onejar l
            = onejar_copies E main_class boot main_jar jars x)
    ∧ (∀ x zmain,
         is_resource x → ¬ boot_claims x boot →
         nested_name "main" main_jar ≠ Some x →
         (∀ j, j ∈ jars → nested_name "lib" j ≠ Some x) →
         zips E main_jar = Some zmain → x ∈ namelist zmain →
         ∃ t d, zip_lookup zmain x = Some d ∧ named x onejar l = [Entry x t d]).
Proof.
  intros Hboot _ Hjars _.
  destruct (generate_one_jar_data E onejar main_class bootjar main_jar jars boot Hboot)
    as (l & Hrun & Hdata).
  { intros j Hj. destruct (Hjars j Hj) as [(f & Hf & _) Hz]. split; [by exists f|done]. }
  exists l. split_and!; [done|done|].
  intros x zmain Hres Hnb Hmain Hlib Hz Hx.
  destruct (zip_lookup_namelist zmain x Hx) as [d Hd].
  specialize (Hdata x). unfold onejar_copies in Hdata.
  rewrite loader_copies_nil in Hdata by exact Hnb.
  rewrite (nested_copies_nil E x "main" [main_jar]) in Hdata.
  2: { intros j ->%list_elem_of_singleton. done. }
  rewrite (nested_copies_nil E x "lib" jars) in Hdata by done.
  rewrite decide_True in Hdata by done.
  rewrite (first_copy_main E x main_jar jars zmain), Hd in Hdata by done.
  rewrite decide_False in Hdata.
  2: { intros ->. by destruct Hres as [_ ?]. }
  cbn [option_list app] in Hdata.
  destruct (named x onejar l) as [|e [|e' es]] eqn:Hnamed; [done| |done].
  injection Hdata as Hdata.
  assert (e_name e = x) as Hname.
  { apply (named_name onejar x e l). rewrite Hnamed. by left. }
  exists (e_time e), d. split; [done|]. destruct e. simpl in *. by subst.
Qed.

(** ** [dirname] and the walk to the root *)

Lemma rsplit_slash_app p : p = (Str.rsplit_slash p).1 +:+ (Str.rsplit_slash p).2.
Proof.
  induction p as [|a p IH]; [done|]. cbn [Str.rsplit_slash].
  destruct (Str.rsplit_slash p) as [h t]. simpl in IH.
  destruct (Ascii.eqb a Str.slash);
    [|destruct h]; cbn [fst snd] in *; rewrite ?str_app_cons, ?str_app_nil_l in *;
    congruence.
Qed.

Lemma rsplit_slash_head p :
  (Str.rsplit_slash p).1 = "" ∨ last_is_slash (Str.rsplit_slash p).1 = true.
Proof.
  induction p as [|a p IH]; [by left|]. cbn [Str.rsplit_slash].
  destruct (Str.rsplit_slash p) as [h t]. simpl in IH.
  unfold Str.slash. destruct (Ascii.eqb a "/") eqn:Ha.
  - right. simpl. destruct h; [done|]. by destruct IH.
  - destruct h; [by left|]. right. simpl. by destruct IH.
Qed.

Lemma rstrip_slash_length s : String.length (Str.rstrip_slash s) ≤ String.length s.
Proof.
  induction s as [|a s IH]; [done|]. simpl.
  destruct (Str.rstrip_slash s); [destruct (Ascii.eqb a Str.slash)|]; simpl in *; lia.
Qed.

Lemma rstrip_slash_shorter s :
  last_is_slash s = true → String.length (Str.rstrip_slash s) < String.length s.
Proof.
  induction s as [|a s IH]; [done|]. intros Hl.
  pose proof (rstrip_slash_length s) as Hle. simpl.
  destruct s as [|b s].
  - simpl in *. unfold Str.slash. rewrite Hl. simpl. lia.
  - specialize (IH Hl).
    destruct (Str.rstrip_slash (String b s));
      [destruct (Ascii.eqb a Str.slash)|]; simpl in *; lia.
Qed.

Lemma rstrip_slash_nil s : Str.rstrip_slash s = "" → Str.all_slash s = true.
Proof.
  induction s as [|a s IH]; [done|]. simpl.
  destruct (Str.rstrip_slash s); [|done].
  destruct (Ascii.eqb a Str.slash); [|done]. intros _. by rewrite IH.
Qed.

Lemma isabs_cons a s : Path.isabs (String a s) = Ascii.eqb "/" a.
Proof. unfold Path.isabs. cbn [Str.startswith]. by rewrite andb_true_r. Qed.

Lemma isabs_app s t : s ≠ "" → Path.isabs (s +:+ t) = Path.isabs s.
Proof. destruct s as [|a s]; [done|]. intros _. by rewrite str_app_cons, !isabs_cons. Qed.

Lemma isabs_rstrip s :
  Str.rstrip_slash s ≠ "" → Path.isabs (Str.rstrip_slash s) = Path.isabs s.
Proof.
  destruct s as [|a s]; [done|]. simpl.
  destruct (Str.rstrip_slash s); [destruct (Ascii.eqb a Str.slash)|]; try done.
Qed.

Lemma str_length_nil s : String.length s = 0 → s = "".
Proof. by destruct s. Qed.

(** The directory of a path has the kind of the path, absolute or
    relative. *)
Lemma isabs_dirname p : Path.dirname p ≠ "" → Path.isabs (Path.dirname p) = Path.isabs p.
Proof.
  unfold Path.dirname. pose proof (rsplit_slash_app p) as Hp.
  destruct (Str.rsplit_slash p) as [h t]. simpl in *.
  destruct (String.eqb_spec h "") as [->|Hh]; [done|]. simpl.
  destruct (Str.all_slash h) eqn:Hall; simpl.
  - intros _. rewrite Hp. by rewrite isabs_app.
  - intros Hr. rewrite isabs_rstrip by done. rewrite Hp. by rewrite isabs_app.
Qed.

Lemma all_slash_isabs h : h ≠ "" → Str.all_slash h = true → Path.isabs h = true.
Proof.
  destruct h as [|a h]; [done|]. intros _. simpl. unfold Str.slash.
  intros [Ha _]%andb_true_iff. rewrite isabs_cons. by rewrite Ascii.eqb_sym.
Qed.

(** The directory of an absolute path is not empty. *)
Lemma dirname_abs p : Path.isabs p = true → Path.dirname p ≠ "".
Proof.
  unfold Path.dirname. intros Hp.
  assert ((Str.rsplit_slash p).1 ≠ "") as Hh.
  { destruct p as [|a p]; [done|]. rewrite isabs_cons in Hp.
    apply Ascii.eqb_eq in Hp as <-. cbn [Str.rsplit_slash].
    destruct (Str.rsplit_slash p) as [h t]. done. }
  destruct (Str.rsplit_slash p) as [h t]. simpl in *.
  destruct (String.eqb_spec h "") as [->|_]; [done|]. simpl.
  destruct (Str.all_slash h) eqn:Hall; simpl; [done|].
  intros Hr%rstrip_slash_nil. congruence.
Qed.

(** The directory of a relative path is shorter than the path. *)
Lemma dirname_shorter p :
  p ≠ "" → Path.isabs p = false → String.length (Path.dirname p) < String.length p.
Proof.
  intros Hne Hrel. unfold Path.dirname.
  pose proof (rsplit_slash_app p) as Hp. pose proof (rsplit_slash_head p) as Hh.
  destruct (Str.rsplit_slash p) as [h t]. simpl in *.
  assert (String.length h ≤ String.length p) as Hle.
  { replace (String.length p) with (String.length (h +:+ t)) by by rewrite <-Hp.
    rewrite str_length_app. lia. }
  destruct (String.eqb_spec h "") as [->|Hh']; simpl.
  { destruct p; [done|]. simpl. lia. }
  destruct Hh as [->|Hlast]; [done|].
  destruct (Str.all_slash h) eqn:Hall; simpl.
  - exfalso. apply all_slash_isabs in Hall; [|done].
    rewrite Hp, isabs_app in Hrel by done. congruence.
  - pose proof (rstrip_slash_shorter h Hlast). lia.
Qed.

Section Walk.

Lemma walk_up_rel n dir dirs :
  Path.isabs dir = false → String.length dir ≤ n → is_Some (walk_up n dir dirs).
Proof.
  revert dir dirs. induction n as [|n IH]; intros dir dirs Hrel Hlen.
  - apply Nat.le_0_r, str_length_nil in Hlen as ->. by eexists.
  - simpl. destruct (String.eqb_spec dir "") as [->|Hne]; [by eexists|].
    apply IH.
    + destruct (decide (Path.dirname dir = "")) as [->|Hd]; [done|].
      by rewrite isabs_dirname.
    + pose proof (dirname_shorter dir Hne Hrel). lia.
Qed.

Lemma walk_up_abs n dir dirs : Path.isabs dir = true → walk_up n dir dirs = None.
Proof.
  revert dir dirs. induction n as [|n IH]; intros dir dirs Habs.
  - simpl. by destruct dir.
  - simpl. destruct (String.eqb_spec dir "") as [->|Hne]; [done|].
    apply IH. rewrite isabs_dirname; [done|]. by apply dirname_abs.
Qed.

Lemma dirname_length p : String.length (Path.dirname p) ≤ String.length p.
Proof.
  unfold Path.dirname. pose proof (rsplit_slash_app p) as Hp.
  destruct (Str.rsplit_slash p) as [h t]. simpl in *.
  assert (String.length h ≤ String.length p) as Hle.
  { replace (String.length p) with (String.length (h +:+ t)) by by rewrite <-Hp.
    rewrite str_length_app. lia. }
  destruct (negb (String.eqb h "") && negb (Str.all_slash h)); [|done].
  pose proof (rstrip_slash_length h). lia.
Qed.

Lemma isabs_dirname' p : Path.isabs (Path.dirname p) = Path.isabs p.
Proof.
  destruct (Path.isabs p) eqn:Hp.
  - rewrite isabs_dirname; [done|]. by apply dirname_abs.
  - destruct (decide (Path.dirname p = "")) as [->|Hd]; [done|].
    by rewrite isabs_dirname.
Qed.

(** The fuel given to the loop of [_update_init_py_dirs] is enough: when it
    runs out, every amount of fuel runs out. *)
Lemma walk_up_fuel arcname dirs :
  walk_up (S (String.length arcname)) (Path.dirname arcname) dirs = None →
  ∀ n dirs', walk_up n (Path.dirname arcname) dirs' = None.
Proof.
  intros Hnone n dirs'. apply walk_up_abs. rewrite isabs_dirname'.
  destruct (Path.isabs arcname) eqn:Habs; [done|].
  destruct (walk_up_rel (S (String.length arcname)) (Path.dirname arcname) dirs)
    as [? Hsome]; [by rewrite isabs_dirname'| |congruence].
  pose proof (dirname_length arcname). lia.
Qed.

Lemma up_nonempty d e : up d e → d ≠ "" ∧ e ≠ "".
Proof. induction 1; tauto. Qed.

Lemma up_cases d e : up d e ↔ e ≠ "" ∧ (d = e ∨ up d (Path.dirname e)).
Proof.
  split.
  - inversion 1; subst; [by auto|]. auto.
  - intros [He [->|Hup]]; [by constructor|]. by constructor.
Qed.

Lemma walk_up_spec n dir dirs dirs' :
  walk_up n dir dirs = Some dirs' → ∀ d, d ∈ dirs' ↔ d ∈ dirs ∨ up d dir.
Proof.
  revert dir dirs. induction n as [|n IH]; intros dir dirs; simpl.
  - destruct (String.eqb_spec dir "") as [->|Hne]; [|done].
    intros [= <-] d. split; [auto|]. intros [?|[_ []]%up_nonempty]; done.
  - destruct (String.eqb_spec dir "") as [->|Hne].
    + intros [= <-] d. split; [auto|]. intros [?|[_ []]%up_nonempty]; done.
    + intros Hw d. rewrite (IH _ _ Hw d), (up_cases d dir). set_solver.
Qed.

Lemma update_inv arcname dirs dwi l l' dirs' dwi' :
  _update_init_py_dirs arcname dirs dwi l = (l', Ok (dirs', dwi')) →
  l' = l ∧ Path.isabs arcname = false
  ∧ dwi' = (if String.eqb (Path.basename arcname) "__init__.py"
            then {[Path.dirname arcname]} ∪ dwi else dwi)
  ∧ ∀ d, d ∈ dirs' ↔ d ∈ dirs ∨ ancestor_dir d arcname.
Proof.
  unfold _update_init_py_dirs.
  destruct (walk_up _ _ _) as [ds|] eqn:Hw; [|done].
  intros [= <- <- <-]. split_and!; [done| |done|].
  - destruct (Path.isabs arcname) eqn:Habs; [|done].
    rewrite walk_up_abs in Hw; [done|]. by rewrite isabs_dirname'.
  - intros d. apply (walk_up_spec _ _ _ _ Hw).
Qed.

Lemma update_ok arcname dirs dwi l :
  Path.isabs arcname = false →
  ∃ dirs' dwi', _update_init_py_dirs arcname dirs dwi l = (l, Ok (dirs', dwi')).
Proof.
  intros Hrel. unfold _update_init_py_dirs.
  destruct (walk_up_rel (S (String.length arcname)) (Path.dirname arcname) dirs)
    as [ds ->]; [by rewrite isabs_dirname'| |by eexists _, _].
  pose proof (dirname_length arcname). lia.
Qed.

(** On a member with an absolute name the loop of [_update_init_py_dirs]
    does not end. *)
Lemma update_abs arcname dirs dwi l :
  Path.isabs arcname = true → _update_init_py_dirs arcname dirs dwi l = (l, Diverge).
Proof.
  intros Habs. unfold _update_init_py_dirs.
  rewrite walk_up_abs; [done|]. by rewrite isabs_dirname'.
Qed.
End Walk.

Lemma books_nil dirs dwi : books [] dirs dwi dirs dwi.
Proof. unfold books. split_and!; [set_solver..|done]. Qed.

Lemma books_app its1 its2 d0 w0 d1 w1 d2 w2 :
  books its1 d0 w0 d1 w1 → books its2 d1 w1 d2 w2 → books (its1 ++ its2) d0 w0 d2 w2.
Proof.
  intros (Hd1 & Hw1 & Ha1) (Hd2 & Hw2 & Ha2). split_and!.
  - intros d. rewrite Hd2, Hd1. set_solver.
  - intros d. rewrite Hw2, Hw1. set_solver.
  - by apply Forall_app.
Qed.

Lemma books_one a dirs dwi l l' dirs' dwi' name data :
  _update_init_py_dirs a dirs dwi l = (l', Ok (dirs', dwi')) →
  l' = l ∧ books [Item a name data] dirs dwi dirs' dwi'.
Proof.
  intros (-> & Hrel & -> & Hdirs)%update_inv. split; [done|]. split_and!.
  - intros d. rewrite Hdirs. set_solver.
  - intros d. destruct (String.eqb_spec (Path.basename a) "__init__.py") as [Hb|Hb].
    + rewrite elem_of_union, elem_of_singleton. split.
      * intros [->|?]; [|by left]. right. exists (Item a name data).
        split; [by left|done].
      * intros [?|(it & ->%list_elem_of_singleton & _ & Hd)]; [by right|by left].
    + split; [by left|]. intros [?|(it & ->%list_elem_of_singleton & Hb' & _)]; done.
  - by constructor.
Qed.

Section Sources.
Variable fnmatch : string → string → bool.
Variable E : env.
Variable pybin : string.
Variable exclusions : list string.

Lemma zip_write_inv libsrc arcname l l' :
  zip_write E pybin libsrc arcname l = (l', Ok tt) →
  ∃ f a, files E libsrc = Some f ∧ zip_arcname arcname = Some a
         ∧ l' = l ++ [Put pybin (Entry a (zip_stamp (f_mtime f)) (f_data f))].
Proof.
  unfold zip_write, stat. rewrite bind_eq.
  destruct (files E libsrc) as [f|]; [|done]. cbn [orelse]. rewrite ret_eq, bind_eq.
  destruct (zip_arcname arcname) as [a|]; [|done]. cbn [orelse]. rewrite ret_eq.
  intros [= <-]. by exists f, a.
Qed.

(** The loop of [_pybin_add_pylib]. *)
Lemma pylib_loop_inv base srcs :
  ∀ dirs dwi l l' dirs' dwi',
    foldM (pylib_add_src fnmatch E pybin base exclusions) (dirs, dwi) srcs l
    = (l', Ok (dirs', dwi')) →
    ∃ es, l' = l ++ (Put pybin <$> es)
          ∧ Forall2 wrote es (omap (pylib_item fnmatch E exclusions base) srcs)
          ∧ books (omap (pylib_item fnmatch E exclusions base) srcs) dirs dwi dirs' dwi'.
Proof.
  induction srcs as [|[libsrc digest] srcs IH]; intros dirs dwi l l' dirs' dwi'.
  - intros [= <- <- <-]. exists []. rewrite app_nil_r.
    split_and!; [done|constructor|apply books_nil].
  - rewrite foldM_cons. intros ([d1 w1] & l1 & Hsrc & Hrest)%bind_ok.
    apply IH in Hrest as (es & -> & Hes & Hbooks).
    unfold pylib_add_src in Hsrc. apply bind_ok in Hsrc as (a & l0 & Ha & Hsrc).
    cbn [omap list_omap].
    assert (pylib_item fnmatch E exclusions base (libsrc, digest)
            = match Path.relpath (cwd E) libsrc base with
              | Some a =>
                  if _is_python_excluded_path fnmatch a exclusions then None
                  else Some (Item a (zip_arcname a) (f_data <$> files E libsrc))
              | None => None
              end) as -> by done.
    destruct (Path.relpath (cwd E) libsrc base) as [a'|]; [|done].
    injection Ha as <- <-.
    destruct (_is_python_excluded_path fnmatch a' exclusions); cbn [negb] in Hsrc.
    + injection Hsrc as <- <- <-. by exists es.
    + apply bind_ok in Hsrc as ([d0 w0] & l2 & Hup & Hsrc).
      apply (books_one a' _ _ _ _ _ _ (zip_arcname a') (f_data <$> files E libsrc))
        in Hup as [-> Hb1].
      apply bind_ok in Hsrc as ([] & l3 & Hw & [= <- <- <-]).
      apply zip_write_inv in Hw as (f & n & Hf & Hn & ->).
      exists (Entry n (zip_stamp (f_mtime f)) (f_data f) :: es).
      rewrite <-app_assoc. split_and!; [done| |].
      * constructor; [|done]. split; simpl; [done|]. by rewrite Hf.
      * by apply (books_app [_] _ _ _ _ _ _ _ Hb1).
Qed.

(** The loop of [_pybin_add_zip] for a wheel. *)
Lemma zip_loop_tracked_inv z keep names :
  ∀ dirs dwi l l' r,
    foldM (zip_add_name fnmatch E pybin z keep exclusions) (Some dirs, Some dwi) names l
    = (l', Ok r) →
    let its := (λ n, Item n (Some n) (zip_lookup z n))
                 <$> List.filter (λ n, keep n
                                       && negb (_is_python_excluded_path fnmatch n exclusions))
                       names in
    ∃ es dirs' dwi',
      r = (Some dirs', Some dwi') ∧ l' = l ++ (Put pybin <$> es)
      ∧ Forall2 wrote es its ∧ books its dirs dwi dirs' dwi'.
Proof.
  induction names as [|n names IH]; intros dirs dwi l l' r.
  - intros [= <- <-]. exists [], dirs, dwi. rewrite app_nil_r.
    split_and!; [done|done|constructor|apply books_nil].
  - rewrite foldM_cons. intros (st1 & l1 & Hn & Hrest)%bind_ok.
    unfold zip_add_name in Hn. cbn [List.filter].
    destruct (keep n && negb (_is_python_excluded_path fnmatch n exclusions)).
    + apply bind_ok in Hn as ([od ow] & l2 & Hup & Hn).
      apply bind_ok in Hup as ([d0 w0] & l3 & Hup & [= <- <- <-]).
      apply (books_one n _ _ _ _ _ _ (Some n) (zip_lookup z n)) in Hup as [-> Hb1].
      apply bind_ok in Hn as (data & l4 & Hdata & Hn).
      unfold zip_read in Hdata. destruct (zip_lookup z n) as [data'|] eqn:Hz; [|done].
      injection Hdata as <- <-.
      apply bind_ok in Hn as ([] & l5 & [= <-] & [= <- <-]).
      apply IH in Hrest as (es & dirs' & dwi' & -> & -> & Hes & Hbooks).
      exists (Entry n (zip_stamp (clock E (length l))) data' :: es), dirs', dwi'.
      rewrite <-app_assoc. cbn [fmap list_fmap]. rewrite Hz.
      split_and!; [done|done| |].
      * constructor; [|done]. by split.
      * by apply (books_app [_] _ _ _ _ _ _ _ Hb1).
    + injection Hn as <- <-. by apply IH.
Qed.

(** The loop of [_pybin_add_zip] for an egg: the books are not there. *)
Lemma zip_loop_untracked_inv z keep names :
  ∀ l l' r,
    foldM (zip_add_name fnmatch E pybin z keep exclusions) (None, None) names l
    = (l', Ok r) →
    let its := (λ n, Item n (Some n) (zip_lookup z n))
                 <$> List.filter (λ n, keep n
                                       && negb (_is_python_excluded_path fnmatch n exclusions))
                       names in
    ∃ es, r = (None, None) ∧ l' = l ++ (Put pybin <$> es) ∧ Forall2 wrote es its.
Proof.
  induction names as [|n names IH]; intros l l' r.
  - intros [= <- <-]. exists []. rewrite app_nil_r. split_and!; [done|done|constructor].
  - rewrite foldM_cons. intros (st1 & l1 & Hn & Hrest)%bind_ok.
    unfold zip_add_name in Hn. cbn [List.filter].
    destruct (keep n && negb (_is_python_excluded_path fnmatch n exclusions)).
    + apply bind_ok in Hn as ([od ow] & l2 & [= <- <- <-] & Hn).
      apply bind_ok in Hn as (data & l4 & Hdata & Hn).
      unfold zip_read in Hdata. destruct (zip_lookup z n) as [data'|] eqn:Hz; [|done].
      injection Hdata as <- <-.
      apply bind_ok in Hn as ([] & l5 & [= <-] & [= <- <-]).
      apply IH in Hrest as (es & -> & -> & Hes).
      exists (Entry n (zip_stamp (clock E (length l))) data' :: es).
      rewrite <-app_assoc. cbn [fmap list_fmap]. rewrite Hz.
      split_and!; [done|done|]. constructor; [|done]. by split.
    + injection Hn as <- <-. by apply IH.
Qed.
End Sources.

Section PythonBinary.
Variable fnmatch : string → string → bool.
Variable zip_bytes : list entry → string.
Variable E : env.
Variable pybin : string.
Variable exclusions : list string.

(** One source of [generate_python_binary]. *)
Lemma pybin_add_inv arg dirs dwi l l' dirs' dwi' :
  pybin_add fnmatch E pybin exclusions (dirs, dwi) arg l = (l', Ok (dirs', dwi')) →
  ∃ es, l' = l ++ (Put pybin <$> es)
        ∧ Forall2 wrote es (items fnmatch E exclusions arg)
        ∧ books (if tracked arg then items fnmatch E exclusions arg else [])
            dirs dwi dirs' dwi'
        ∧ recognized arg = true.
Proof.
  unfold pybin_add, items, tracked, recognized.
  destruct (Str.endswith ".pylib" arg); cbn [orb negb andb].
  { unfold _pybin_add_pylib. intros (d & l0 & Hd & Hloop)%bind_ok.
    destruct (pylibs E arg) as [d'|]; [|done]. injection Hd as <- <-.
    apply pylib_loop_inv in Hloop as (es & -> & Hes & Hbooks). by exists es. }
  destruct (Str.endswith ".egg" arg); cbn [orb negb andb].
  { unfold _pybin_add_egg. intros ([] & l0 & Hegg & [= <- <- <-])%bind_ok.
    apply bind_ok in Hegg as (r & l1 & Hzip & [= <-]).
    unfold _pybin_add_zip in Hzip. apply bind_ok in Hzip as (z & l2 & Hz & Hloop).
    unfold zip_read_open in Hz. destruct (zips E arg) as [z'|]; [|done].
    injection Hz as <- <-.
    apply zip_loop_untracked_inv in Hloop as (es & _ & -> & Hes).
    exists es. split_and!; [done|done|apply books_nil|done]. }
  destruct (Str.endswith ".whl" arg); [|done].
  unfold _pybin_add_whl. intros ([od ow] & l0 & Hzip & Hret)%bind_ok.
  unfold _pybin_add_zip in Hzip. apply bind_ok in Hzip as (z & l2 & Hz & Hloop).
  unfold zip_read_open in Hz. destruct (zips E arg) as [z'|]; [|done].
  injection Hz as <- <-.
  apply zip_loop_tracked_inv in Hloop as (es & d1 & w1 & [= -> ->] & -> & Hes & Hbooks).
  injection Hret as <- <- <-. by exists es.
Qed.

(** The loop over the sources. *)
Lemma pybin_loop_inv args :
  ∀ dirs dwi l l' dirs' dwi',
    foldM (pybin_add fnmatch E pybin exclusions) (dirs, dwi) args l
    = (l', Ok (dirs', dwi')) →
    ∃ es, l' = l ++ (Put pybin <$> es)
          ∧ Forall2 wrote es (all_items fnmatch E exclusions args)
          ∧ books (tracked_items fnmatch E exclusions args) dirs dwi dirs' dwi'
          ∧ Forall (λ arg, recognized arg = true) args.
Proof.
  induction args as [|arg args IH]; intros dirs dwi l l' dirs' dwi'.
  - intros [= <- <- <-]. exists []. rewrite app_nil_r.
    split_and!; [done|constructor|apply books_nil|constructor].
  - rewrite foldM_cons. intros ([d1 w1] & l1 & Harg & Hrest)%bind_ok.
    apply pybin_add_inv in Harg as (es1 & -> & Hes1 & Hb1 & Hrec).
    apply IH in Hrest as (es2 & -> & Hes2 & Hb2 & Hrecs).
    exists (es1 ++ es2). rewrite fmap_app, <-app_assoc.
    split_and!; [done| | |by constructor].
    + by apply Forall2_app.
    + by apply (books_app _ _ _ _ _ _ _ _ Hb1).
Qed.

(** The loop that adds the markers. *)
Lemma markers_loop ds :
  ∀ l, ∃ ms,
    forM ds (λ dir, zip_writestr E pybin (Path.join dir ["__init__.py"]) "") l
    = (l ++ (Put pybin <$> ms), Ok tt)
    ∧ Forall2 marker_of ds ms.
Proof.
  unfold forM. induction ds as [|d ds IH]; intros l.
  - exists []. rewrite app_nil_r. by split; [|constructor].
  - rewrite foldM_cons, bind_eq, zip_writestr_eq.
    destruct (IH (l ++ [Put pybin (Entry (Path.join d ["__init__.py"])
                                      (zip_stamp (clock E (length l))) "")]))
      as (ms & -> & Hms).
    eexists (_ :: ms). rewrite <-app_assoc. split; [done|].
    constructor; [|done]. by eexists.
Qed.
End PythonBinary.

(** The log of a python binary that was composed: the members of the
    sources in their order, the markers of the directories in the books that
    have none, the marker of the root, then the prologue before the bytes of
    the archive, and the mode. *)
Lemma generate_python_binary_inv fnmatch zip_bytes E pybin basedir exclusions mainentry
    args l :
  run (generate_python_binary fnmatch zip_bytes E pybin basedir exclusions mainentry args)
  = (l, Ok tt) →
  let excl := Str.split "," exclusions in
  ∃ es ms dirs dwi t,
    l = [Open pybin ZipDeflated] ++ (Put pybin <$> es) ++ (Put pybin <$> ms)
        ++ [Put pybin (Entry "__init__.py" t "");
            Close pybin;
            WriteFile pybin (bootstrap mainentry
                             +:+ zip_bytes (es ++ ms ++ [Entry "__init__.py" t ""]));
            Chmod pybin 493]
    ∧ Forall2 wrote es (all_items fnmatch E excl args)
    ∧ books (tracked_items fnmatch E excl args) ∅ ∅ dirs dwi
    ∧ Forall2 marker_of (sorted (dirs ∖ dwi)) ms
    ∧ Forall (λ arg, recognized arg = true) args.
Proof.
  unfold run, generate_python_binary. intros H. cbv zeta.
  apply bind_ok in H as ([] & l0 & [= <-] & H). cbv zeta in H.
  apply bind_ok in H as ([dirs dwi] & l1 & Hloop & H).
  apply pybin_loop_inv in Hloop as (es & -> & Hes & Hbooks & Hrec).
  apply bind_ok in H as ([] & l2 & Hms & H).
  destruct (markers_loop E pybin (sorted (dirs ∖ dwi)) ([Open pybin ZipDeflated] ++ (Put pybin <$> es)))
    as (ms & Hms' & HF).
  rewrite Hms' in Hms. injection Hms as <-.
  apply bind_ok in H as ([] & l3 & [= <-] & H).
  apply bind_ok in H as ([] & l4 & [= <-] & H).
  apply bind_ok in H as (lg & l5 & [= <- <-] & H).
  apply bind_ok in H as ([] & l6 & [= <-] & [= <-]).
  exists es, ms, dirs, dwi. eexists. split_and!; [|done..].
  rewrite !archive_of_app, !archive_of_puts. unfold archive_of. cbn [omap list_omap app].
  rewrite decide_True by done. cbn [app mbind option_bind].
  rewrite <-!app_assoc. cbn [app]. reflexivity.
Qed.

Section PythonBinaryOk.
Variable fnmatch : string → string → bool.
Variable zip_bytes : list entry → string.
Variable E : env.
Variable pybin : string.
Variable exclusions : list string.

Lemma zip_write_ok libsrc a l :
  is_Some (files E libsrc) → is_Some (zip_arcname a) →
  ∃ l', zip_write E pybin libsrc a l = (l', Ok tt).
Proof.
  intros [f Hf] [n Hn]. unfold zip_write, stat. rewrite bind_eq, Hf. cbn [orelse].
  rewrite ret_eq, bind_eq, Hn. by eexists.
Qed.

Lemma pylib_loop_ok base srcs :
  Forall (λ src, is_Some (Path.relpath (cwd E) src.1 base)) srcs →
  Forall item_ok (omap (pylib_item fnmatch E exclusions base) srcs) →
  Forall item_rel (omap (pylib_item fnmatch E exclusions base) srcs) →
  ∀ st l, ∃ l' st',
    foldM (pylib_add_src fnmatch E pybin base exclusions) st srcs l = (l', Ok st').
Proof.
  induction srcs as [|[libsrc digest] srcs IH]; intros Hrel Hok Habs [dirs dwi] l.
  - by eexists _, _.
  - apply Forall_cons in Hrel as [[a Ha] Hrel]. simpl in Ha.
    rewrite foldM_cons, bind_eq. unfold pylib_add_src at 1. rewrite bind_eq, Ha.
    cbn [orelse]. rewrite ret_eq. cbn [omap list_omap] in Hok, Habs.
    assert (pylib_item fnmatch E exclusions base (libsrc, digest)
            = if _is_python_excluded_path fnmatch a exclusions then None
              else Some (Item a (zip_arcname a) (f_data <$> files E libsrc))) as Hitem.
    { unfold pylib_item. simpl. by rewrite Ha. }
    rewrite Hitem in Hok, Habs.
    destruct (_is_python_excluded_path fnmatch a exclusions); cbn [negb].
    + rewrite ret_eq. by apply IH.
    + apply Forall_cons in Hok as [[Hn Hd] Hok]. apply Forall_cons in Habs as [Hr Habs].
      simpl in Hn, Hd, Hr. unfold item_rel in Hr. simpl in Hr.
      destruct (update_ok a dirs dwi l Hr) as (d1 & w1 & Hup).
      rewrite bind_eq, Hup, bind_eq.
      destruct (zip_write_ok libsrc a l) as [l1 ->]; [|done|].
      { destruct (files E libsrc); [by eexists|]. by destruct Hd. }
      rewrite ret_eq. by apply IH.
Qed.

Lemma zip_loop_ok z keep names (track : bool) :
  (∀ n, n ∈ names → is_Some (zip_lookup z n)) →
  (track = true →
   Forall (λ n, Path.isabs n = false)
     (List.filter (λ n, keep n && negb (_is_python_excluded_path fnmatch n exclusions))
        names)) →
  ∀ dirs dwi l, ∃ l' dirs' dwi',
    foldM (zip_add_name fnmatch E pybin z keep exclusions)
      (if track then (Some dirs, Some dwi) else (None, None)) names l
    = (l', Ok (if track then (Some dirs', Some dwi') else (None, None))).
Proof.
  induction names as [|n names IH]; intros Hnames Hrel dirs dwi l.
  - exists l, dirs, dwi. by destruct track.
  - assert (∀ n', n' ∈ names → is_Some (zip_lookup z n')) as Hnames'.
    { intros n' ?. apply Hnames. by right. }
    destruct (Hnames n) as [data Hdata]; [by left|].
    rewrite foldM_cons, bind_eq. cbn [List.filter] in Hrel.
    assert (zip_add_name fnmatch E pybin z keep exclusions
              (if track then (Some dirs, Some dwi) else (None, None)) n
            = if keep n && negb (_is_python_excluded_path fnmatch n exclusions)
              then
                (if track
                 then '(d, w) ← _update_init_py_dirs n dirs dwi; mret (Some d, Some w)
                 else mret (None, None))
                ≫= λ '(od, ow),
                  data ← zip_read z n; zip_writestr E pybin n data;; mret (od, ow)
              else mret (if track then (Some dirs, Some dwi) else (None, None))) as ->.
    { unfold zip_add_name. by destruct track. }
    destruct (keep n && negb (_is_python_excluded_path fnmatch n exclusions)).
    + destruct track.
      * specialize (Hrel eq_refl). apply Forall_cons in Hrel as [Hr Hrel].
        destruct (update_ok n dirs dwi l Hr) as (d1 & w1 & Hup).
        rewrite bind_eq, bind_eq, Hup, ret_eq, bind_eq. unfold zip_read. rewrite Hdata.
        cbn [orelse]. rewrite ret_eq, bind_eq, zip_writestr_eq, ret_eq.
        by apply (IH Hnames' (λ _, Hrel)).
      * rewrite bind_eq, ret_eq, bind_eq. unfold zip_read. rewrite Hdata.
        cbn [orelse]. rewrite ret_eq, bind_eq, zip_writestr_eq, ret_eq.
        apply (IH Hnames'); done.
    + rewrite ret_eq. destruct track.
      * by apply (IH Hnames' (λ _, Hrel eq_refl)).
      * apply (IH Hnames'); done.
Qed.
End PythonBinaryOk.

Section PythonBinaryRuns.
Variable fnmatch : string → string → bool.
Variable zip_bytes : list entry → string.
Variable E : env.
Variable pybin : string.
Variable exclusions : list string.

Lemma pybin_add_ok arg :
  source_ok fnmatch E exclusions arg →
  ∀ dirs dwi l, ∃ l' dirs' dwi',
    pybin_add fnmatch E pybin exclusions (dirs, dwi) arg l = (l', Ok (dirs', dwi')).
Proof.
  unfold source_ok, pybin_add, items, tracked, recognized.
  intros (Hrec & Hfile & Hok & Hrel) dirs dwi l.
  destruct (Str.endswith ".pylib" arg); cbn [orb negb andb] in *.
  { destruct Hfile as (d & Hd & Hsrcs). rewrite Hd in Hok, Hrel. simpl in Hok, Hrel.
    unfold _pybin_add_pylib. rewrite bind_eq, Hd. cbn [orelse]. rewrite ret_eq.
    destruct (pylib_loop_ok fnmatch E pybin exclusions (base_dir d) (srcs d)
                Hsrcs Hok (Hrel eq_refl) (dirs, dwi) l) as (l' & [d' w'] & ->).
    by eexists _, _, _. }
  destruct Hfile as [z Hz]. rewrite Hz in Hok, Hrel. simpl in Hok, Hrel.
  destruct (Str.endswith ".egg" arg); cbn [orb negb andb] in *.
  { unfold _pybin_add_egg, _pybin_add_zip, zip_read_open.
    rewrite bind_eq, bind_eq, bind_eq, Hz. cbn [orelse]. rewrite ret_eq.
    destruct (zip_loop_ok fnmatch E pybin exclusions z egg_filter (namelist z) false
                (zip_lookup_namelist z)) with (dirs := dirs) (dwi := dwi) (l := l)
      as (l' & _ & _ & ->); [done|].
    rewrite ret_eq, ret_eq. by eexists _, _, _. }
  destruct (Str.endswith ".whl" arg); [|done].
  unfold _pybin_add_whl, _pybin_add_zip, zip_read_open.
  rewrite bind_eq, bind_eq, Hz. cbn [orelse]. rewrite ret_eq.
  destruct (zip_loop_ok fnmatch E pybin exclusions z whl_filter (namelist z) true
              (zip_lookup_namelist z)) with (dirs := dirs) (dwi := dwi) (l := l)
    as (l' & d' & w' & ->).
  { intros _. specialize (Hrel eq_refl). unfold zip_items in Hrel.
    rewrite Forall_fmap in Hrel. exact Hrel. }
  rewrite ret_eq. by eexists _, _, _.
Qed.

Lemma pybin_loop_ok args :
  Forall (source_ok fnmatch E exclusions) args →
  ∀ dirs dwi l, ∃ l' dirs' dwi',
    foldM (pybin_add fnmatch E pybin exclusions) (dirs, dwi) args l
    = (l', Ok (dirs', dwi')).
Proof.
  induction 1 as [|arg args Harg _ IH]; intros dirs dwi l.
  - by eexists _, _, _.
  - destruct (pybin_add_ok arg Harg dirs dwi l) as (l1 & d1 & w1 & Hadd).
    rewrite foldM_cons, bind_eq, Hadd. apply IH.
Qed.
End PythonBinaryRuns.

(** A python binary is composed from sources that can be read. *)
Lemma generate_python_binary_ok fnmatch zip_bytes E pybin basedir exclusions mainentry args :
  Forall (source_ok fnmatch E (Str.split "," exclusions)) args →
  ∃ l, run (generate_python_binary fnmatch zip_bytes E pybin basedir exclusions
              mainentry args) = (l, Ok tt).
Proof.
  intros Hargs. unfold run, generate_python_binary.
  rewrite bind_eq. unfold zip_open at 1, emit at 1. cbn [app]. cbv zeta.
  rewrite bind_eq.
  destruct (pybin_loop_ok fnmatch E pybin (Str.split "," exclusions) args Hargs ∅ ∅
              [Open pybin ZipDeflated]) as (l1 & dirs & dwi & ->).
  rewrite bind_eq.
  destruct (markers_loop E pybin (sorted (dirs ∖ dwi)) l1) as (ms & -> & _).
  by eexists.
Qed.

Lemma all_items_app fnmatch E excl args1 args2 :
  all_items fnmatch E excl (args1 ++ args2)
  = all_items fnmatch E excl args1 ++ all_items fnmatch E excl args2.
Proof. unfold all_items. apply flat_map_app. Qed.

Lemma tracked_items_sub fnmatch E excl args it :
  it ∈ tracked_items fnmatch E excl args → it ∈ all_items fnmatch E excl args.
Proof.
  unfold tracked_items, all_items. rewrite !list_elem_of_In, !in_flat_map.
  intros (arg & Harg & Hit). exists arg. split; [done|].
  destruct (tracked arg); [done|]. by destruct Hit.
Qed.

Lemma wrote_elem es its it :
  Forall2 wrote es its → it ∈ its → ∃ e, e ∈ es ∧ wrote e it.
Proof.
  intros HF (i & Hi)%list_elem_of_lookup.
  destruct (Forall2_lookup_r _ _ _ _ _ HF Hi) as (e & He & Hw).
  exists e. split; [|done]. by eapply list_elem_of_lookup_2.
Qed.

Lemma archive_of_python (zip_bytes : list entry → string) pybin es ms t mainentry :
  archive_of pybin
    ([Open pybin ZipDeflated] ++ (Put pybin <$> es) ++ (Put pybin <$> ms)
     ++ [Put pybin (Entry "__init__.py" t "");
         Close pybin;
         WriteFile pybin (bootstrap mainentry
                          +:+ zip_bytes (es ++ ms ++ [Entry "__init__.py" t ""]));
         Chmod pybin 493])
  = es ++ ms ++ [Entry "__init__.py" t ""].
Proof.
  rewrite !archive_of_app, !archive_of_puts. unfold archive_of. cbn [omap list_omap].
  rewrite decide_True by done. done.
Qed.

(** C1, as the code has it. The composer of python binaries keeps every
    copy: when a source [A] comes before a source [B] and both contribute a
    member named [x], the archive has both, the copy of [A] before the copy
    of [B]. *)
Theorem python_binary_keeps_every_copy fnmatch zip_bytes E pybin basedir exclusions
    mainentry args l pre A mid B post x a b :
  run (generate_python_binary fnmatch zip_bytes E pybin basedir exclusions mainentry args)
  = (l, Ok tt) →
  args = pre ++ A :: mid ++ B :: post →
  contributes fnmatch E (Str.split "," exclusions) A x a →
  contributes fnmatch E (Str.split "," exclusions) B x b →
  ∃ ta tb l1 l2 l3,
    archive_of pybin l = l1 ++ Entry x ta a :: l2 ++ Entry x tb b :: l3.
Proof.
  intros Hrun -> (ita & Hita & Hna & Hda) (itb & Hitb & Hnb & Hdb).
  apply generate_python_binary_inv in Hrun
      as (es & ms & dirs & dwi & t & -> & Hes & _ & _ & _).
  rewrite archive_of_python.
  rewrite all_items_app in Hes. change (A :: mid ++ B :: post) with ([A] ++ mid ++ [B] ++ post) in Hes.
  rewrite !all_items_app in Hes.
  apply Forall2_app_inv_r in Hes as (e1 & es1 & _ & Hes & ->).
  apply Forall2_app_inv_r in Hes as (eA & es2 & HA & Hes & ->).
  apply Forall2_app_inv_r in Hes as (e3 & es3 & _ & Hes & ->).
  apply Forall2_app_inv_r in Hes as (eB & es4 & HB & _ & ->).
  unfold all_items in HA, HB. simpl in HA, HB. rewrite app_nil_r in HA, HB.
  apply list_elem_of_split in Hita as (ia1 & ia2 & Hia).
  apply list_elem_of_split in Hitb as (ib1 & ib2 & Hib).
  rewrite Hia in HA. rewrite Hib in HB.
  apply Forall2_app_inv_r in HA as (a1 & a2 & _ & HA & ->).
  apply Forall2_cons_inv_r in HA as (ea & a3 & [Hea1 Hea2] & _ & ->).
  apply Forall2_app_inv_r in HB as (b1 & b2 & _ & HB & ->).
  apply Forall2_cons_inv_r in HB as (eb & b3 & [Heb1 Heb2] & _ & ->).
  assert (ea = Entry x (e_time ea) a) as ->.
  { destruct ea as [n ti da]. simpl in *. congruence. }
  assert (eb = Entry x (e_time eb) b) as ->.
  { destruct eb as [n ti da]. simpl in *. congruence. }
  exists (e_time ea), (e_time eb), (e1 ++ a1), (a3 ++ e3 ++ b1),
    (b3 ++ es4 ++ ms ++ [Entry "__init__.py" t ""]).
  by simplify_list_eq.
Qed.

Lemma elem_of_sorted (s : gset string) d : d ∈ sorted s ↔ d ∈ s.
Proof. unfold sorted. rewrite merge_sort_Permutation. apply elem_of_elements. Qed.

Lemma markers_cover (s : gset string) ms :
  Forall2 marker_of (sorted s) ms →
  (∀ d, d ∈ s → ∃ m, m ∈ ms ∧ marker_of d m)
  ∧ (∀ m, m ∈ ms → ∃ d, d ∈ s ∧ marker_of d m).
Proof.
  intros HF. split.
  - intros d (i & Hi)%elem_of_sorted%list_elem_of_lookup.
    destruct (Forall2_lookup_l _ _ _ _ _ HF Hi) as (m & Hm & Hmark).
    exists m. split; [|done]. by eapply list_elem_of_lookup_2.
  - intros m (i & Hi)%list_elem_of_lookup.
    destruct (Forall2_lookup_r _ _ _ _ _ HF Hi) as (d & Hd & Hmark).
    exists d. split; [|done]. apply elem_of_sorted. by eapply list_elem_of_lookup_2.
Qed.

(** An egg leaves the books as they are. *)
Lemma pybin_add_egg fnmatch E pybin exclusions arg dirs dwi l l' st :
  Str.endswith ".pylib" arg = false → Str.endswith ".egg" arg = true →
  pybin_add fnmatch E pybin exclusions (dirs, dwi) arg l = (l', Ok st) →
  st = (dirs, dwi).
Proof.
  unfold pybin_add. intros -> ->. by intros ([] & l0 & _ & [= <- <-])%bind_ok.
Qed.

(** C2, as the code has it. In a composed python binary every directory
    above a member that came from a library descriptor or from a wheel has a
    marker: a member [__init__.py] of such a source, or an empty one the
    composer added; and the last member is the empty marker of the root. *)
Theorem python_binary_markers fnmatch zip_bytes E pybin basedir exclusions mainentry
    args l :
  run (generate_python_binary fnmatch zip_bytes E pybin basedir exclusions mainentry args)
  = (l, Ok tt) →
  let excl := Str.split "," exclusions in
  (∀ it d, it ∈ tracked_items fnmatch E excl args → ancestor_dir d (i_arcname it) →
     (∃ it' e, it' ∈ tracked_items fnmatch E excl args
               ∧ Path.basename (i_arcname it') = "__init__.py"
               ∧ Path.dirname (i_arcname it') = d
               ∧ e ∈ archive_of pybin l ∧ wrote e it')
     ∨ (∃ m, m ∈ archive_of pybin l ∧ marker_of d m))
  ∧ (∃ t, last (archive_of pybin l) = Some (Entry "__init__.py" t "")).
Proof.
  intros Hrun. cbv zeta.
  apply generate_python_binary_inv in Hrun
      as (es & ms & dirs & dwi & t & -> & Hes & (Hdirs & Hdwi & _) & Hms & _).
  rewrite archive_of_python. apply markers_cover in Hms as [Hcover _]. split.
  - intros it d Hit Hanc.
    assert (d ∈ dirs) as Hd.
    { apply Hdirs. right. eauto. }
    destruct (decide (d ∈ dwi)) as [Hw|Hw].
    + left. apply Hdwi in Hw as [?%elem_of_empty|(it' & Hit' & Hb & Hdn)]; [done|].
      destruct (wrote_elem es _ it' Hes) as (e & He & Hwr); [by apply tracked_items_sub|].
      exists it', e. split_and!; try done. set_solver.
    + right. destruct (Hcover d) as (m & Hm & Hmark); [set_solver|].
      exists m. split; [set_solver|done].
  - exists t. by rewrite app_assoc, last_snoc.
Qed.

(** C10. The books of directories of the python binary composer reach all
    the way up: every directory above a member from a library descriptor or
    a wheel is in [dirs], and those for which no such source has a member
    [__init__.py] get an empty marker; the composer adds markers for no
    other directories. An egg does not touch the books, so a directory that
    only eggs fill gets no marker. *)
Theorem python_binary_books fnmatch zip_bytes E pybin basedir exclusions mainentry
    args l :
  run (generate_python_binary fnmatch zip_bytes E pybin basedir exclusions mainentry args)
  = (l, Ok tt) →
  let excl := Str.split "," exclusions in
  (∃ es ms root (dirs dwi : gset string),
     archive_of pybin l = es ++ ms ++ [root]
     ∧ Forall2 wrote es (all_items fnmatch E excl args)
     ∧ (∀ d, d ∈ dirs ↔ ∃ it, it ∈ tracked_items fnmatch E excl args
                               ∧ ancestor_dir d (i_arcname it))
     ∧ (∀ d, d ∈ dwi ↔ ∃ it, it ∈ tracked_items fnmatch E excl args
                              ∧ Path.basename (i_arcname it) = "__init__.py"
                              ∧ Path.dirname (i_arcname it) = d)
     ∧ (∀ d, d ∈ dirs → d ∉ dwi → ∃ m, m ∈ ms ∧ marker_of d m)
     ∧ (∀ m, m ∈ ms → ∃ d, d ∈ dirs ∧ (d ∉ dwi) ∧ marker_of d m))
  ∧ (∀ arg, Str.endswith ".pylib" arg = false → Str.endswith ".egg" arg = true →
       tracked arg = false
       ∧ (∀ dirs dwi l0 l1 st,
            pybin_add fnmatch E pybin excl (dirs, dwi) arg l0 = (l1, Ok st) →
            st = (dirs, dwi))).
Proof.
  intros Hrun. cbv zeta. split.
  - apply generate_python_binary_inv in Hrun
        as (es & ms & dirs & dwi & t & -> & Hes & (Hdirs & Hdwi & _) & Hms & _).
    rewrite archive_of_python. apply markers_cover in Hms as [Hcover Honly].
    exists es, ms, (Entry "__init__.py" t ""), dirs, dwi. split_and!; [done|done| | | |].
    + intros d. rewrite Hdirs. set_solver.
    + intros d. rewrite Hdwi. set_solver.
    + intros d Hd Hw. apply Hcover. set_solver.
    + intros m Hm. destruct (Honly m Hm) as (d & Hd & Hmark). exists d. set_solver.
  - intros arg Hpylib Hegg. split.
    + unfold tracked. by rewrite Hpylib, Hegg.
    + intros dirs dwi l0 l1 st. by apply pybin_add_egg.
Qed.

Section Puts.
Variable path : string.

Lemma puts_ret {A} (a : A) : puts path (mret a).
Proof. intros l. exists []. by rewrite app_nil_r. Qed.

Lemma puts_raise {A} e : puts path (raise e : M A).
Proof. intros l. exists []. by rewrite app_nil_r. Qed.

Lemma puts_diverge {A} : puts path (diverge : M A).
Proof. intros l. exists []. by rewrite app_nil_r. Qed.

Lemma puts_orelse {A} (o : option A) e : puts path (orelse o e).
Proof. destruct o; [apply puts_ret|apply puts_raise]. Qed.

Lemma puts_put e : puts path (emit (Put path e)).
Proof. intros l. by exists [e]. Qed.

Lemma puts_bind {A B} (m : M A) (f : A → M B) :
  puts path m → (∀ a, puts path (f a)) → puts path (m ≫= f).
Proof.
  intros Hm Hf l. rewrite bind_eq. destruct (Hm l) as [es1 Hes1].
  destruct (m l) as [l1 [a| |]]; simpl in Hes1; subst l1; [|by exists es1..].
  destruct (Hf a (l ++ (Put path <$> es1))) as [es2 ->].
  exists (es1 ++ es2). by rewrite fmap_app, app_assoc.
Qed.

Lemma puts_foldM {A S} (body : S → A → M S) s xs :
  (∀ s x, puts path (body s x)) → puts path (foldM body s xs).
Proof.
  intros Hbody. revert s. induction xs as [|x xs IH]; intros s.
  - apply puts_ret.
  - rewrite foldM_cons. apply puts_bind; [apply Hbody|apply IH].
Qed.
End Puts.

Section PutsPython.
Variable fnmatch : string → string → bool.
Variable E : env.
Variable pybin : string.
Variable exclusions : list string.

Lemma puts_update a dirs dwi : puts pybin (_update_init_py_dirs a dirs dwi).
Proof.
  unfold _update_init_py_dirs. destruct (walk_up _ _ _); [apply puts_ret|apply puts_diverge].
Qed.

Lemma puts_zip_write libsrc a : puts pybin (zip_write E pybin libsrc a).
Proof.
  unfold zip_write, stat. apply puts_bind; [apply puts_orelse|]. intros f.
  apply puts_bind; [apply puts_orelse|]. intros n. apply puts_put.
Qed.

Lemma puts_zip_writestr n d : puts pybin (zip_writestr E pybin n d).
Proof. intros l. by eexists [_]. Qed.

Lemma puts_pybin_add st arg : puts pybin (pybin_add fnmatch E pybin exclusions st arg).
Proof.
  destruct st as [dirs dwi]. unfold pybin_add.
  destruct (Str.endswith ".pylib" arg).
  { unfold _pybin_add_pylib. apply puts_bind; [apply puts_orelse|]. intros d.
    apply puts_foldM. intros [d1 w1] [libsrc digest]. unfold pylib_add_src.
    apply puts_bind; [apply puts_orelse|]. intros a.
    destruct (negb _); [|apply puts_ret].
    apply puts_bind; [apply puts_update|]. intros [d2 w2].
    apply puts_bind; [apply puts_zip_write|]. intros _. apply puts_ret. }
  assert (∀ keep od ow, puts pybin (_pybin_add_zip fnmatch E pybin arg keep exclusions od ow))
    as Hzip.
  { intros keep od ow. unfold _pybin_add_zip.
    apply puts_bind; [apply puts_orelse|]. intros z.
    apply puts_foldM. intros [od1 ow1] n. unfold zip_add_name.
    destruct (_ && _); [|apply puts_ret].
    apply puts_bind.
    { destruct od1, ow1; try apply puts_ret.
      apply puts_bind; [apply puts_update|]. intros [d2 w2]. apply puts_ret. }
    intros [od2 ow2]. apply puts_bind; [apply puts_orelse|]. intros data.
    apply puts_bind; [apply puts_zip_writestr|]. intros _. apply puts_ret. }
  destruct (Str.endswith ".egg" arg).
  { apply puts_bind; [|intros; apply puts_ret]. unfold _pybin_add_egg.
    apply puts_bind; [apply Hzip|intros; apply puts_ret]. }
  destruct (Str.endswith ".whl" arg); [|apply puts_raise].
  unfold _pybin_add_whl. apply puts_bind; [apply Hzip|]. intros [od ow]. apply puts_ret.
Qed.
End PutsPython.

Lemma generate_python_binary_eq fnmatch zip_bytes E pybin basedir exclusions mainentry args :
  run (generate_python_binary fnmatch zip_bytes E pybin basedir exclusions mainentry args)
  = match foldM (pybin_add fnmatch E pybin (Str.split "," exclusions)) (∅, ∅) args
            [Open pybin ZipDeflated] with
    | (l, Ok (dirs, dwi)) => pybin_finish zip_bytes E pybin mainentry dirs dwi l
    | (l, Raise e) => (l, Raise e)
    | (l, Diverge) => (l, Diverge)
    end.
Proof.
  unfold run, generate_python_binary. rewrite bind_eq.
  unfold zip_open at 1, emit at 1. cbn [app]. cbv zeta. rewrite bind_eq.
  by destruct (foldM _ _ _ _) as [l [[dirs dwi]| |]].
Qed.

Lemma pybin_finish_ok zip_bytes E pybin mainentry dirs dwi l :
  ∃ l', pybin_finish zip_bytes E pybin mainentry dirs dwi l = (l', Ok tt).
Proof.
  unfold pybin_finish. rewrite bind_eq.
  destruct (markers_loop E pybin (sorted (dirs ∖ dwi)) l) as (ms & -> & _).
  by eexists.
Qed.


Lemma bootstrap_exec_line mainentry :
  bootstrap mainentry = "#!/bin/sh" +:+ LF +:+ "" +:+ LF +:+ exec_line mainentry +:+ LF +:+ "".
Proof.
  unfold bootstrap, exec_line. rewrite !str_app_assoc, str_app_nil_r. reflexivity.
Qed.

Lemma exec_line_one_line mainentry :
  Str.contains_char Str.nl mainentry = false →
  Str.contains_char Str.nl (exec_line mainentry) = false.
Proof.
  intros Hm. unfold exec_line. rewrite !contains_char_app, Hm. reflexivity.
Qed.

Lemma endswith_app suf s : Str.endswith suf (s +:+ suf) = true.
Proof.
  induction s as [|a s IH].
  - rewrite str_app_nil_l. destruct suf; simpl; [done|].
    by rewrite Ascii.eqb_refl, String.eqb_refl.
  - rewrite str_app_cons. cbn [Str.endswith]. rewrite IH.
    by destruct (String.eqb (String a (s +:+ suf)) suf).
Qed.

(** The prologue is three whole lines. *)
Lemma bootstrap_lines mainentry :
  Str.contains_char Str.nl mainentry = false →
  text_lines (bootstrap mainentry) = ["#!/bin/sh"; ""; exec_line mainentry]
  ∧ Str.endswith LF (bootstrap mainentry) = true.
Proof.
  intros Hm. split.
  - rewrite bootstrap_exec_line.
    rewrite !text_lines_line; [done|by apply exec_line_one_line|done|done].
  - rewrite bootstrap_exec_line, str_app_nil_r.
    rewrite <-!str_app_assoc. apply endswith_app.
Qed.

Section Prepender.
Variable fnmatch : string → string → bool.
Variable zip_bytes : list entry → string.
(** What a reader of archives makes of the bytes of a file. *)
Variable zip_reader : string → option (list entry).
(** The reader finds the index of the archive from the end of the file:
    bytes before the archive do not matter. *)
Hypothesis reader_from_end :
  ∀ prefix arch, zip_reader (prefix +:+ zip_bytes arch) = Some arch.

(** C6. The last steps of [generate_python_binary] close the archive and
    write, in place of it, the prologue followed at once by the bytes of
    the archive as they were, then set the mode [0o755], whose execution
    bits are all set. A reader of archives finds in the file the archive
    that was closed, and the bytes before it are the three lines of the
    shell prologue, each ended by a line feed. *)
Theorem python_binary_prologue E pybin basedir exclusions mainentry args l :
  Str.contains_char Str.nl mainentry = false →
  run (generate_python_binary fnmatch zip_bytes E pybin basedir exclusions
         mainentry args) = (l, Ok tt) →
  ∃ l0 arch mode,
    l = l0 ++ [Close pybin;
               WriteFile pybin (bootstrap mainentry +:+ zip_bytes arch);
               Chmod pybin mode]
    ∧ arch = archive_of pybin l0
    ∧ N.land mode S_IXUGO = S_IXUGO
    ∧ zip_reader (bootstrap mainentry +:+ zip_bytes arch) = Some arch
    ∧ text_lines (bootstrap mainentry) = ["#!/bin/sh"; ""; exec_line mainentry]
    ∧ Str.endswith LF (bootstrap mainentry) = true.
Proof using reader_from_end.
  intros Hm Hrun.
  apply generate_python_binary_inv in Hrun
      as (es & ms & dirs & dwi & t & -> & _).
  destruct (bootstrap_lines mainentry Hm) as [Hlines Hend].
  exists ([Open pybin ZipDeflated] ++ (Put pybin <$> es) ++ (Put pybin <$> ms)
          ++ [Put pybin (Entry "__init__.py" t "")]),
    (es ++ ms ++ [Entry "__init__.py" t ""]), 493%N.
  split_and!; [by simplify_list_eq| |done|apply reader_from_end|done|done].
  rewrite !archive_of_app, !archive_of_puts. unfold archive_of. cbn [omap list_omap].
  by rewrite decide_True.
Qed.
End Prepender.

Section Simulation.
Variable zip_bytes : list entry → string.
Variable c1 c2 : nat → Z.

Local Abbreviation sim := (@sim_m zip_bytes c1 c2).
Local Abbreviation logs := (log_sim zip_bytes c1 c2).

Lemma sim_ret {A} (R : A → A → Prop) a1 a2 : R a1 a2 → sim R (mret a1) (mret a2).
Proof. by intros HR l1 l2 Hl. Qed.

Lemma sim_raise {A} (R : A → A → Prop) e : sim R (raise e) (raise e).
Proof. by intros l1 l2 Hl. Qed.

Lemma sim_diverge {A} (R : A → A → Prop) : sim R diverge diverge.
Proof. by intros l1 l2 Hl. Qed.

Lemma sim_orelse {A} (o : option A) e : sim eq (orelse o e) (orelse o e).
Proof. destruct o; [by apply sim_ret|apply sim_raise]. Qed.

Lemma sim_assert c : sim eq (assert c) (assert c).
Proof. unfold assert. destruct c; [by apply sim_ret|apply sim_raise]. Qed.

Lemma sim_emit ev : sim eq (emit ev) (emit ev).
Proof.
  intros l1 l2 Hl. split; [|done]. simpl.
  apply log_sim_snoc; [done|]. apply ev_same.
Qed.

Lemma sim_bind {A B} (R : A → A → Prop) (Q : B → B → Prop) (m1 m2 : M A) (f1 f2 : A → M B) :
  sim R m1 m2 → (∀ a1 a2, R a1 a2 → sim Q (f1 a1) (f2 a2)) →
  sim Q (m1 ≫= f1) (m2 ≫= f2).
Proof.
  intros Hm Hf l1 l2 Hl. rewrite !bind_eq. destruct (Hm l1 l2 Hl) as [Hl' Hr].
  destruct (m1 l1) as [l1' [a1|e1|]], (m2 l2) as [l2' [a2|e2|]]; simpl in *; try done.
  by apply Hf.
Qed.

Lemma sim_bind_eq {A B} (Q : B → B → Prop) (m1 m2 : M A) (f1 f2 : A → M B) :
  sim eq m1 m2 → (∀ a, sim Q (f1 a) (f2 a)) → sim Q (m1 ≫= f1) (m2 ≫= f2).
Proof. intros Hm Hf. apply (sim_bind eq); [done|]. intros a ? <-. apply Hf. Qed.

Lemma sim_foldM {A S} (R : S → S → Prop) (body1 body2 : S → A → M S) xs :
  (∀ s1 s2 x, R s1 s2 → sim R (body1 s1 x) (body2 s2 x)) →
  ∀ s1 s2, R s1 s2 → sim R (foldM body1 s1 xs) (foldM body2 s2 xs).
Proof.
  intros Hbody. induction xs as [|x xs IH]; intros s1 s2 Hs.
  - by apply sim_ret.
  - rewrite !foldM_cons. apply (sim_bind R); [by apply Hbody|]. apply IH.
Qed.

(** What the comparison of two runs tells. *)
Lemma log_sim_length l1 l2 : logs l1 l2 → length l1 = length l2.
Proof.
  induction 1 as [|l1 l2 ev1 ev2 _ IH _]; [done|].
  rewrite !length_app. simpl. lia.
Qed.

Lemma members_snoc path l ev :
  members path (l ++ [ev])
  = members path l ++ match ev with
                      | Put p e => if decide (p = path) then [(e_name e, e_data e)] else []
                      | _ => []
                      end.
Proof.
  unfold members. rewrite archive_of_app, fmap_app. f_equal.
  unfold archive_of. destruct ev as [| p e | | |]; try done.
  cbn [omap list_omap]. by destruct (decide (p = path)).
Qed.

Lemma log_sim_members path l1 l2 : logs l1 l2 → members path l1 = members path l2.
Proof.
  induction 1 as [|l1 l2 ev1 ev2 _ IH Hev]; [done|].
  rewrite !members_snoc, IH. f_equal.
  by destruct Hev.
Qed.

Lemma log_sim_eq l1 l2 :
  logs l1 l2 → (∀ n, n < length l1 → c1 n = c2 n) → l1 = l2.
Proof.
  induction 1 as [|l1 l2 ev1 ev2 _ IH Hev]; [done|]. intros Hc.
  rewrite length_app in Hc. cbn [length] in Hc.
  assert (l1 = l2) as <- by (apply IH; intros n Hn; apply Hc; lia).
  f_equal. f_equal. destruct Hev as [ev|p n d|p q n d l1' l2' Hl1 Hl2|p pre].
  - done.
  - rewrite Hc by lia. done.
  - rewrite Hl1 in Hl2. apply app_inj_tail in Hl2 as [<- _].
    rewrite Hc; [done|]. rewrite Hl1, length_app. simpl. lia.
  - done.
Qed.

Lemma sim_run {A} (m1 m2 : M A) :
  sim eq m1 m2 → (run m1).2 = (run m2).2 ∧ logs (run m1).1 (run m2).1.
Proof.
  intros Hsim. destruct (Hsim [] []) as [Hl Hr]; [constructor|]. split; [|done].
  unfold run. destruct (m1 []) as [l1 [a1|e1|]], (m2 []) as [l2 [a2|e2|]];
    unfold res_sim in Hr; simpl in *; try done; congruence.
Qed.

Section Clocks.
Variable fnmatch : string → string → bool.
Variable md5sum : string → string.
Variable E : env.

Local Abbreviation E1 := (at_clock c1 E).
Local Abbreviation E2 := (at_clock c2 E).

Lemma sim_stat name : sim eq (stat E1 name) (stat E2 name).
Proof. apply sim_orelse. Qed.

(** A member with the time of a file of the inputs is the same in both
    runs. *)
Lemma sim_zip_write path filename arcname :
  sim eq (zip_write E1 path filename arcname) (zip_write E2 path filename arcname).
Proof.
  unfold zip_write. apply sim_bind_eq; [apply sim_stat|]. intros f.
  apply sim_bind_eq; [apply sim_orelse|]. intros a. apply sim_emit.
Qed.

Lemma sim_tar_add path name arcname :
  sim eq (tar_add E1 path name arcname) (tar_add E2 path name arcname).
Proof.
  unfold tar_add. apply sim_bind_eq; [apply sim_stat|]. intros f. apply sim_emit.
Qed.

(** A member written with [writestr] has the time of its run. *)
Lemma sim_zip_writestr path name data :
  sim eq (zip_writestr E1 path name data) (zip_writestr E2 path name data).
Proof.
  intros l1 l2 Hl. rewrite !zip_writestr_eq. split; [|done].
  apply log_sim_snoc; [done|]. apply ev_stamped.
Qed.

Lemma sim_md5sum_file s : sim eq (md5sum_file md5sum E1 s) (md5sum_file md5sum E2 s).
Proof.
  unfold md5sum_file, read_file. apply sim_bind_eq; [|intros; by apply sim_ret].
  apply sim_bind_eq; [apply sim_orelse|]. intros; by apply sim_ret.
Qed.

Lemma sim_aps package1 package2 sources destinations :
  (∀ s d, sim eq (package1 s d) (package2 s d)) →
  sim eq (archive_package_sources md5sum E1 package1 sources destinations)
    (archive_package_sources md5sum E2 package2 sources destinations).
Proof.
  intros Hp. unfold archive_package_sources. apply sim_foldM; [|done].
  intros m ? [i s] <-. apply sim_bind_eq; [apply sim_orelse|]. intros d.
  apply sim_bind_eq; [apply Hp|]. intros _.
  apply sim_bind_eq; [apply sim_md5sum_file|]. intros. by apply sim_ret.
Qed.

(** The manifest of a tar package is a file of the run: the member has the
    time at which its run wrote the file. *)
Lemma sim_tar_manifest path manifest_path data :
  sim eq (m ← write_file E1 manifest_path data;
            tar_put path m _PACKAGE_MANIFEST;; tar_close path)
    (m ← write_file E2 manifest_path data;
     tar_put path m _PACKAGE_MANIFEST;; tar_close path).
Proof.
  intros l1 l2 Hl. split; [|done].
  change ((m ← write_file E1 manifest_path data;
           tar_put path m _PACKAGE_MANIFEST;; tar_close path) l1).1
    with (((l1 ++ [WriteFile manifest_path data])
           ++ [Put path (Entry "MANIFEST.TXT" (c1 (length l1)) data)])
          ++ [Close path]).
  change ((m ← write_file E2 manifest_path data;
           tar_put path m _PACKAGE_MANIFEST;; tar_close path) l2).1
    with (((l2 ++ [WriteFile manifest_path data])
           ++ [Put path (Entry "MANIFEST.TXT" (c2 (length l2)) data)])
          ++ [Close path]).
  apply log_sim_snoc; [|apply ev_same].
  apply log_sim_snoc; [|by eapply ev_written].
  apply log_sim_snoc; [done|apply ev_same].
Qed.

Lemma sim_generate_package args :
  sim eq (generate_package md5sum E1 args) (generate_package md5sum E2 args).
Proof.
  unfold generate_package. apply sim_bind_eq; [apply sim_orelse|]. intros path.
  apply sim_bind_eq; [apply sim_assert|].
  intros _. cbv zeta. destruct (Str.endswith ".zip" path).
  - unfold generate_zip_package. apply sim_bind_eq; [apply sim_emit|]. intros _.
    apply sim_bind_eq; [apply sim_aps; intros; apply sim_zip_write|]. intros m.
    apply sim_bind_eq; [apply sim_zip_writestr|]. intros _. apply sim_emit.
  - destruct (List.find _ _); [|apply sim_raise].
    unfold generate_tar_package. apply sim_bind_eq; [apply sim_orelse|]. intros mode.
    apply sim_bind_eq; [apply sim_emit|]. intros _.
    apply sim_bind_eq; [apply sim_aps; intros; apply sim_tar_add|]. intros m.
    cbv zeta. apply sim_tar_manifest.
Qed.

Lemma sim_zip_read z name : sim eq (zip_read z name) (zip_read z name).
Proof. apply sim_orelse. Qed.

Lemma sim_generate_one_jar onejar main_class bootjar args :
  sim eq (generate_one_jar E1 onejar main_class bootjar args)
    (generate_one_jar E2 onejar main_class bootjar args).
Proof.
  unfold generate_one_jar. apply sim_bind_eq; [apply sim_orelse|]. intros main_jar.
  cbv zeta. apply sim_bind_eq; [apply sim_emit|]. intros _.
  apply sim_bind_eq; [apply sim_orelse|]. intros boot.
  apply sim_bind_eq.
  { apply sim_foldM; [|done]. intros S ? name <-. unfold onejar_add_boot.
    destruct (negb _); [|by apply sim_ret].
    apply sim_bind_eq; [apply sim_zip_read|]. intros data.
    apply sim_bind_eq; [apply sim_zip_writestr|]. intros _. by apply sim_ret. }
  intros S. apply sim_bind_eq; [apply sim_zip_write|]. intros _.
  apply sim_bind_eq.
  { unfold forM. apply sim_foldM; [|done]. intros [] ? dep <-. apply sim_zip_write. }
  intros _. apply sim_bind_eq.
  { apply sim_foldM; [|done]. intros S1 ? jar <-. unfold onejar_add_resources.
    apply sim_bind_eq; [apply sim_orelse|]. intros z.
    apply sim_foldM; [|done]. intros S2 ? name <-. unfold onejar_add_resource.
    destruct (_ || _); [by apply sim_ret|].
    destruct (decide _); [|by apply sim_ret]. cbv zeta.
    apply sim_bind_eq; [apply sim_zip_read|]. intros data.
    apply sim_bind_eq; [apply sim_zip_writestr|]. intros _. by apply sim_ret. }
  intros _. apply sim_bind_eq; [apply sim_zip_writestr|]. intros _. apply sim_emit.
Qed.

Lemma sim_update a dirs dwi :
  sim eq (_update_init_py_dirs a dirs dwi) (_update_init_py_dirs a dirs dwi).
Proof.
  unfold _update_init_py_dirs. destruct (walk_up _ _ _); [by apply sim_ret|apply sim_diverge].
Qed.

Lemma sim_pybin_add pybin exclusions st arg :
  sim eq (pybin_add fnmatch E1 pybin exclusions st arg)
    (pybin_add fnmatch E2 pybin exclusions st arg).
Proof.
  destruct st as [dirs dwi]. unfold pybin_add.
  destruct (Str.endswith ".pylib" arg).
  { unfold _pybin_add_pylib. apply sim_bind_eq; [apply sim_orelse|]. intros d.
    apply sim_foldM; [|done]. intros [d1 w1] ? [libsrc digest] <-. unfold pylib_add_src.
    apply sim_bind_eq; [apply sim_orelse|]. intros a.
    destruct (negb _); [|by apply sim_ret].
    apply sim_bind_eq; [apply sim_update|]. intros [d2 w2].
    apply sim_bind_eq; [apply sim_zip_write|]. intros _. by apply sim_ret. }
  assert (∀ keep od ow,
            sim eq (_pybin_add_zip fnmatch E1 pybin arg keep exclusions od ow)
              (_pybin_add_zip fnmatch E2 pybin arg keep exclusions od ow)) as Hzip.
  { intros keep od ow. unfold _pybin_add_zip.
    apply sim_bind_eq; [apply sim_orelse|]. intros z.
    apply sim_foldM; [|done]. intros [od1 ow1] ? n <-. unfold zip_add_name.
    destruct (_ && _); [|by apply sim_ret].
    apply sim_bind_eq.
    { destruct od1, ow1; try by apply sim_ret.
      apply sim_bind_eq; [apply sim_update|]. intros [d2 w2]. by apply sim_ret. }
    intros [od2 ow2]. apply sim_bind_eq; [apply sim_zip_read|]. intros data.
    apply sim_bind_eq; [apply sim_zip_writestr|]. intros _. by apply sim_ret. }
  destruct (Str.endswith ".egg" arg).
  { apply sim_bind_eq; [|intros; by apply sim_ret]. unfold _pybin_add_egg.
    apply sim_bind_eq; [apply Hzip|intros; by apply sim_ret]. }
  destruct (Str.endswith ".whl" arg); [|apply sim_raise].
  unfold _pybin_add_whl. apply sim_bind_eq; [apply Hzip|]. intros [od ow].
  by apply sim_ret.
Qed.

(** The binary is the prologue and the bytes of the archive of the run. *)
Lemma sim_prepend pybin mainentry :
  sim eq (l ← get_log;
            emit (WriteFile pybin (bootstrap mainentry +:+ zip_bytes (archive_of pybin l)));;
            chmod pybin 493)
    (l ← get_log;
     emit (WriteFile pybin (bootstrap mainentry +:+ zip_bytes (archive_of pybin l)));;
     chmod pybin 493).
Proof.
  intros l1 l2 Hl. split; [|done].
  change ((l ← get_log;
           emit (WriteFile pybin (bootstrap mainentry +:+ zip_bytes (archive_of pybin l)));;
           chmod pybin 493) l1).1
    with ((l1 ++ [WriteFile pybin (bootstrap mainentry +:+ zip_bytes (archive_of pybin l1))])
          ++ [Chmod pybin 493]).
  change ((l ← get_log;
           emit (WriteFile pybin (bootstrap mainentry +:+ zip_bytes (archive_of pybin l)));;
           chmod pybin 493) l2).1
    with ((l2 ++ [WriteFile pybin (bootstrap mainentry +:+ zip_bytes (archive_of pybin l2))])
          ++ [Chmod pybin 493]).
  apply log_sim_snoc; [|apply ev_same].
  apply log_sim_snoc; [done|apply ev_bytes].
Qed.

Lemma sim_generate_python_binary pybin basedir exclusions mainentry args :
  sim eq (generate_python_binary fnmatch zip_bytes E1 pybin basedir exclusions
              mainentry args)
    (generate_python_binary fnmatch zip_bytes E2 pybin basedir exclusions
       mainentry args).
Proof.
  unfold generate_python_binary. apply sim_bind_eq; [apply sim_emit|]. intros _.
  cbv zeta. apply sim_bind_eq.
  { apply sim_foldM; [|done]. intros st ? arg <-. apply sim_pybin_add. }
  intros [dirs dwi]. apply sim_bind_eq.
  { unfold forM. apply sim_foldM; [|done]. intros [] ? d <-. apply sim_zip_writestr. }
  intros _. apply sim_bind_eq; [apply sim_zip_writestr|]. intros _.
  apply sim_bind_eq; [apply sim_emit|]. intros _. apply sim_prepend.
Qed.
End Clocks.
End Simulation.


(** ** The paths of a library descriptor *)

(** The names [posixpath.relpath] computes are relative and [ZipFile.write]
    accepts them, so a library descriptor whose files exist is a source
    that can be read: the walk to the root in [_update_init_py_dirs] comes
    to an end for each of its members. *)
Lemma split_sep_free c s : Forall (λ w, Str.contains_char c w = false) (Str.split c s).
Proof.
  induction s as [|a s IH]; cbn [Str.split].
  - by repeat constructor.
  - destruct (Ascii.eqb a c) eqn:Hac.
    + by constructor.
    + destruct (Str.split c s) as [|w ws]; [by repeat constructor; cbn; rewrite Hac|].
      inversion IH; subst. constructor; [|done].
      cbn [Str.contains_char]. by rewrite Hac.
Qed.

Lemma no_slash_rel w : Str.contains_char Str.slash w = false → Str.startswith "/" w = false.
Proof.
  destruct w as [|a w]; [done|]. cbn [Str.contains_char Str.startswith].
  intros [Ha _]%orb_false_iff. rewrite Ascii.eqb_sym. unfold Str.slash in Ha.
  by rewrite Ha.
Qed.

Lemma rel_app s t : s ≠ "" → Str.startswith "/" (s +:+ t) = Str.startswith "/" s.
Proof.
  destruct s as [|a s]; [done|]. intros _.
  change (String a s +:+ t) with (String a (s +:+ t)).
  cbn [Str.startswith]. by destruct (Ascii.eqb _ a).
Qed.

Lemma app_not_empty s t : s ≠ "" → s +:+ t ≠ "".
Proof. by destruct s. Qed.

Lemma join2_rel path b :
  path ≠ "" → Path.isabs path = false → Str.startswith "/" b = false →
  Path.join2 path b ≠ "" ∧ Path.isabs (Path.join2 path b) = false.
Proof.
  intros Hne Hrel Hb. unfold Path.join2. rewrite Hb.
  unfold Path.isabs in *.
  destruct (_ || _).
  - split; [by apply app_not_empty|]. by rewrite rel_app.
  - split; [by apply app_not_empty|]. by rewrite rel_app.
Qed.

Lemma join_rel p : ∀ a,
  a ≠ "" → Path.isabs a = false → Forall (λ w, Str.startswith "/" w = false) p →
  Path.isabs (Path.join a p) = false.
Proof.
  unfold Path.join. induction p as [|b p IH]; intros a Hne Hrel Hp; [done|].
  inversion Hp; subst. cbn [fold_left].
  destruct (join2_rel a b) as [? ?]; [done..|]. by apply IH.
Qed.

(** [relpath] gives a relative path. *)
Lemma relpath_rel cwd path start a :
  Path.relpath cwd path start = Some a → Path.isabs a = false.
Proof.
  unfold Path.relpath. destruct (String.eqb path ""); [done|]. cbv zeta.
  set (sl := List.filter Path.nonempty (Str.split Str.slash (Path.abspath cwd start))).
  set (pl := List.filter Path.nonempty (Str.split Str.slash (Path.abspath cwd path))).
  assert (Forall (λ w, w ≠ "" ∧ Str.startswith "/" w = false)
            (repeat ".." (length sl - Path.common_len sl pl)
               ++ List.skipn (Path.common_len sl pl) pl)) as Hall.
  { apply Forall_app. split.
    - apply Forall_forall. intros w Hw%list_elem_of_In%repeat_spec. by subst.
    - apply Forall_forall. intros w Hw%list_elem_of_In.
      assert (In w pl) as Hin.
      { rewrite <- (firstn_skipn (Path.common_len sl pl) pl). apply in_or_app. by right. }
      apply filter_In in Hin as [Hin Hne]. split.
      + unfold Path.nonempty in Hne. intros ->. done.
      + apply no_slash_rel.
        pose proof (split_sep_free Str.slash (Path.abspath cwd path)) as Hs.
        rewrite Forall_forall in Hs. apply Hs. by apply list_elem_of_In. }
  destruct (_ ++ _) as [|x rest]; intros [= <-]; [done|].
  inversion Hall as [|? ? [Hx Hx'] Hrest]; subst.
  apply join_rel; [done|done|]. eapply Forall_impl; [exact Hrest|]. by intros ? [_ ?].
Qed.

(** [normpath] keeps a relative path relative, and never returns the empty
    string. *)
Lemma norm_steps_rel comps : ∀ acc,
  Forall (λ w, Str.contains_char Str.slash w = false) comps →
  Forall (λ w, w ≠ "" ∧ Str.startswith "/" w = false) acc →
  Forall (λ w, w ≠ "" ∧ Str.startswith "/" w = false)
    (fold_left (Path.norm_step 0) comps acc).
Proof.
  induction comps as [|c comps IH]; intros acc Hc Hacc; [done|].
  inversion Hc; subst. cbn [fold_left]. apply IH; [done|].
  unfold Path.norm_step.
  destruct (String.eqb_spec c ""); cbn [orb]; [done|].
  destruct (String.eqb c "."); [done|].
  destruct (_ || _).
  - constructor; [|done]. split; [done|]. by apply no_slash_rel.
  - destruct acc; [done|]. by inversion Hacc.
Qed.

Lemma concat_rel sep w ws :
  w ≠ "" → Str.startswith "/" w = false →
  String.concat sep (w :: ws) ≠ "" ∧ Str.startswith "/" (String.concat sep (w :: ws)) = false.
Proof.
  intros Hne Hrel. cbn [String.concat]. destruct ws; [done|].
  split; [by apply app_not_empty|]. by rewrite rel_app.
Qed.

Lemma normpath_rel path :
  Path.isabs path = false →
  Path.normpath path ≠ "" ∧ Path.isabs (Path.normpath path) = false.
Proof.
  intros Hrel. unfold Path.normpath.
  destruct (String.eqb path ""); [done|]. cbv zeta.
  unfold Path.initial_slashes. unfold Path.isabs in Hrel. rewrite Hrel.
  pose proof (norm_steps_rel (Str.split Str.slash path) []
                (split_sep_free _ _) (Forall_nil_2 _)) as Hall.
  apply Forall_rev in Hall. unfold Str.join.
  destruct (rev _) as [|w ws]; [done|].
  inversion Hall as [|? ? [Hw Hw'] _]; subst.
  destruct (concat_rel "/" w ws Hw Hw') as [Hne Hr].
  destruct (String.eqb_spec (String.concat "/" (w :: ws)) ""); [done|].
  done.
Qed.

Lemma lstrip_slash_rel s : Str.startswith "/" s = false → Str.lstrip_slash s = s.
Proof.
  destruct s as [|a s]; [done|]. cbn [Str.startswith Str.lstrip_slash].
  rewrite (Ascii.eqb_sym a). unfold Str.slash.
  destruct (Ascii.eqb "/" a); [|done]. done.
Qed.

(** [ZipFile.write] keeps a relative name, normalised. *)
Lemma zip_arcname_rel a :
  Path.isabs a = false → zip_arcname a = Some (Path.normpath a).
Proof.
  intros Hrel. destruct (normpath_rel a Hrel) as [Hne Hr].
  unfold zip_arcname. cbv zeta. rewrite lstrip_slash_rel by exact Hr.
  by destruct (String.eqb_spec (Path.normpath a) "").
Qed.

Lemma relpath_some cwd path start : path ≠ "" → is_Some (Path.relpath cwd path start).
Proof.
  intros Hne. unfold Path.relpath.
  destruct (String.eqb_spec path ""); [done|]. cbv zeta.
  by destruct (_ ++ _).
Qed.

(** A library descriptor whose paths are not empty and whose files exist
    can be read. *)
Lemma pylib_source_ok fnmatch E exclusions arg d :
  Str.endswith ".pylib" arg = true →
  pylibs E arg = Some d →
  Forall (λ src, src.1 ≠ "" ∧ is_Some (files E src.1)) (srcs d) →
  source_ok fnmatch E exclusions arg.
Proof.
  intros Hext Hd Hsrcs.
  assert (Forall (λ it, item_ok it ∧ item_rel it) (items fnmatch E exclusions arg)) as Hits.
  { unfold items. rewrite Hext, Hd. cbn [from_option]. unfold pylib_items.
    apply Forall_forall. intros it (src & Hsrc & Hit)%list_elem_of_omap.
    rewrite Forall_forall in Hsrcs. destruct (Hsrcs _ Hsrc) as [_ [f Hf]].
    unfold pylib_item in Hit.
    destruct (Path.relpath _ _ _) as [a|] eqn:Hrel; [|done].
    destruct (_is_python_excluded_path _ _ _); [done|].
    injection Hit as <-. apply relpath_rel in Hrel.
    split; [|exact Hrel].
    split; cbn [i_name i_data].
    - rewrite zip_arcname_rel by done. by eexists.
    - rewrite Hf. by eexists. }
  unfold source_ok, recognized. rewrite Hext. cbn [orb]. split_and!.
  - done.
  - exists d. split; [done|]. eapply Forall_impl; [exact Hsrcs|].
    intros src [Hne _]. by apply relpath_some.
  - eapply Forall_impl; [exact Hits|]. by intros ? [? _].
  - intros _. eapply Forall_impl; [exact Hits|]. by intros ? [_ ?].
Qed.


Section TrailerCodecFacts.
Import TrailerCodec.

Lemma dec_enc_nat n r : dec_nat (enc_nat n ++ r) = Some (n, r).
Proof. induction n as [|n IH]; [done|]. simpl. by rewrite IH. Qed.

Lemma length_list_ascii s : length (list_ascii_of_string s) = String.length s.
Proof. induction s as [|a s IH]; [done|]. simpl. by rewrite IH. Qed.

Lemma dec_enc_str s r : dec_str (enc_str s ++ r) = Some (s, r).
Proof.
  unfold dec_str, enc_str. rewrite <-app_assoc, dec_enc_nat.
  rewrite length_app, length_list_ascii.
  destruct (Nat.leb_spec (String.length s) (String.length s + length r)); [|lia].
  rewrite <-(length_list_ascii s), take_app_length, drop_app_length.
  by rewrite string_of_list_ascii_of_string.
Qed.

Lemma dec_enc_Z z r : dec_Z (enc_Z z ++ r) = Some (z, r).
Proof.
  unfold dec_Z, enc_Z. cbn [app]. rewrite dec_enc_nat.
  destruct (Z.ltb_spec z 0); simpl; do 2 f_equal; lia.
Qed.

Lemma dec_enc_entry e r : dec_entry (enc_entry e ++ r) = Some (e, r).
Proof.
  unfold dec_entry, enc_entry. rewrite <-!app_assoc.
  rewrite dec_enc_str, dec_enc_Z, dec_enc_str. by destruct e.
Qed.

Lemma dec_enc_entries es r : dec_entries (length es) (flat_map enc_entry es ++ r) = Some es.
Proof.
  induction es as [|e es IH]; [done|]. simpl.
  by rewrite <-app_assoc, dec_enc_entry, IH.
Qed.

Lemma list_ascii_app s t :
  list_ascii_of_string (s +:+ t) = list_ascii_of_string s ++ list_ascii_of_string t.
Proof. induction s as [|a s IH]; [done|]. rewrite str_app_cons. simpl. by rewrite IH. Qed.

(** The reader finds the archive behind any bytes put before it. *)
Lemma trailer_reader_from_end prefix arch : zip_reader (prefix +:+ zip_bytes arch) = Some arch.
Proof.
  unfold zip_reader, zip_bytes, dec.
  rewrite list_ascii_app, list_ascii_of_string_of_list_ascii, rev_app_distr, rev_involutive.
  unfold enc. rewrite <-app_assoc, dec_enc_nat. apply dec_enc_entries.
Qed.
End TrailerCodecFacts.

Lemma hex_digit_not_nl n : Ascii.eqb (hex_digit n) Str.nl = false.
Proof. do 15 (destruct n as [|n]; [done|]). done. Qed.

Lemma sum_digest_line data : Str.contains_char Str.nl (sum_digest data) = false.
Proof. unfold sum_digest. simpl. by rewrite !hex_digit_not_nl. Qed.

Example scenario_a :
  run (generate_package sum_digest sample_env ["out.zip"; "a.txt"; "b.txt"; "x"; "y"])
  = ([Open "out.zip" ZipDeflated;
      Put "out.zip" (Entry "x" 0 "alpha");
      Put "out.zip" (Entry "y" 2 "beta");
      Put "out.zip" (Entry "MANIFEST.TXT" 1002 ("06 x" +:+ LF +:+ "9c y" +:+ LF));
      Close "out.zip"],
     Ok tt).
Proof. vm_compute. reflexivity. Qed.

Example scenario_b :
  (run (generate_python_binary glob_fnmatch TrailerCodec.zip_bytes sample_env
          "out" "" "*.pyc" "main" ["a.pylib"; "b.pylib"])).2 = Ok tt
  ∧ members "out"
      (run (generate_python_binary glob_fnmatch TrailerCodec.zip_bytes sample_env
              "out" "" "*.pyc" "main" ["a.pylib"; "b.pylib"])).1
    = [("pkg/mod.py", "A = 1"); ("pkg/mod.py", "B = 2");
       ("pkg/__init__.py", ""); ("__init__.py", "")].
Proof. vm_compute. split; reflexivity. Qed.

Example scenario_c :
  (run (generate_one_jar sample_env "one.jar" "App" "boot.jar"
          ["build/app.jar"; "build/dep.jar"])).2 = Ok tt
  ∧ (members "one.jar"
       (run (generate_one_jar sample_env "one.jar" "App" "boot.jar"
               ["build/app.jar"; "build/dep.jar"])).1).*1
    = ["Boot.class"; "main/app.jar"; "lib/dep.jar"; "config.properties";
       "META-INF/MANIFEST.MF"].
Proof. vm_compute. split; reflexivity. Qed.

Example odd_arguments :
  run (generate_package sum_digest sample_env ["out.zip"; "a.txt"; "b.txt"; "x"])
  = ([], Raise AssertionError).
Proof. vm_compute. reflexivity. Qed.

Example absolute_member_loops :
  run (_update_init_py_dirs "/usr/lib/x.py" ∅ ∅) = ([], Diverge).
Proof. apply update_abs. reflexivity. Qed.

Lemma scenario_b_run :
  run (generate_python_binary glob_fnmatch TrailerCodec.zip_bytes sample_env
         "out" "" "*.pyc" "main" ["a.pylib"; "b.pylib"]) = (scenario_b_log, Ok tt).
Proof. vm_compute. reflexivity. Qed.

Lemma contributes_a :
  contributes glob_fnmatch sample_env (Str.split "," "*.pyc") "a.pylib" "pkg/mod.py" "A = 1".
Proof.
  exists (Item "pkg/mod.py" (Some "pkg/mod.py") (Some "A = 1")).
  split; [|done]. vm_compute. left.
Qed.

Lemma contributes_b :
  contributes glob_fnmatch sample_env (Str.split "," "*.pyc") "b.pylib" "pkg/mod.py" "B = 2".
Proof.
  exists (Item "pkg/mod.py" (Some "pkg/mod.py") (Some "B = 2")).
  split; [|done]. vm_compute. left.
Qed.

(** C1 fails on scenario B: the archive has the member [pkg/mod.py] twice. *)
Lemma first_wins_dedup_fails :
  ¬ first_wins_dedup glob_fnmatch TrailerCodec.zip_bytes sample_env
      "out" "" "*.pyc" "main" ["a.pylib"; "b.pylib"].
Proof.
  intros H.
  destruct (H _ scenario_b_run [] "a.pylib" [] "b.pylib" [] "pkg/mod.py" "A = 1" "B = 2"
              eq_refl contributes_a contributes_b) as [t Ht].
  vm_compute in Ht. discriminate Ht.
Qed.

Lemma python_binary_keeps_every_copy_witness :
  ∃ ta tb l1 l2 l3,
    archive_of "out" scenario_b_log
    = l1 ++ Entry "pkg/mod.py" ta "A = 1" :: l2 ++ Entry "pkg/mod.py" tb "B = 2" :: l3.
Proof.
  exact (python_binary_keeps_every_copy glob_fnmatch TrailerCodec.zip_bytes sample_env
           "out" "" "*.pyc" "main" ["a.pylib"; "b.pylib"] scenario_b_log
           [] "a.pylib" [] "b.pylib" [] "pkg/mod.py" "A = 1" "B = 2"
           scenario_b_run eq_refl contributes_a contributes_b).
Defined.

Lemma egg_run :
  run (generate_python_binary glob_fnmatch TrailerCodec.zip_bytes sample_env
         "out" "" "*.pyc" "main" ["c.egg"]) = (egg_log, Ok tt).
Proof. vm_compute. reflexivity. Qed.

(** C2 fails on an egg: the directory [egg] has the member [egg/x.py] and no
    marker. *)
Lemma marker_law_fails :
  ¬ marker_law glob_fnmatch TrailerCodec.zip_bytes sample_env
      "out" "" "*.pyc" "main" ["c.egg"].
Proof.
  intros H.
  destruct (H _ egg_run (Entry "egg/x.py" 1000 "X")) as (m & Hm & Hname).
  - vm_compute. left.
  - vm_compute. discriminate.
  - vm_compute in Hm, Hname.
    apply elem_of_cons in Hm as [->|Hm]; [discriminate Hname|].
    apply elem_of_cons in Hm as [->|Hm]; [discriminate Hname|].
    by apply elem_of_nil in Hm.
Qed.

Lemma mixed_run :
  run (generate_python_binary glob_fnmatch TrailerCodec.zip_bytes sample_env
         "out" "" "*.pyc" "main" ["a.pylib"; "c.egg"; "d.whl"]) = (mixed_log, Ok tt).
Proof. vm_compute. reflexivity. Qed.

Example mixed_members :
  members "out" mixed_log
  = [("pkg/mod.py", "A = 1"); ("egg/x.py", "X"); ("w/sub/y.py", "Y"); ("w/__init__.py", "W");
     ("pkg/__init__.py", ""); ("w/sub/__init__.py", ""); ("__init__.py", "")].
Proof. vm_compute. reflexivity. Qed.

Lemma python_binary_markers_witness :
  let excl := Str.split "," "*.pyc" in
  let args := ["a.pylib"; "c.egg"; "d.whl"] in
  (∀ it d, it ∈ tracked_items glob_fnmatch sample_env excl args →
     ancestor_dir d (i_arcname it) →
     (∃ it' e, it' ∈ tracked_items glob_fnmatch sample_env excl args
               ∧ Path.basename (i_arcname it') = "__init__.py"
               ∧ Path.dirname (i_arcname it') = d
               ∧ e ∈ archive_of "out" mixed_log ∧ wrote e it')
     ∨ (∃ m, m ∈ archive_of "out" mixed_log ∧ marker_of d m))
  ∧ (∃ t, last (archive_of "out" mixed_log) = Some (Entry "__init__.py" t "")).
Proof.
  exact (python_binary_markers glob_fnmatch TrailerCodec.zip_bytes sample_env
           "out" "" "*.pyc" "main" ["a.pylib"; "c.egg"; "d.whl"] mixed_log mixed_run).
Defined.

Lemma python_binary_books_witness :
  let excl := Str.split "," "*.pyc" in
  let args := ["a.pylib"; "c.egg"; "d.whl"] in
  (∃ es ms root (dirs dwi : gset string),
     archive_of "out" mixed_log = es ++ ms ++ [root]
     ∧ Forall2 wrote es (all_items glob_fnmatch sample_env excl args)
     ∧ (∀ d, d ∈ dirs ↔ ∃ it, it ∈ tracked_items glob_fnmatch sample_env excl args
                               ∧ ancestor_dir d (i_arcname it))
     ∧ (∀ d, d ∈ dwi ↔ ∃ it, it ∈ tracked_items glob_fnmatch sample_env excl args
                              ∧ Path.basename (i_arcname it) = "__init__.py"
                              ∧ Path.dirname (i_arcname it) = d)
     ∧ (∀ d, d ∈ dirs → d ∉ dwi → ∃ m, m ∈ ms ∧ marker_of d m)
     ∧ (∀ m, m ∈ ms → ∃ d, d ∈ dirs ∧ (d ∉ dwi) ∧ marker_of d m))
  ∧ (∀ arg, Str.endswith ".pylib" arg = false → Str.endswith ".egg" arg = true →
       tracked arg = false
       ∧ (∀ dirs dwi l0 l1 st,
            pybin_add glob_fnmatch sample_env "out" excl (dirs, dwi) arg l0 = (l1, Ok st) →
            st = (dirs, dwi))).
Proof.
  exact (python_binary_books glob_fnmatch TrailerCodec.zip_bytes sample_env
           "out" "" "*.pyc" "main" ["a.pylib"; "c.egg"; "d.whl"] mixed_log mixed_run).
Defined.

Lemma source_ok_a :
  Forall (source_ok glob_fnmatch sample_env (Str.split "," "*.pyc")) ["a.pylib"].
Proof.
  constructor; [|constructor]. split_and!.
  - reflexivity.
  - eexists. split; [reflexivity|]. repeat constructor. by eexists.
  - repeat constructor; by eexists.
  - intros _. repeat constructor.
Qed.


Example unknown_format_run :
  run (generate_python_binary glob_fnmatch TrailerCodec.zip_bytes sample_env
         "out" "" "*.pyc" "main" ["a.pylib"; "notes.txt"; "d.whl"])
  = ([Open "out" ZipDeflated; Put "out" (Entry "pkg/mod.py" 10 "A = 1")],
     Raise AssertionError).
Proof. vm_compute. reflexivity. Qed.

Lemma python_binary_prologue_witness :
  ∃ l0 arch mode,
    scenario_b_log
    = l0 ++ [Close "out";
             WriteFile "out" (bootstrap "main" +:+ TrailerCodec.zip_bytes arch);
             Chmod "out" mode]
    ∧ arch = archive_of "out" l0
    ∧ N.land mode S_IXUGO = S_IXUGO
    ∧ TrailerCodec.zip_reader (bootstrap "main" +:+ TrailerCodec.zip_bytes arch) = Some arch
    ∧ text_lines (bootstrap "main") = ["#!/bin/sh"; ""; exec_line "main"]
    ∧ Str.endswith LF (bootstrap "main") = true.
Proof.
  exact (python_binary_prologue glob_fnmatch TrailerCodec.zip_bytes TrailerCodec.zip_reader
           trailer_reader_from_end sample_env "out" "" "*.pyc" "main"
           ["a.pylib"; "b.pylib"] scenario_b_log eq_refl scenario_b_run).
Defined.

(** ** The one-jar of scenario C *)

Lemma sample_clock_ok : clock_ok sample_env.
Proof. intros n. unfold zip_time_ok. cbn [clock sample_env]. lia. Qed.

Lemma sample_input path s f :
  files sample_env s = Some f → zip_time_ok (f_mtime f) →
  Path.abspath "/w" s ≠ Path.abspath "/w" path →
  input_file sample_env path s.
Proof. intros Hf Ht Hne. by exists f. Qed.

Lemma onejar_first_writer_wins_witness :
  ∃ l,
    run (generate_one_jar sample_env "one.jar" "App" "boot.jar"
           ["build/app.jar"; "build/dep.jar"]) = (l, Ok tt)
    ∧ (∀ x, e_data <$> named x "one.jar" l
            = onejar_copies sample_env "App"
                [Entry "META-INF/MANIFEST.MF" 8 "boot"; Entry "Boot.class" 8 "cafe"]
                "build/app.jar" ["build/dep.jar"] x)
    ∧ (∀ x zmain,
         is_resource x
         → ¬ boot_claims x [Entry "META-INF/MANIFEST.MF" 8 "boot"; Entry "Boot.class" 8 "cafe"]
         → nested_name "main" "build/app.jar" ≠ Some x
         → (∀ j, j ∈ ["build/dep.jar"] → nested_name "lib" j ≠ Some x)
         → zips sample_env "build/app.jar" = Some zmain → x ∈ namelist zmain
         → ∃ t d, zip_lookup zmain x = Some d ∧ named x "one.jar" l = [Entry x t d]).
Proof.
  apply (onejar_first_writer_wins sample_env "one.jar" "App" "boot.jar"
           "build/app.jar" ["build/dep.jar"]
           [Entry "META-INF/MANIFEST.MF" 8 "boot"; Entry "Boot.class" 8 "cafe"]).
  - reflexivity.
  - intros H. vm_compute in H. discriminate H.
  - intros j Hj.
    apply elem_of_cons in Hj as [->|Hj].
    { split; [|by eexists].
      apply (sample_input _ _ (File 30 "app-bytes")); [reflexivity| |].
      - unfold zip_time_ok. simpl. lia.
      - intros H. vm_compute in H. discriminate H. }
    apply elem_of_cons in Hj as [->|Hj]; [|by apply elem_of_nil in Hj].
    split; [|by eexists].
    apply (sample_input _ _ (File 40 "dep-bytes")); [reflexivity| |].
    + unfold zip_time_ok. simpl. lia.
    + intros H. vm_compute in H. discriminate H.
  - apply sample_clock_ok.
Defined.

(** Scenario C: the one [config.properties] is the copy of the main jar. *)
Example onejar_scenario_c :
  named "config.properties" "one.jar"
    (run (generate_one_jar sample_env "one.jar" "App" "boot.jar"
            ["build/app.jar"; "build/dep.jar"])).1
  = [Entry "config.properties" 1004 "main=1"].
Proof. vm_compute. reflexivity. Qed.

(** C3 fails on two dependencies with the same base name: both are
    nested under [lib/dep.jar], and no later duplicate is dropped. *)
Lemma first_writer_wins_fails :
  ¬ first_writer_wins clash_env "one.jar" "App" "boot.jar" "build/app.jar"
      ["x/dep.jar"; "y/dep.jar"].
Proof.
  intros H. destruct (H _ eq_refl) as [Hnodup _].
  assert (bool_decide
            (NoDup (e_name <$> archive_of "one.jar"
                      (run (generate_one_jar clash_env "one.jar" "App" "boot.jar"
                              ["build/app.jar"; "x/dep.jar"; "y/dep.jar"])).1))
          = false) as Hdup by (vm_compute; reflexivity).
  by apply bool_decide_eq_false in Hdup.
Qed.

(** In the same one-jar the one [config.properties] is the copy of the
    loader, though the main jar and a dependency have the name. *)
Example onejar_loader_copy :
  (members "one.jar"
     (run (generate_one_jar clash_env "one.jar" "App" "boot.jar"
             ["build/app.jar"; "x/dep.jar"; "y/dep.jar"])).1)
  = [("Boot.class", "cafe"); ("config.properties", "loader=0");
     ("main/app.jar", "app-bytes"); ("lib/dep.jar", "dep-x"); ("lib/dep.jar", "dep-y");
     ("META-INF/MANIFEST.MF", onejar_manifest "App")].
Proof. vm_compute. reflexivity. Qed.

(** ** The manifest of a package *)

(** C4 fails on a tar package of one file: its manifest has two lines. *)
Lemma manifest_line_count_fails :
  ¬ manifest_line_count sum_digest sample_env "out.tar" ["a.txt"] ["x"].
Proof.
  intros H. destruct (H _ eq_refl) as (es & m & Harch & Hlines).
  apply (f_equal last) in Harch. rewrite last_snoc in Harch.
  vm_compute in Harch. injection Harch as <-.
  vm_compute in Hlines. discriminate Hlines.
Qed.

Lemma package_manifest_lines_witness :
  (Forall (λ d, is_Some (zip_arcname d)) ["x"; "y"] →
   ∃ l es m,
     run (generate_zip_package sum_digest sample_env "out.zip" ["a.txt"; "b.txt"] ["x"; "y"])
     = (l, Ok tt)
     ∧ archive_of "out.zip" l = es ++ [m]
     ∧ manifest_records sum_digest sample_env zip_arcname
         ["a.txt"; "b.txt"] ["x"; "y"] es m [])
  ∧ (∀ suffix mode, (suffix, mode) ∈ _TAR_WRITE_MODES →
     ∃ l es m,
       run (generate_tar_package sum_digest sample_env "out.zip" ["a.txt"; "b.txt"]
              ["x"; "y"] suffix) = (l, Ok tt)
       ∧ archive_of "out.zip" l = es ++ [m]
       ∧ manifest_records sum_digest sample_env (λ d, Some (Str.lstrip_slash d))
           ["a.txt"; "b.txt"] ["x"; "y"] es m [""]).
Proof.
  apply (package_manifest_lines sum_digest sample_env "out.zip"
           ["a.txt"; "b.txt"] ["x"; "y"]).
  - apply sum_digest_line.
  - repeat constructor.
  - discriminate.
  - reflexivity.
  - apply Forall_cons. split.
    { apply (sample_input _ _ (File 1 "alpha")); [reflexivity| |].
      - unfold zip_time_ok. simpl. lia.
      - intros H. vm_compute in H. discriminate H. }
    apply Forall_cons. split; [|apply Forall_nil_2].
    apply (sample_input _ _ (File 2 "beta")); [reflexivity| |].
    + unfold zip_time_ok. simpl. lia.
    + intros H. vm_compute in H. discriminate H.
  - apply sample_clock_ok.
Defined.

Example manifest_of_zip :
  ∃ es m,
    archive_of "out.zip"
      (run (generate_zip_package sum_digest sample_env "out.zip"
              ["a.txt"; "b.txt"] ["x"; "y"])).1 = es ++ [m]
    ∧ text_lines (e_data m) = ["06 x"; "9c y"].
Proof. eexists [_; _], _. split; vm_compute; reflexivity. Qed.

(** ** The clock *)


(** ** More on command lines *)

(** X1. A command line can be parsed in pieces: the positional arguments
    of [xs ++ ys] are those of [xs] followed by those of [ys], and its
    options are those of [ys], then those of [xs] for the names [ys] does
    not give. *)
Lemma parse_command_line_app xs ys :
  parse_command_line (xs ++ ys)
  = ((parse_command_line ys).1 ∪ (parse_command_line xs).1,
     (parse_command_line xs).2 ++ (parse_command_line ys).2).
Proof.
  rewrite !parse_fold, fold_left_app.
  rewrite (surjective_pairing (fold_left parse_step ys (fold_left parse_step xs (∅, [])))).
  rewrite fold_step_options, fold_step_args.
  rewrite (fold_step_options ys (∅, [])), (fold_step_args ys (∅, [])).
  cbn [fst snd app]. by rewrite (right_id_L ∅ (∪)).
Qed.

Lemma classify_option_arg kv :
  Str.contains_char "=" kv.1 = false → classify (option_arg kv) = Some kv.
Proof.
  intros Hn. destruct kv as [n v]. apply classify_form. by split.
Qed.

Lemma classify_plain a :
  Str.startswith "--" a = false ∨ Str.contains_char "=" a = false → classify a = None.
Proof.
  intros [Hp|He]; [by apply classify_none_prefix|].
  destruct (Str.startswith "--" a) eqn:Hp; [|by apply classify_none_prefix].
  apply startswith_dashes in Hp as [rest ->].
  apply (classify_no_eq rest).
  cbn [Str.contains_char] in He.
  by apply orb_false_elim in He as [_ [_ He]%orb_false_elim].
Qed.

(** Options, then arguments that are none: the parse holds the options,
    the later ones first, and the arguments. *)
Lemma parse_options_args kvs args :
  Forall (λ kv, Str.contains_char "=" kv.1 = false) kvs →
  Forall (λ a, Str.startswith "--" a = false ∨ Str.contains_char "=" a = false) args →
  parse_command_line ((option_arg <$> kvs) ++ args) = (list_to_map (reverse kvs), args).
Proof.
  intros Hk Ha. rewrite parse_fold.
  rewrite (surjective_pairing (fold_left parse_step _ _)).
  rewrite fold_step_options, fold_step_args. cbn [fst snd app].
  rewrite (right_id_L ∅ (∪)).
  assert (omap classify ((option_arg <$> kvs) ++ args) = kvs) as ->.
  { rewrite omap_app.
    assert (omap classify args = []) as ->.
    { induction Ha as [|a args H _ IH]; [done|]. cbn [omap list_omap].
      by rewrite (classify_plain a H). }
    rewrite app_nil_r. induction Hk as [|kv kvs H _ IH]; [done|].
    cbn [fmap list_fmap omap list_omap]. rewrite (classify_option_arg kv H).
    by f_equal. }
  f_equal. rewrite List.filter_app.
  assert (List.filter positional (option_arg <$> kvs) = []) as ->.
  { induction Hk as [|kv kvs H _ IH]; [done|].
    cbn [fmap list_fmap List.filter].
    unfold positional at 1. by rewrite (classify_option_arg kv H). }
  cbn [app]. induction Ha as [|a args H _ IH]; [done|]. cbn [List.filter].
  unfold positional at 1. rewrite (classify_plain a H). by f_equal.
Qed.

(** X2. Parsing gives back what was written: options [--name=value] with
    distinct names that hold no [=], followed by arguments that are not of
    that form, parse to these options and these arguments. *)
Lemma parse_command_line_round_trip kvs args :
  Forall (λ kv, Str.contains_char "=" kv.1 = false) kvs →
  NoDup kvs.*1 →
  Forall (λ a, Str.startswith "--" a = false ∨ Str.contains_char "=" a = false) args →
  parse_command_line ((option_arg <$> kvs) ++ args) = (list_to_map kvs, args).
Proof.
  intros Hk Hnd Ha. rewrite parse_options_args by done. f_equal.
  apply list_to_map_proper; [|apply reverse_Permutation].
  rewrite fmap_reverse. by rewrite reverse_Permutation.
Qed.

(** A command line with two options and two arguments. *)
Lemma parse_command_line_round_trip_witness :
  parse_command_line ((option_arg <$> [("jar", "a.jar"); ("main", "x=y")]) ++ ["--verbose"; "in"])
  = (list_to_map [("jar", "a.jar"); ("main", "x=y")], ["--verbose"; "in"]).
Proof.
  apply parse_command_line_round_trip.
  - repeat constructor.
  - cbn [fmap list_fmap fst]. apply NoDup_cons. split; [set_solver|].
    apply NoDup_cons. split; [set_solver|]. apply NoDup_nil_2.
  - apply Forall_cons. split; [by right|].
    apply Forall_cons. split; [by left|]. apply Forall_nil_2.
Defined.

(** ** Effects, whatever the result *)

Section Emits.
Variable Q : event → Prop.

Lemma emits_ret {A} (a : A) : emits Q (mret a).
Proof. intros l. exists []. by rewrite app_nil_r. Qed.

Lemma emits_raise {A} e : emits Q (raise e : M A).
Proof. intros l. exists []. by rewrite app_nil_r. Qed.

Lemma emits_diverge {A} : emits Q (diverge : M A).
Proof. intros l. exists []. by rewrite app_nil_r. Qed.

Lemma emits_orelse {A} (o : option A) e : emits Q (orelse o e).
Proof. destruct o; [apply emits_ret|apply emits_raise]. Qed.

Lemma emits_assert c : emits Q (assert c).
Proof. destruct c; [apply emits_ret|apply emits_raise]. Qed.

Lemma emits_get_log : emits Q get_log.
Proof. intros l. exists []. by rewrite app_nil_r. Qed.

Lemma emits_emit ev : Q ev → emits Q (emit ev).
Proof. intros Hev l. exists [ev]. split; [done|]. by constructor. Qed.

Lemma emits_bind {A B} (m : M A) (f : A → M B) :
emits Q m → (∀ a, emits Q (f a)) → emits Q (m ≫= f).
Proof.
intros Hm Hf l. rewrite bind_eq. destruct (Hm l) as (l1 & Hl1 & HQ1).
destruct (m l) as [l' [a| |]]; simpl in Hl1; subst l'; [|by exists l1..].
destruct (Hf a (l ++ l1)) as (l2 & Hl2 & HQ2).
exists (l1 ++ l2). rewrite Hl2, app_assoc. split; [done|]. by apply Forall_app.
Qed.

Lemma emits_foldM {A S} (body : S → A → M S) s xs :
(∀ s x, emits Q (body s x)) → emits Q (foldM body s xs).
Proof.
intros Hbody. revert s. induction xs as [|x xs IH]; intros s.
- apply emits_ret.
- rewrite foldM_cons. apply emits_bind; [apply Hbody|]. intros s'. apply IH.
Qed.

Lemma emits_forM {A} (xs : list A) (body : A → M unit) :
(∀ x, emits Q (body x)) → emits Q (forM xs body).
Proof. intros Hbody. apply emits_foldM. intros _ x. apply Hbody. Qed.

Lemma emits_now E : emits Q (now E).
Proof. unfold now. apply emits_bind; [apply emits_get_log|]. intros l. apply emits_ret. Qed.

Lemma emits_stat E name : emits Q (stat E name).
Proof. apply emits_orelse. Qed.

Lemma emits_read_file E name : emits Q (read_file E name).
Proof.
unfold read_file. apply emits_bind; [apply emits_orelse|]. intros f. apply emits_ret.
Qed.

Lemma emits_md5sum_file md5sum E s : emits Q (md5sum_file md5sum E s).
Proof.
unfold md5sum_file. apply emits_bind; [apply emits_read_file|]. intros d.
apply emits_ret.
Qed.

Lemma emits_zip_writestr E path name data :
(∀ t, Q (Put path (Entry name t data))) → emits Q (zip_writestr E path name data).
Proof.
intros HQ. unfold zip_writestr. apply emits_bind; [apply emits_now|].
intros t. by apply emits_emit.
Qed.

Lemma emits_bind_orelse {A B} (o : option A) e (f : A → M B) :
(∀ a, o = Some a → emits Q (f a)) → emits Q (orelse o e ≫= f).
Proof.
intros Hf. destruct o as [a|]; cbn [orelse].
- intros l. rewrite bind_eq, ret_eq. by apply Hf.
- intros l. exists []. by rewrite app_nil_r.
Qed.

Lemma emits_zip_write E path filename arcname :
(∀ a f, zip_arcname arcname = Some a → files E filename = Some f →
        Q (Put path (Entry a (zip_stamp (f_mtime f)) (f_data f)))) →
emits Q (zip_write E path filename arcname).
Proof.
intros HQ. unfold zip_write, stat.
apply emits_bind_orelse. intros f Hf.
apply emits_bind_orelse. intros a Ha.
apply emits_emit. by apply HQ.
Qed.

Lemma emits_tar_add E path name arcname :
(∀ f, files E name = Some f →
      Q (Put path (Entry (Str.lstrip_slash arcname) (f_mtime f) (f_data f)))) →
emits Q (tar_add E path name arcname).
Proof.
intros HQ. unfold tar_add, stat, tar_put.
apply emits_bind_orelse. intros f Hf. apply emits_emit. by apply HQ.
Qed.

Lemma emits_write_file {B} E path data (f : file → M B) :
Q (WriteFile path data) →
(∀ t, emits Q (f (File t data))) →
emits Q (write_file E path data ≫= f).
Proof.
intros HQ Hf.
intros l.
assert ((write_file E path data ≫= f) l
        = f (File (clock E (length l)) data) (l ++ [WriteFile path data])) as ->.
{ reflexivity. }
destruct (Hf (clock E (length l)) (l ++ [WriteFile path data])) as (l2 & Hl2 & HQ2).
exists (WriteFile path data :: l2). rewrite Hl2, <-app_assoc. split; [done|].
by constructor.
Qed.

Lemma emits_archive_package_sources md5sum E package sources destinations :
(∀ s d, emits Q (package s d)) →
emits Q (archive_package_sources md5sum E package sources destinations).
Proof.
intros Hp. unfold archive_package_sources. apply emits_foldM.
intros manifest [i s]. apply emits_bind; [apply emits_orelse|]. intros d.
apply emits_bind; [apply Hp|]. intros _.
apply emits_bind; [apply emits_md5sum_file|]. intros digest. apply emits_ret.
Qed.
End Emits.

(** ** Packages: names, containers and failures *)

Lemma lstrip_slash_isabs s : Path.isabs (Str.lstrip_slash s) = false.
Proof.
  induction s as [|a s IH]; [done|]. cbn [Str.lstrip_slash].
  destruct (Ascii.eqb a Str.slash) eqn:Ha; [done|].
  unfold Path.isabs. cbn [Str.startswith]. rewrite Ascii.eqb_sym.
  unfold Str.slash in Ha. by rewrite Ha.
Qed.

Lemma zip_arcname_isabs d a : zip_arcname d = Some a → Path.isabs a = false.
Proof.
  unfold zip_arcname. cbv zeta. destruct (String.eqb _ ""); [done|].
  intros [= <-]. apply lstrip_slash_isabs.
Qed.

Section PackageEffects.
Variable md5sum : string → string.
Variable E : env.

Lemma relative_zip_package path sources destinations :
emits relative_member (generate_zip_package md5sum E path sources destinations).
Proof.
unfold generate_zip_package.
apply emits_bind; [by apply emits_emit|]. intros _.
apply emits_bind.
{ apply emits_archive_package_sources. intros s d. apply emits_zip_write.
  intros a f Ha _. by apply zip_arcname_isabs in Ha. }
intros manifest. apply emits_bind; [by apply emits_zip_writestr|]. intros _.
by apply emits_emit.
Qed.

Lemma relative_tar_package path sources destinations suffix :
emits relative_member (generate_tar_package md5sum E path sources destinations suffix).
Proof.
unfold generate_tar_package.
apply emits_bind; [apply emits_orelse|]. intros mode.
apply emits_bind; [by apply emits_emit|]. intros _.
apply emits_bind.
{ apply emits_archive_package_sources. intros s d. apply emits_tar_add.
  intros f _. apply lstrip_slash_isabs. }
intros manifest. cbv zeta. apply emits_write_file; [done|]. intros t.
apply emits_bind; [by apply emits_emit|]. intros _.
by apply emits_emit.
Qed.

Lemma relative_package args : emits relative_member (generate_package md5sum E args).
Proof.
unfold generate_package.
apply emits_bind; [apply emits_orelse|]. intros path.
apply emits_bind; [apply emits_assert|]. intros _. cbv zeta.
destruct (Str.endswith ".zip" path); [apply relative_zip_package|].
destruct (List.find _ _); [apply relative_tar_package|apply emits_raise].
Qed.
End PackageEffects.

(** X3. No member of a package has an absolute name, whatever the
    destinations given and however the run ends: a zip member gets its
    destination normalised and without leading separators, a tar member its
    destination without leading separators. *)
Lemma generate_package_relative_members md5sum E args p :
  Forall (λ e, Path.isabs (e_name e) = false)
    (archive_of p (run (generate_package md5sum E args)).1).
Proof.
  destruct (relative_package md5sum E args []) as (l2 & Hl & HQ).
  unfold run. rewrite Hl. cbn [app]. clear Hl.
  induction HQ as [|ev l2 Hev _ IH]; [done|].
  unfold archive_of. cbn [omap list_omap].
  destruct ev as [| p' e | | |]; try exact IH.
  destruct (decide (p' = p)); [|exact IH]. by constructor.
Qed.

Ltac solve_emits :=
  repeat (intros;
          first [ apply emits_ret | apply emits_raise | apply emits_diverge
                | apply emits_orelse | apply emits_assert | apply emits_get_log
                | apply emits_now | apply emits_md5sum_file | apply emits_read_file
                | apply emits_stat | apply emits_emit | apply emits_zip_writestr
                | apply emits_zip_write | apply emits_tar_add
                | apply emits_archive_package_sources | apply emits_write_file
                | apply emits_foldM | apply emits_forM | apply emits_bind
                | exact I ]).

Lemma find_suffix path suffix :
  suffix ∈ (fst <$> _TAR_WRITE_MODES) → Str.endswith suffix path = true →
  List.find (λ ext, Str.endswith ext path) (fst <$> _TAR_WRITE_MODES) = Some suffix.
Proof.
  intros Hin Hend.
  destruct (List.find _ _) as [s|] eqn:Hfind.
  - apply find_some in Hfind as [Hs%list_elem_of_In Hs'].
    f_equal. by apply (tar_suffix_unique path).
  - apply list_elem_of_In in Hin.
    pose proof (find_none _ _ Hfind _ Hin) as Hf. cbv beta in Hf. congruence.
Qed.

Lemma find_mode suffix mode :
  (suffix, mode) ∈ _TAR_WRITE_MODES →
  List.find (λ kv, String.eqb kv.1 suffix) _TAR_WRITE_MODES = Some (suffix, mode).
Proof.
  unfold _TAR_WRITE_MODES. intros Hin.
  repeat (apply elem_of_cons in Hin as [[= -> ->] | Hin]; [reflexivity|]).
  by apply elem_of_nil in Hin.
Qed.

(** C7. A call of [generate_package] whose arguments after the output path
    are odd in number raises [AssertionError] with nothing done: no archive
    is opened and no member written. When they are even in number, the first
    half are the sources and the second half the destinations. Then, when
    no source is the archive itself, a package that was composed has as
    member number [i] the file [sources[i]], with its data and its time,
    under the name of [destinations[i]], and the manifest after these. And
    the package is composed when the path ends in [.zip] or in a key of
    [_TAR_WRITE_MODES], every source is a regular file other than the
    archive with a time between 1980 and 2107, every destination gives a
    member name, and the clock is within that range. *)
Theorem generate_package_halves md5sum E path manifest :
  (length manifest mod 2 = 1 →
     run (generate_package md5sum E (path :: manifest)) = ([], Raise AssertionError))
  ∧ (length manifest mod 2 = 0 →
     let middle := length manifest / 2 in
     let sources := take middle manifest in
     let destinations := drop middle manifest in
     manifest = sources ++ destinations
     ∧ length sources = middle ∧ length destinations = middle
     ∧ (Forall (not_output E path) sources →
        ∀ l, run (generate_package md5sum E (path :: manifest)) = (l, Ok tt) →
          ∃ es m, archive_of path l = es ++ [m] ∧ length es = middle
            ∧ e_name m = _PACKAGE_MANIFEST
            ∧ ∀ i s d, sources !! i = Some s → destinations !! i = Some d →
                ∃ f a, files E s = Some f ∧ member_name path d = Some a
                       ∧ es !! i
                         = Some (Entry a (member_time path (f_mtime f)) (f_data f)))
     ∧ (Str.endswith ".zip" path = true
        ∨ (∃ suffix, suffix ∈ (fst <$> _TAR_WRITE_MODES)
                     ∧ Str.endswith suffix path = true) →
        Forall (input_file E path) sources →
        Forall (λ d, is_Some (member_name path d)) destinations →
        clock_ok E →
        ∃ l, run (generate_package md5sum E (path :: manifest)) = (l, Ok tt))).
Proof.
  split.
  - intros Hodd. rewrite generate_package_eq. unfold run. rewrite bind_eq.
    by rewrite Hodd.
  - intros Heven middle sources destinations.
    destruct (halves manifest Heven) as [Hs Hd].
    split_and!; [symmetry; apply take_drop|done|done| |].
    + intros _ l. rewrite generate_package_eq. unfold run. rewrite bind_eq, Heven.
      cbv beta iota zeta delta [assert Nat.eqb mret M_ret].
      fold middle. change (List.firstn middle manifest) with sources.
      change (List.skipn middle manifest) with destinations.
      unfold member_name, member_time. destruct (Str.endswith ".zip" path).
      * intros (es & lines & -> & HF & Hes & Hlines & Hlen)%generate_zip_package_inv.
        eexists es, _. split_and!.
        -- rewrite !archive_of_app, archive_of_puts. unfold archive_of. simpl.
           rewrite decide_True by done. done.
        -- by rewrite Hes.
        -- done.
        -- intros i s d Hsi Hdi.
           destruct (packaged_lookup md5sum E _ _ _ _ _ _ _ _ _ HF Hsi Hdi)
             as (e & line & He & _ & f & a & Hf & Ha & -> & _).
           eauto.
      * destruct (List.find _ (fst <$> _TAR_WRITE_MODES)) as [suffix|]; [|done].
        intros (mode & es & lines & _ & -> & HF & Hes & Hlines & Hlen)%generate_tar_package_inv.
        eexists es, _. split_and!.
        -- rewrite !archive_of_app, archive_of_puts. unfold archive_of. simpl.
           rewrite decide_True by done. done.
        -- by rewrite Hes.
        -- done.
        -- intros i s d Hsi Hdi.
           destruct (packaged_lookup md5sum E _ _ _ _ _ _ _ _ _ HF Hsi Hdi)
             as (e & line & He & _ & f & a & Hf & [= <-] & -> & _).
           eauto.
    + intros Hc Hfiles%input_files_regular Hnames _.
      rewrite generate_package_eq. unfold run. rewrite bind_eq, Heven.
      cbv beta iota zeta delta [assert Nat.eqb mret M_ret].
      fold middle. change (List.firstn middle manifest) with sources.
      change (List.skipn middle manifest) with destinations.
      unfold member_name in Hnames. destruct (Str.endswith ".zip" path) eqn:Hzip.
      * apply generate_zip_package_ok. apply packable_all; [exact (eq_trans Hs (eq_sym Hd))|done..].
      * destruct Hc as [?|(suffix & Hin & Hend)]; [done|].
        rewrite (find_suffix path suffix Hin Hend).
        apply list_elem_of_fmap_1 in Hin as ([suffix' mode] & -> & Hin). cbn [fst] in *.
        apply (generate_tar_package_ok md5sum E path sources destinations suffix' mode Hin).
        apply packable_all; [exact (eq_trans Hs (eq_sym Hd))|done..].
Qed.

(** Scenario A: two files in a zip. *)
Lemma generate_package_halves_witness :
  ∃ l es m,
    run (generate_package sum_digest sample_env ["out.zip"; "a.txt"; "b.txt"; "x"; "y"])
    = (l, Ok tt)
    ∧ archive_of "out.zip" l = es ++ [m] ∧ length es = 2
    ∧ e_name m = _PACKAGE_MANIFEST
    ∧ ∀ i s d, ["a.txt"; "b.txt"] !! i = Some s → ["x"; "y"] !! i = Some d →
        ∃ f a, files sample_env s = Some f ∧ member_name "out.zip" d = Some a
               ∧ es !! i = Some (Entry a (member_time "out.zip" (f_mtime f)) (f_data f)).
Proof.
  destruct (generate_package_halves sum_digest sample_env "out.zip"
              ["a.txt"; "b.txt"; "x"; "y"]) as [_ Heven].
  destruct (Heven eq_refl) as (_ & _ & _ & Hmembers & Hruns).
  destruct Hruns as [l Hrun].
  - by left.
  - apply Forall_cons. split.
    { apply (sample_input _ _ (File 1 "alpha")); [reflexivity| |].
      - unfold zip_time_ok. simpl. lia.
      - intros H. vm_compute in H. discriminate H. }
    apply Forall_cons. split; [|apply Forall_nil_2].
    apply (sample_input _ _ (File 2 "beta")); [reflexivity| |].
    + unfold zip_time_ok. simpl. lia.
    + intros H. vm_compute in H. discriminate H.
  - apply Forall_cons. split; [by eexists|].
    apply Forall_cons. split; [by eexists|]. apply Forall_nil_2.
  - apply sample_clock_ok.
  - destruct (Hmembers) with (l := l) as (es & m & Harch & Hlen & Hname & Hall).
    + apply Forall_cons. split; [intros H; vm_compute in H; discriminate H|].
      apply Forall_cons. split; [intros H; vm_compute in H; discriminate H|].
      apply Forall_nil_2.
    + exact Hrun.
    + by exists l, es, m.
Defined.

Section PackageContainer.
Variable md5sum : string → string.
Variable E : env.

Lemma zip_package_opens path sources destinations l :
∃ l2, (generate_zip_package md5sum E path sources destinations l).1
      = l ++ Open path ZipDeflated :: l2.
Proof.
unfold generate_zip_package. rewrite bind_eq.
change (zip_open path ZipDeflated l) with (l ++ [Open path ZipDeflated], Ok tt).
cbv iota beta.
match goal with |- ∃ l2, (?m _).1 = _ => assert (emits (λ _, True) m) as Hm end.
{ solve_emits. }
destruct (Hm (l ++ [Open path ZipDeflated])) as (l2 & -> & _).
exists l2. by rewrite <-app_assoc.
Qed.

Lemma tar_package_opens path sources destinations suffix mode l :
(suffix, mode) ∈ _TAR_WRITE_MODES →
∃ l2, (generate_tar_package md5sum E path sources destinations suffix l).1
      = l ++ Open path (Tar mode) :: l2.
Proof.
intros Hin. unfold generate_tar_package. rewrite bind_eq, (find_mode _ _ Hin).
cbn [fmap option_fmap option_map orelse snd]. rewrite ret_eq, bind_eq.
change (tar_open path mode l) with (l ++ [Open path (Tar mode)], Ok tt).
cbv iota beta.
match goal with |- ∃ l2, (?m _).1 = _ => assert (emits (λ _, True) m) as Hm end.
{ solve_emits. }
destruct (Hm (l ++ [Open path (Tar mode)])) as (l2 & -> & _).
exists l2. by rewrite <-app_assoc.
Qed.
End PackageContainer.

(** X4. The suffix of the output path alone chooses the container of a
    package: [.zip] gives a deflated zip; otherwise the key of
    [_TAR_WRITE_MODES] that ends the path gives a tar archive in the mode of
    that key (the keys hold no dot: [tgz] also ends [pkgtgz]); a path no
    key ends raises [UnboundLocalError] before anything is opened. *)
Lemma generate_package_container md5sum E path manifest :
  length manifest mod 2 = 0 →
  (Str.endswith ".zip" path = true →
     ∃ l, (run (generate_package md5sum E (path :: manifest))).1
          = Open path ZipDeflated :: l)
  ∧ (∀ suffix mode,
       Str.endswith ".zip" path = false → (suffix, mode) ∈ _TAR_WRITE_MODES →
       Str.endswith suffix path = true →
       ∃ l, (run (generate_package md5sum E (path :: manifest))).1
            = Open path (Tar mode) :: l)
  ∧ (Str.endswith ".zip" path = false →
     (∀ suffix, suffix ∈ (fst <$> _TAR_WRITE_MODES) → Str.endswith suffix path = false) →
     run (generate_package md5sum E (path :: manifest)) = ([], Raise UnboundLocalError)).
Proof.
  intros Heven. unfold run. rewrite generate_package_eq, bind_eq.
  apply Nat.eqb_eq in Heven. rewrite Heven. cbn [assert]. rewrite ret_eq. cbv zeta.
  split_and!.
  - intros ->. apply (zip_package_opens md5sum E path _ _ []).
  - intros suffix mode -> Hin Hend.
    rewrite (find_suffix path suffix); [|by apply (list_elem_of_fmap_2 fst _ (suffix, mode))|done].
    apply (tar_package_opens md5sum E path _ _ suffix mode [] Hin).
  - intros -> Hnone.
    destruct (List.find _ _) as [s|] eqn:Hfind; [|done].
    apply find_some in Hfind as [Hs%list_elem_of_In Hs']. by rewrite Hnone in Hs'.
Qed.

(** The three cases on one list of arguments: a zip, a gzipped tar whose
    name has no dot before the key, and a path no key ends. *)
Lemma generate_package_container_witness :
  (∃ l, (run (generate_package sum_digest sample_env ["out.zip"; "a.txt"; "x"])).1
        = Open "out.zip" ZipDeflated :: l)
  ∧ (∃ l, (run (generate_package sum_digest sample_env ["pkgtgz"; "a.txt"; "x"])).1
          = Open "pkgtgz" (Tar "w:gz") :: l)
  ∧ run (generate_package sum_digest sample_env ["out.rar"; "a.txt"; "x"])
    = ([], Raise UnboundLocalError).
Proof.
  split_and!.
  - apply (generate_package_container sum_digest sample_env "out.zip" ["a.txt"; "x"]);
      reflexivity.
  - apply (generate_package_container sum_digest sample_env "pkgtgz" ["a.txt"; "x"]
             eq_refl) with (suffix := "tgz"); [reflexivity| |reflexivity].
    apply list_elem_of_lookup_2 with (i := 2). reflexivity.
  - apply (generate_package_container sum_digest sample_env "out.rar" ["a.txt"; "x"]);
      [reflexivity|reflexivity|].
    intros suffix Hs. cbn [fmap list_fmap fst _TAR_WRITE_MODES] in Hs.
    repeat (apply elem_of_cons in Hs as [-> | Hs]; [reflexivity|]).
    by apply elem_of_nil in Hs.
Defined.

Section PackageFailure.
Variable md5sum : string → string.
Variable E : env.

Lemma puts_aps path package sources destinations :
(∀ s d, puts path (package s d)) →
puts path (archive_package_sources md5sum E package sources destinations).
Proof.
intros Hp. unfold archive_package_sources. apply puts_foldM. intros manifest [i s].
apply puts_bind; [apply puts_orelse|]. intros d.
apply puts_bind; [apply Hp|]. intros _.
apply puts_bind; [|intros; apply puts_ret].
unfold md5sum_file, read_file. apply puts_bind; [|intros; apply puts_ret].
apply puts_bind; [apply puts_orelse|intros; apply puts_ret].
Qed.

Lemma puts_tar_add path s d : puts path (tar_add E path s d).
Proof.
unfold tar_add, stat, tar_put. apply puts_bind; [apply puts_orelse|].
intros f. apply puts_put.
Qed.

Lemma zip_package_ends path sources destinations l r :
run (generate_zip_package md5sum E path sources destinations) = (l, r) →
(r = Ok tt → ∃ l0, l = l0 ++ [Close path])
∧ (r ≠ Ok tt → ∃ es, l = Open path ZipDeflated :: (Put path <$> es)).
Proof.
unfold run, generate_zip_package. rewrite bind_eq.
change (zip_open path ZipDeflated []) with ([Open path ZipDeflated], Ok tt).
cbv iota beta. rewrite bind_eq.
destruct (puts_aps path (zip_write E path) sources destinations (puts_zip_write E path)
            [Open path ZipDeflated]) as [es Hes].
destruct (archive_package_sources _ _ _ _ _ _) as [l1 [manifest|e|]];
  cbn [fst] in Hes; subst l1.
- rewrite bind_eq, zip_writestr_eq. unfold zip_close, emit.
  intros [= <- <-]. split; [|done]. intros _. by eexists (_ :: _).
- intros [= <- <-]. split; [done|]. intros _. by exists es.
- intros [= <- <-]. split; [done|]. intros _. by exists es.
Qed.

Lemma tar_package_ends path sources destinations suffix l r :
run (generate_tar_package md5sum E path sources destinations suffix) = (l, r) →
(r = Ok tt → ∃ l0, l = l0 ++ [Close path])
∧ (r ≠ Ok tt → l = [] ∨ ∃ mode es, l = Open path (Tar mode) :: (Put path <$> es)).
Proof.
unfold run, generate_tar_package. rewrite bind_eq.
destruct (List.find _ _TAR_WRITE_MODES) as [[k mode]|].
2: { intros [= <- <-]. split; [done|]. intros _. by left. }
cbn [fmap option_fmap option_map orelse snd]. rewrite ret_eq, bind_eq.
change (tar_open path mode []) with ([Open path (Tar mode)], Ok tt).
cbv iota beta. rewrite bind_eq.
destruct (puts_aps path (tar_add E path) sources destinations (puts_tar_add path)
            [Open path (Tar mode)]) as [es Hes].
destruct (archive_package_sources _ _ _ _ _ _) as [l1 [manifest|e|]];
  cbn [fst] in Hes; subst l1.
- cbv zeta. unfold write_file, now, get_log, tar_put, tar_close, emit.
  rewrite !bind_eq, !ret_eq. cbv iota beta. rewrite !bind_eq. cbv iota beta.
  intros [= <- <-]. split; [|done]. intros _. by eexists (_ :: _).
- intros [= <- <-]. split; [done|]. intros _. right. by exists mode, es.
- intros [= <- <-]. split; [done|]. intros _. right. by exists mode, es.
Qed.
End PackageFailure.

(** X5. What [generate_package] has done when it stops. When it returns,
    the last thing it did was to close the archive. When it raises, it
    had done nothing at all, or it had opened the archive and added
    members to it, and nothing more: the manifest file that goes with a
    tar package is not written, and the call that closes the archive is
    not reached, so that the composer leaves what it wrote so far where
    it is. *)
Lemma generate_package_unfinished md5sum E args l r :
  run (generate_package md5sum E args) = (l, r) →
  (r = Ok tt → ∃ path l0, args !! 0 = Some path ∧ l = l0 ++ [Close path])
  ∧ (r ≠ Ok tt →
     l = [] ∨ ∃ path c es, args !! 0 = Some path ∧ l = Open path c :: (Put path <$> es)).
Proof.
  destruct args as [|path manifest].
  { intros [= <- <-]. split; [done|]. intros _. by left. }
  unfold run. rewrite generate_package_eq, bind_eq.
  destruct (length manifest mod 2 =? 0); cbn [assert].
  2: { intros [= <- <-]. split; [done|]. intros _. by left. }
  rewrite ret_eq. cbv zeta.
  destruct (Str.endswith ".zip" path).
  - intros [Hok Hbad]%zip_package_ends. split.
    + intros Hr. destruct (Hok Hr) as [l0 ->]. by exists path, l0.
    + intros Hr. destruct (Hbad Hr) as [es ->]. right. by exists path, ZipDeflated, es.
  - destruct (List.find _ (fst <$> _TAR_WRITE_MODES)) as [suffix|].
    2: { intros [= <- <-]. split; [done|]. intros _. by left. }
    intros [Hok Hbad]%tar_package_ends. split.
    + intros Hr. destruct (Hok Hr) as [l0 ->]. by exists path, l0.
    + intros Hr. destruct (Hbad Hr) as [->|(mode & es & ->)]; [by left|].
      right. by exists path, (Tar mode), es.
Qed.

(** The second of three sources is missing: the package is left with the
    first. *)
Lemma generate_package_unfinished_witness :
  (Raise OSError = Ok tt →
   ∃ path l0,
     ("out.zip" :: ["a.txt"; "nope.txt"; "b.txt"; "x"; "y"; "z"]) !! 0 = Some path
     ∧ [Open "out.zip" ZipDeflated; Put "out.zip" (Entry "x" 0 "alpha")]
       = l0 ++ [Close path])
  ∧ (Raise OSError ≠ Ok tt →
     [Open "out.zip" ZipDeflated; Put "out.zip" (Entry "x" 0 "alpha")] = []
     ∨ ∃ path c es,
         ("out.zip" :: ["a.txt"; "nope.txt"; "b.txt"; "x"; "y"; "z"]) !! 0 = Some path
         ∧ [Open "out.zip" ZipDeflated; Put "out.zip" (Entry "x" 0 "alpha")]
           = Open path c :: (Put path <$> es)).
Proof.
  apply (generate_package_unfinished sum_digest sample_env
           ("out.zip" :: ["a.txt"; "nope.txt"; "b.txt"; "x"; "y"; "z"])).
  vm_compute. reflexivity.
Defined.

(** ** What a one-jar holds *)

Lemma emits_foldM_in {A S} Q (body : S → A → M S) s xs :
  (∀ s x, x ∈ xs → emits Q (body s x)) → emits Q (foldM body s xs).
Proof.
  revert s. induction xs as [|x xs IH]; intros s Hbody.
  - apply emits_ret.
  - rewrite foldM_cons. apply emits_bind; [apply Hbody; by left|].
    intros s'. apply IH. intros s'' x' Hx'. apply Hbody. by right.
Qed.

Lemma emits_member_archive {A} path P (m : M A) p :
  emits (member_effect path P) m → Forall (λ e, p = path ∧ P e) (archive_of p (run m).1).
Proof.
  intros Hm. destruct (Hm []) as (l2 & Hl & HQ).
  unfold run. rewrite Hl. cbn [app]. clear Hl.
  induction HQ as [|ev l2 Hev _ IH]; [done|].
  unfold archive_of. cbn [omap list_omap].
  destruct ev as [| p' e | | |]; try exact IH.
  destruct (decide (p' = p)) as [<-|]; [|exact IH]. constructor; [|exact IH]. apply Hev.
Qed.

Section OneJarMembers.
Variable E : env.
Variable onejar main_class bootjar main_jar : string.
Variable jars : list string.

Local Abbreviation Q := (member_effect onejar (onejar_member E main_class bootjar main_jar jars)).

Lemma emits_add_boot boot S name :
zips E bootjar = Some boot → name ∈ namelist boot →
emits Q (onejar_add_boot E onejar boot S name).
Proof.
intros Hboot Hname. unfold onejar_add_boot.
destruct (Str.endswith "manifest.mf" (Str.lower name)) eqn:Hman; cbn [negb];
  [apply emits_ret|].
unfold zip_read. apply emits_bind_orelse. intros data Hdata.
apply emits_bind; [|intros; apply emits_ret].
apply emits_zip_writestr. intros t. split; [done|]. left.
exists boot. by split_and!.
Qed.

Lemma emits_add_resource j z S name :
j ∈ main_jar :: jars → zips E j = Some z → name ∈ namelist z →
emits Q (onejar_add_resource E onejar z S name).
Proof.
intros Hj Hz Hname. unfold onejar_add_resource.
destruct (Str.endswith ".class" name || Str.startswith "META-INF" (Str.upper name))
  eqn:Hres; [apply emits_ret|].
apply orb_false_elim in Hres as [Hclass Hmeta].
destruct (decide (name ∉ S)); [|apply emits_ret]. cbv zeta.
unfold zip_read. apply emits_bind_orelse. intros data Hdata.
apply emits_bind; [|intros; apply emits_ret].
apply emits_zip_writestr. intros t. split; [done|]. do 3 right. left.
exists j, z. by split_and!.
Qed.

Lemma emits_one_jar :
emits Q (generate_one_jar E onejar main_class bootjar (main_jar :: jars)).
Proof.
unfold generate_one_jar. apply emits_bind_orelse. intros mj [= <-].
cbn [skipn]. cbv zeta.
apply emits_bind; [by apply emits_emit|]. intros _.
unfold zip_read_open at 1. apply emits_bind_orelse. intros boot Hboot.
apply emits_bind.
{ apply emits_foldM_in. intros S name Hname. by apply emits_add_boot. }
intros jar_path_set. apply emits_bind.
{ apply emits_zip_write. intros a f Ha Hf. split; [done|]. right. left. by exists f. }
intros _. apply emits_bind.
{ unfold forM. apply emits_foldM_in. intros _ dep Hdep.
  apply emits_zip_write. intros a f Ha Hf. split; [done|]. do 2 right. left.
  by exists dep, f. }
intros _. apply emits_bind.
{ apply emits_foldM_in. intros S j Hj. unfold onejar_add_resources.
  unfold zip_read_open. apply emits_bind_orelse. intros z Hz.
  apply emits_foldM_in. intros S' name Hname. by apply (emits_add_resource j). }
intros _. apply emits_bind; [|intros; by apply emits_emit].
apply emits_zip_writestr. intros t. split; [done|]. do 4 right. done.
Qed.
End OneJarMembers.


(** ** Python binaries that are never finished *)

Section Hangs.
Variable fnmatch : string → string → bool.
Variable E : env.
Variable pybin : string.
Variable exclusions : list string.

(** The loop of [_pybin_add_zip] with the books of directories: it does
  not end when a member it keeps has an absolute name. *)
Lemma zip_loop_hangs z keep name names :
(∀ n, n ∈ names → is_Some (zip_lookup z n)) →
name ∈ names → Path.isabs name = true →
keep name = true → _is_python_excluded_path fnmatch name exclusions = false →
∀ dirs dwi l, ∃ l',
  foldM (zip_add_name fnmatch E pybin z keep exclusions) (Some dirs, Some dwi) names l
  = (l', Diverge).
Proof.
intros Hnames Hin Habs Hkeep Hexcl.
induction names as [|n names IH]; intros dirs dwi l; [by apply elem_of_nil in Hin|].
rewrite foldM_cons, bind_eq. unfold zip_add_name at 1.
destruct (keep n && negb (_is_python_excluded_path fnmatch n exclusions)) eqn:Hn.
- destruct (Path.isabs n) eqn:Hnabs.
  + rewrite bind_eq, bind_eq, update_abs by done. by eexists.
  + destruct (update_ok n dirs dwi l Hnabs) as (d' & w' & Hup).
    rewrite bind_eq, bind_eq, Hup. rewrite ret_eq.
    destruct (Hnames n) as [data Hdata]; [by left|].
    rewrite bind_eq. unfold zip_read. rewrite Hdata. cbn [orelse]. rewrite ret_eq.
    rewrite bind_eq, zip_writestr_eq, ret_eq.
    apply IH.
    * intros n' ?. apply Hnames. by right.
    * apply elem_of_cons in Hin as [->|Hin]; [congruence|done].
- rewrite ret_eq. apply IH.
  + intros n' ?. apply Hnames. by right.
  + apply elem_of_cons in Hin as [->|Hin]; [|done].
    by rewrite Hkeep, Hexcl in Hn.
Qed.
End Hangs.




(** ** Test classes and coverage *)

Lemma replace_char_app old new s t :
  replace_char old new (s +:+ t) = replace_char old new s +:+ replace_char old new t.
Proof.
  unfold replace_char. induction s as [|a s IH]; [done|].
  rewrite str_app_cons. cbn [Str.map]. by rewrite IH, str_app_cons.
Qed.

Lemma replace_char_absent old new s :
  Str.contains_char old s = false → replace_char old new s = s.
Proof.
  unfold replace_char. induction s as [|a s IH]; [done|].
  cbn [Str.contains_char Str.map]. intros [Ha Hs]%orb_false_elim.
  by rewrite Ha, IH.
Qed.

Lemma replace_char_gone old new s :
  old ≠ new → Str.contains_char old (replace_char old new s) = false.
Proof.
  intros Hne. unfold replace_char. induction s as [|a s IH]; [done|].
  cbn [Str.map Str.contains_char]. rewrite IH, orb_false_r.
  destruct (Ascii.eqb_spec a old) as [->|Ha].
  - apply Ascii.eqb_neq. congruence.
  - by apply Ascii.eqb_neq.
Qed.

Lemma take_app_length_str s t : Str.take (String.length s) (s +:+ t) = s.
Proof.
  induction s as [|a s IH]; [by destruct t|].
  rewrite str_app_cons. cbn [String.length Str.take]. by rewrite IH.
Qed.

Lemma drop_end_app s t : drop_end (String.length t) (s +:+ t) = s.
Proof.
  unfold drop_end. rewrite str_length_app.
  replace (String.length s + String.length t - String.length t) with (String.length s)
    by lia.
  apply take_app_length_str.
Qed.

Lemma endswith_inv suf s : Str.endswith suf s = true → ∃ pre, s = pre +:+ suf.
Proof.
  induction s as [|a s IH]; cbn [Str.endswith].
  - destruct (String.eqb_spec "" suf) as [<-|]; [|done]. by exists "".
  - destruct (String.eqb_spec (String a s) suf) as [<-|_]; [by exists ""|].
    intros [pre ->]%IH. by exists (String a pre).
Qed.

(** The loop of [_get_all_test_class_names_in_jar]. *)
Lemma test_class_fold names acc :
  fold_left
    (λ test_class_names name,
       let basename := Path.basename name in
       if Str.endswith "Test.class" basename
          && (String.length "Test.class" <? String.length basename)
          && negb (Str.contains_char "$" basename)
       then test_class_names ++ [drop_end 6 (replace_char "/" "." name)]
       else test_class_names)
    names acc
  = acc ++ ((λ name, drop_end 6 (replace_char "/" "." name))
              <$> List.filter test_class names).
Proof.
  revert acc. induction names as [|n names IH]; intros acc.
  - by rewrite app_nil_r.
  - cbn [fold_left List.filter]. rewrite IH. unfold test_class at 2. cbv zeta.
    destruct (_ && _ && _); [|done]. cbn [fmap list_fmap]. by rewrite <-app_assoc.
Qed.

(** The name of a test class: the name of the member with dots, without
    [.class]. *)
Lemma test_class_name name :
  test_class name = true →
  ∃ c, drop_end 6 (replace_char "/" "." name) = c
       ∧ c +:+ ".class" = replace_char "/" "." name
       ∧ Str.contains_char "/" c = false
       ∧ Str.endswith "Test" c = true
       ∧ String.length "Test" < String.length (Path.basename name) - 6.
Proof.
  unfold test_class. cbv zeta.
  intros [[Hend Hlen%Nat.ltb_lt]%andb_true_iff _]%andb_true_iff.
  apply endswith_inv in Hend as [stem Hstem].
  pose proof (rsplit_slash_app name) as Hname.
  unfold Path.basename in *. rewrite Hstem in Hname.
  set (dir := (Str.rsplit_slash name).1) in *.
  pose proof (basename_no_slash name) as Hns. unfold Path.basename in Hns.
  rewrite Hstem in Hns. rewrite contains_char_app in Hns.
  apply orb_false_elim in Hns as [Hns _].
  assert (replace_char "/" "." name
          = (replace_char "/" "." dir +:+ stem +:+ "Test") +:+ ".class") as Hr.
  { rewrite Hname at 1. rewrite !replace_char_app.
    rewrite (replace_char_absent "/" "." stem Hns).
    rewrite (replace_char_absent "/" "." "Test.class") by done.
    rewrite !str_app_assoc. done. }
  exists (replace_char "/" "." dir +:+ stem +:+ "Test").
  split_and!.
  - rewrite Hr. apply (drop_end_app _ ".class").
  - by rewrite Hr.
  - rewrite !contains_char_app, Hns, orb_false_r.
    rewrite replace_char_gone by done. done.
  - rewrite <-str_app_assoc. apply endswith_app.
  - rewrite Hstem, str_length_app in Hlen |- *. simpl in *. lia.
Qed.

(** X9. The test classes of a jar are the members whose file name ends in
    [Test.class], is longer than that and holds no [$], in the order of the
    jar. The name returned for a member is the name of the member with
    every [/] turned into a dot and [.class] cut off: adding [.class] gives
    the dotted member name back, and the name holds no [/] and ends in
    [Test]. Reading the jar has no effect. *)
Lemma test_class_names_of_jar E jar z :
  zips E jar = Some z →
  ∃ cs, run (_get_all_test_class_names_in_jar E jar) = ([], Ok cs)
        ∧ Forall2 (λ name c, c +:+ ".class" = replace_char "/" "." name
                             ∧ Str.contains_char "/" c = false
                             ∧ Str.endswith "Test" c = true)
            (List.filter test_class (namelist z)) cs.
Proof.
  intros Hz. unfold run, _get_all_test_class_names_in_jar, zip_read_open.
  rewrite bind_eq, Hz. cbn [orelse]. rewrite ret_eq. cbv zeta.
  pose proof (test_class_fold (namelist z) []) as Hfold. cbv zeta in Hfold.
  rewrite Hfold. cbn [app].
  eexists. split; [reflexivity|].
  apply Forall2_fmap_r, Forall_Forall2_diag, Forall_forall.
  intros name [_ Hname]%list_elem_of_In%filter_In.
  destruct (test_class_name name Hname) as (c & Hc & ? & ? & ? & _).
  unfold compose. by rewrite Hc.
Qed.

(** A jar that cannot be read has no test classes: the call raises. *)
Lemma test_class_names_unreadable E jar :
  zips E jar = None →
  run (_get_all_test_class_names_in_jar E jar) = ([], Raise IOError).
Proof.
  intros Hz. unfold run, _get_all_test_class_names_in_jar, zip_read_open.
  by rewrite bind_eq, Hz.
Qed.

(** Of the six members of the jar, two are tests. *)
Lemma test_class_names_of_jar_witness :
  ∃ cs, run (_get_all_test_class_names_in_jar test_jar_env "t.jar") = ([], Ok cs)
        ∧ Forall2 (λ name c, c +:+ ".class" = replace_char "/" "." name
                             ∧ Str.contains_char "/" c = false
                             ∧ Str.endswith "Test" c = true)
            ["com/x/FooTest.class"; "BarTest.class"] cs.
Proof.
  exact (test_class_names_of_jar test_jar_env "t.jar" _ eq_refl).
Defined.

Example test_class_names_ex :
  run (_get_all_test_class_names_in_jar test_jar_env "t.jar")
  = ([], Ok ["com.x.FooTest"; "BarTest"]).
Proof. reflexivity. Qed.

Lemma split_join_sep c l :
  l ≠ [] → Forall (λ w, Str.contains_char c w = false) l →
  Str.split c (Str.join (String c "") l) = l.
Proof.
  intros Hne HF. induction HF as [|w l Hw HF IH]; [done|].
  unfold Str.join in *. cbn [String.concat]. destruct l as [|w' l].
  - by apply split_no_sep.
  - change (w +:+ String c "" +:+ String.concat (String c "") (w' :: l))
      with (w +:+ String c (String.concat (String c "") (w' :: l))).
    rewrite split_app_sep by done. f_equal. by apply IH.
Qed.

Lemma jacoco_flag_empty E jacocoagent packages_under_test :
  _jacoco_test_coverage_flag E jacocoagent packages_under_test = ""
  ↔ packages_under_test = "" ∨ jacocoagent = "".
Proof.
  unfold _jacoco_test_coverage_flag. cbv zeta.
  destruct (String.eqb_spec packages_under_test "") as [->|Hp]; cbn [negb andb].
  { split; auto. }
  destruct (String.eqb_spec jacocoagent "") as [->|Ha]; cbn [negb andb].
  { split; auto. }
  split; [done|]. by intros [?|?].
Qed.

(** X10. Coverage is off, the flag being empty, exactly when the agent or
    the list of packages is empty. Otherwise the flag names the agent by
    its absolute path and includes one pattern [p.*] for every package [p]
    between the colons that is not empty, in order: no pattern is the bare
    [.*], and cutting the list of patterns at its colons gives the patterns
    back. *)
Lemma jacoco_flag_patterns E jacocoagent packages_under_test :
  (_jacoco_test_coverage_flag E jacocoagent packages_under_test = ""
   ↔ packages_under_test = "" ∨ jacocoagent = "")
  ∧ (packages_under_test ≠ "" → jacocoagent ≠ "" →
     ∃ pats,
       _jacoco_test_coverage_flag E jacocoagent packages_under_test
       = "-javaagent:" +:+ Path.abspath (cwd E) jacocoagent
         +:+ "=includes=" +:+ Str.join ":" pats +:+ ",output=file"
       ∧ Forall2 (λ p pat, p ≠ "" ∧ pat = p +:+ ".*")
           (List.filter (λ p, negb (String.eqb p ""))
              (Str.split ":" packages_under_test)) pats
       ∧ (pats ≠ [] → Str.split ":" (Str.join ":" pats) = pats)).
Proof.
  split; [apply jacoco_flag_empty|]. intros Hp Ha.
  unfold _jacoco_test_coverage_flag. cbv zeta.
  destruct (String.eqb_spec packages_under_test "") as [?|_]; [done|].
  destruct (String.eqb_spec jacocoagent "") as [?|_]; [done|]. cbn [negb andb].
  exists ((λ p, p +:+ ".*")
            <$> List.filter (λ p, negb (String.eqb p "")) (Str.split ":" packages_under_test)).
  split_and!.
  - unfold Str.join. cbn [String.concat]. rewrite str_app_assoc. reflexivity.
  - apply Forall2_fmap_r, Forall_Forall2_diag, Forall_forall.
    intros p [_ Hne]%list_elem_of_In%filter_In. unfold compose.
    split; [|done]. apply negb_true_iff in Hne. by apply String.eqb_neq in Hne.
  - intros Hne. apply (split_join_sep ":"); [done|].
    apply Forall_fmap, Forall_forall.
    intros p [Hin _]%list_elem_of_In%filter_In. unfold compose.
    rewrite contains_char_app, orb_false_r.
    pose proof (split_sep_free ":" packages_under_test) as Hfree.
    rewrite Forall_forall in Hfree. apply Hfree. by apply list_elem_of_In.
Qed.

(** ** Absolute paths *)

Lemma normpath_abs path : Path.isabs path = true → Path.isabs (Path.normpath path) = true.
Proof.
  intros Habs. unfold Path.normpath.
  destruct (String.eqb_spec path "") as [->|_]; [done|]. cbv zeta.
  unfold Path.initial_slashes. unfold Path.isabs in Habs. rewrite Habs.
  destruct (Str.startswith "//" path && negb (Str.startswith "///" path));
    cbv zeta iota; rewrite str_app_cons; cbn [String.eqb]; apply isabs_cons.
Qed.

Lemma abspath_isabs cwd path :
  Path.isabs cwd = true → Path.isabs (Path.abspath cwd path) = true.
Proof.
  intros Hcwd. unfold Path.abspath. apply normpath_abs.
  destruct (Path.isabs path) eqn:Hp; [done|].
  unfold Path.join. cbn [fold_left]. unfold Path.join2.
  unfold Path.isabs in Hp. rewrite Hp.
  assert (cwd ≠ "") as Hne by (by intros ->).
  destruct (_ || _); by rewrite isabs_app.
Qed.

Lemma split_chars c a s :
  Str.contains_char a s = false →
  Forall (λ w, Str.contains_char a w = false) (Str.split c s).
Proof.
  induction s as [|b s IH]; cbn [Str.split Str.contains_char].
  - by repeat constructor.
  - intros [Hb Hs]%orb_false_elim. specialize (IH Hs).
    destruct (Ascii.eqb b c).
    + by constructor.
    + destruct (Str.split c s) as [|w ws].
      * repeat constructor. cbn [Str.contains_char]. by rewrite Hb.
      * inversion IH; subst. constructor; [|done].
        cbn [Str.contains_char]. by rewrite Hb.
Qed.

Lemma join_chars a sep l :
  Str.contains_char a sep = false →
  Forall (λ w, Str.contains_char a w = false) l →
  Str.contains_char a (Str.join sep l) = false.
Proof.
  intros Hsep HF. unfold Str.join. induction HF as [|w l Hw HF IH]; [done|].
  cbn [String.concat]. destruct l as [|w' l]; [done|].
  by rewrite !contains_char_app, Hw, Hsep, IH.
Qed.

Lemma norm_steps_chars a i comps : ∀ acc,
  Forall (λ w, Str.contains_char a w = false) comps →
  Forall (λ w, Str.contains_char a w = false) acc →
  Forall (λ w, Str.contains_char a w = false) (fold_left (Path.norm_step i) comps acc).
Proof.
  induction comps as [|c comps IH]; intros acc Hc Hacc; [done|].
  inversion Hc; subst. cbn [fold_left]. apply IH; [done|].
  unfold Path.norm_step.
  destruct (_ || _); [done|].
  destruct (_ || _); [by constructor|].
  destruct acc; [done|]. by inversion Hacc.
Qed.

Lemma contains_char_single a b : a ≠ b → Str.contains_char a (String b "") = false.
Proof.
  intros Hne. cbn [Str.contains_char]. rewrite orb_false_r.
  apply Ascii.eqb_neq. congruence.
Qed.

(** [normpath] and [abspath] bring in no character but [/] and [.]. *)
Lemma normpath_chars a path :
  a ≠ "/"%char → a ≠ "."%char →
  Str.contains_char a path = false → Str.contains_char a (Path.normpath path) = false.
Proof.
  intros Hs Hd Hp. unfold Path.normpath.
  pose proof (contains_char_single a "." Hd) as Hdot.
  pose proof (contains_char_single a "/" Hs) as Hslash.
  destruct (String.eqb path ""); [done|]. cbv zeta.
  pose proof (norm_steps_chars a (Path.initial_slashes path) (Str.split Str.slash path) []
                (split_chars _ _ _ Hp) (Forall_nil_2 _)) as Hall.
  apply Forall_rev in Hall.
  pose proof (join_chars a "/" _ Hslash Hall) as Hj.
  destruct (Path.initial_slashes path) as [|[|n]].
  - by destruct (String.eqb _ "").
  - destruct (String.eqb _ ""); [done|]. by rewrite contains_char_app, Hslash, Hj.
  - destruct (String.eqb _ ""); [done|].
    rewrite contains_char_app, Hj, orb_false_r.
    change "//" with ("/" +:+ "/"). by rewrite contains_char_app, Hslash.
Qed.

Lemma abspath_chars a cwd path :
  a ≠ "/"%char → a ≠ "."%char →
  Str.contains_char a cwd = false → Str.contains_char a path = false →
  Str.contains_char a (Path.abspath cwd path) = false.
Proof.
  intros Hs Hd Hc Hp. unfold Path.abspath. apply normpath_chars; [done..|].
  destruct (Path.isabs path); [done|].
  unfold Path.join. cbn [fold_left]. unfold Path.join2.
  destruct (Str.startswith "/" path); [done|].
  pose proof (contains_char_single a "/" Hs) as Hslash.
  destruct (_ || _); by rewrite !contains_char_app, ?Hc, ?Hp, ?Hslash.
Qed.

Lemma startswith_app p s : Str.startswith p (p +:+ s) = true.
Proof.
  induction p as [|a p IH]; [by destruct s|].
  rewrite str_app_cons. cbn [Str.startswith]. by rewrite Ascii.eqb_refl, IH.
Qed.

(** ** Wrapper scripts *)

(** X11. [generate_java_test] leaves no script behind when it has no jar
    to test ([IndexError]) or cannot read the first jar ([IOError]): the
    jar is read before the script is opened. Otherwise it writes the script
    and makes it executable ([0o755]), and does nothing else; the script
    starts with [#!/bin/sh] and ends with the line that runs [main_class]
    on the class path of all jars, in order, with the test classes of the
    first jar alone. *)
Lemma generate_java_test_script E script main_class jacocoagent packages_under_test args :
  match args with
  | [] =>
      run (generate_java_test E script main_class jacocoagent packages_under_test args)
      = ([], Raise IndexError)
  | test_jar :: _ =>
      match zips E test_jar with
      | None =>
          run (generate_java_test E script main_class jacocoagent packages_under_test args)
          = ([], Raise IOError)
      | Some z =>
          ∃ text,
            run (generate_java_test E script main_class jacocoagent packages_under_test
                   args)
            = ([WriteFile script text; Chmod script 493], Ok tt)
            ∧ Str.startswith ("#!/bin/sh" +:+ LF) text = true
            ∧ Str.endswith
                (LF +:+ "exec java $coverage_options -classpath " +:+ Str.join ":" args
                 +:+ " " +:+ main_class +:+ " "
                 +:+ Str.join " " ((λ name, drop_end 6 (replace_char "/" "." name))
                                     <$> List.filter test_class (namelist z))
                 +:+ " $@") text = true
      end
  end.
Proof.
  destruct args as [|test_jar jars]; [done|].
  unfold run, generate_java_test. cbv zeta. cbn [lookup list_lookup orelse].
  rewrite bind_eq, ret_eq, bind_eq.
  unfold _get_all_test_class_names_in_jar, zip_read_open. rewrite bind_eq.
  destruct (zips E test_jar) as [z|]; [|done]. cbn [orelse]. rewrite ret_eq. cbv zeta.
  pose proof (test_class_fold (namelist z) []) as Hfold. cbv zeta in Hfold.
  rewrite Hfold. cbn [app]. rewrite ret_eq.
  eexists. split; [reflexivity|]. split.
  - apply (startswith_app ("#!/bin/sh" +:+ LF)).
  - unfold java_test_script.
    repeat (rewrite <-(str_app_assoc _ _ (LF +:+ "exec java $coverage_options -classpath " +:+ _))).
    apply endswith_app.
Qed.

(** X12. [generate_scala_test] leaves no script behind when it has no jar
    to test ([IndexError]) or cannot read the first jar ([IOError]).
    Otherwise it writes the script and makes it executable, and does
    nothing else; the script starts with [#!/bin/sh] and its last line
    runs [org.scalatest.run] on the test classes of the first jar alone,
    with the interpreters named by absolute paths. *)
Lemma generate_scala_test_script E script java scala jacocoagent packages_under_test args :
  match args with
  | [] =>
      run (generate_scala_test E script java scala jacocoagent packages_under_test args)
      = ([], Raise IndexError)
  | test_jar :: _ =>
      match zips E test_jar with
      | None =>
          run (generate_scala_test E script java scala jacocoagent packages_under_test
                 args)
          = ([], Raise IOError)
      | Some z =>
          ∃ text java_args,
            run (generate_scala_test E script java scala jacocoagent packages_under_test
                   args)
            = ([WriteFile script text; Chmod script 493], Ok tt)
            ∧ Str.startswith ("#!/bin/sh" +:+ LF) text = true
            ∧ Str.endswith
                (LF +:+ "JAVACMD=" +:+ Path.abspath (cwd E) java +:+ " exec "
                 +:+ Path.abspath (cwd E) scala +:+ " " +:+ DQ +:+ "$coverage_options" +:+ DQ
                 +:+ " -classpath " +:+ Str.join ":" args +:+ " org.scalatest.run "
                 +:+ Str.join " " ((λ name, drop_end 6 (replace_char "/" "." name))
                                     <$> List.filter test_class (namelist z))
                 +:+ " $@" +:+ LF) text = true
            ∧ Str.startswith
                ("#!/bin/sh" +:+ LF +:+ "# Auto generated wrapper shell script by blade"
                 +:+ LF +:+ LF +:+ "if [ -n " +:+ DQ +:+ "$BLADE_COVERAGE" +:+ DQ
                 +:+ " ]; then" +:+ LF +:+ "    coverage_options=" +:+ DQ +:+ java_args +:+ DQ)
                text = true
            ∧ (java_args = "" ↔ packages_under_test = "" ∨ jacocoagent = "")
            ∧ (Path.isabs (cwd E) = true →
               Path.isabs (Path.abspath (cwd E) java) = true
               ∧ Path.isabs (Path.abspath (cwd E) scala) = true)
      end
  end.
Proof.
  destruct args as [|test_jar jars]; [done|].
  unfold run, generate_scala_test. cbv zeta. cbn [lookup list_lookup orelse].
  rewrite bind_eq, ret_eq, bind_eq.
  unfold _get_all_test_class_names_in_jar, zip_read_open. rewrite bind_eq.
  destruct (zips E test_jar) as [z|]; [|done]. cbn [orelse]. rewrite ret_eq. cbv zeta.
  pose proof (test_class_fold (namelist z) []) as Hfold. cbv zeta in Hfold.
  rewrite Hfold. cbn [app]. rewrite ret_eq.
  eexists _, (if negb (String.eqb
                         (_jacoco_test_coverage_flag E jacocoagent packages_under_test) "")
              then "-J" +:+ _jacoco_test_coverage_flag E jacocoagent packages_under_test
              else "").
  split; [reflexivity|]. split_and!.
  - apply (startswith_app ("#!/bin/sh" +:+ LF)).
  - unfold scala_test_script.
    match goal with |- Str.endswith ?suf ?text = true =>
      assert (text
              = ("#!/bin/sh" +:+ LF +:+ "# Auto generated wrapper shell script by blade"
                 +:+ LF +:+ LF +:+ "if [ -n " +:+ DQ +:+ "$BLADE_COVERAGE" +:+ DQ
                 +:+ " ]; then" +:+ LF +:+ "    coverage_options=" +:+ DQ
                 +:+ (if negb (String.eqb
                                 (_jacoco_test_coverage_flag E jacocoagent packages_under_test)
                                 "")
                      then "-J" +:+ _jacoco_test_coverage_flag E jacocoagent
                                      packages_under_test
                      else "")
                 +:+ DQ +:+ LF +:+ "fi" +:+ LF) +:+ suf) as ->
    end.
    { rewrite !str_app_assoc. reflexivity. }
    apply endswith_app.
  - unfold scala_test_script.
    match goal with |- Str.startswith ?p ?text = true =>
      assert (text
              = p +:+ LF +:+ "fi" +:+ LF +:+ LF +:+ "JAVACMD=" +:+ Path.abspath (cwd E) java
                +:+ " exec " +:+ Path.abspath (cwd E) scala +:+ " " +:+ DQ
                +:+ "$coverage_options" +:+ DQ +:+ " -classpath "
                +:+ Str.join ":" (test_jar :: jars) +:+ " "
                +:+ ("org.scalatest.run "
                     +:+ Str.join " " ((λ name, drop_end 6 (replace_char "/" "." name))
                                         <$> List.filter test_class (namelist z)))
                +:+ " $@" +:+ LF) as ->;
        [rewrite !str_app_assoc; reflexivity|apply startswith_app]
    end.
  - rewrite <-(jacoco_flag_empty E jacocoagent packages_under_test).
    destruct (String.eqb_spec (_jacoco_test_coverage_flag E jacocoagent packages_under_test)
                "") as [->|Hne]; cbn [negb]; [done|].
    split; [done|]. by intros ?.
  - intros Hcwd. split; by apply abspath_isabs.
Qed.

Lemma text_lines_each lines :
  Forall (λ line, Str.contains_char Str.nl line = false) lines →
  text_lines (String.concat "" ((λ line, line +:+ LF) <$> lines)) = lines.
Proof.
  induction 1 as [|line lines Hl _ IH]; [done|].
  cbn [fmap list_fmap String.concat].
  destruct lines as [|line' lines].
  - cbn [fmap list_fmap]. change (line +:+ LF) with (line +:+ LF +:+ "").
    by rewrite (text_lines_line line "" Hl).
  - cbn [fmap list_fmap] in *. rewrite str_app_nil_l, str_app_assoc.
    rewrite (text_lines_line line _ Hl). by rewrite IH.
Qed.

Ltac lines_step :=
  first
    [ rewrite text_lines_line by done
    | match goal with
      | |- context [text_lines (LF +:+ ?r)] =>
          change (text_lines (LF +:+ r)) with (text_lines ("" +:+ LF +:+ r));
          rewrite (text_lines_line "" r) by done
      end ].

(** X13. The wrapper of [generate_shell_test] sources every script of the
    test, in order, by its absolute path, after [set -e], so that the first
    script that fails stops the test; the wrapper is written, then made
    executable, and nothing else is done. Without arguments the call
    raises [IndexError] and writes nothing. *)
Lemma generate_shell_test_sources E args :
  match args with
  | [] => run (generate_shell_test E args) = ([], Raise IndexError)
  | wrapper :: scripts =>
      ∃ text,
        run (generate_shell_test E args)
        = ([WriteFile wrapper text; Chmod wrapper 493], Ok tt)
        ∧ (Path.isabs (cwd E) = true →
           Forall (λ s, Path.isabs (Path.abspath (cwd E) s) = true) scripts)
        ∧ (Str.contains_char Str.nl (cwd E) = false →
           Forall (λ s, Str.contains_char Str.nl s = false) scripts →
           text_lines text
           = ["#!/bin/sh"; "# Auto generated wrapper shell script by blade"; "";
              "set -e"; ""]
             ++ match scripts with
                | [] => [""]
                | _ => (λ s, ". " +:+ Path.abspath (cwd E) s) <$> scripts
                end
             ++ [""])
  end.
Proof.
  destruct args as [|wrapper scripts]; [done|].
  unfold run, generate_shell_test. cbn [lookup list_lookup orelse skipn].
  rewrite bind_eq, ret_eq. cbv zeta.
  eexists. split; [reflexivity|]. split.
  - intros Hcwd. apply Forall_forall. intros s _. by apply abspath_isabs.
  - intros Hcwd Hscripts. unfold shell_test_script.
    do 5 lines_step. cbn [app]. do 5 f_equal.
    destruct scripts as [|s scripts]; [done|].
    rewrite text_lines_join; [done|done|].
    apply Forall_fmap. eapply Forall_impl; [exact Hscripts|].
    intros s' Hs'. unfold compose. rewrite contains_char_app.
    rewrite abspath_chars by done. done.
Qed.

Section TestData.
Variable E : env.

(** The loop of [generate_shell_testdata]. *)
Lemma testdata_loop sources destinations n : ∀ k text l,
k + n ≤ length sources → k + n ≤ length destinations →
foldM (λ text i,
         s ← orelse (sources !! i) IndexError;
         d ← orelse (destinations !! i) IndexError;
         mret (text +:+ Path.abspath (cwd E) s +:+ " " +:+ d +:+ LF))
      text (seq k n) l
= (l, Ok (text +:+ String.concat ""
            ((λ line, line +:+ LF)
               <$> zip_with (λ s d, Path.abspath (cwd E) s +:+ " " +:+ d)
                     (take n (drop k sources)) (take n (drop k destinations))))).
Proof.
induction n as [|n IH]; intros k text l Hs Hd.
- cbn. by rewrite str_app_nil_r.
- cbn [seq]. rewrite foldM_cons, bind_eq.
  destruct (lookup_lt_is_Some_2 sources k) as [s Hsk]; [lia|].
  destruct (lookup_lt_is_Some_2 destinations k) as [d Hdk]; [lia|].
  rewrite bind_eq, Hsk. cbn [orelse]. rewrite ret_eq, bind_eq, Hdk.
  cbn [orelse]. rewrite !ret_eq. rewrite IH by lia.
  rewrite (drop_S _ _ _ Hsk), (drop_S _ _ _ Hdk).
  cbn [take zip_with fmap list_fmap String.concat]. f_equal. f_equal.
  destruct (zip_with _ _ _) as [|line lines] eqn:Hz.
  + cbn [fmap list_fmap String.concat]. rewrite !str_app_assoc, str_app_nil_r. done.
  + cbn [fmap list_fmap]. rewrite !str_app_assoc. done.
Qed.
End TestData.

(** X14. [generate_shell_testdata] takes the first half of its arguments
    after the output path as sources and the second half as destinations.
    An odd number of them raises [AssertionError] before the file is
    opened. Otherwise it writes one file and nothing else, with one line
    for every source: the absolute path of [sources[i]], a space and
    [destinations[i]]. *)
Lemma generate_shell_testdata_lines E path testdata :
  (length testdata mod 2 = 1 →
   run (generate_shell_testdata E (path :: testdata)) = ([], Raise AssertionError))
  ∧ (∀ sources destinations,
       testdata = sources ++ destinations → length sources = length destinations →
       ∃ text,
         run (generate_shell_testdata E (path :: testdata)) = ([WriteFile path text], Ok tt)
         ∧ (Path.isabs (cwd E) = true →
            Forall (λ s, Path.isabs (Path.abspath (cwd E) s) = true) sources)
         ∧ (Str.contains_char Str.nl (cwd E) = false →
            Forall (λ s, Str.contains_char Str.nl s = false) testdata →
            text_lines text
            = zip_with (λ s d, Path.abspath (cwd E) s +:+ " " +:+ d) sources destinations)).
Proof.
  split.
  - intros Hodd. unfold run, generate_shell_testdata.
    change (List.skipn 1 (path :: testdata)) with testdata.
    cbn [lookup list_lookup orelse]. rewrite bind_eq, ret_eq, bind_eq.
    destruct (Nat.eqb_spec (length testdata mod 2) 0) as [H0|_]; [lia|reflexivity].
  - intros sources destinations -> Hlen.
    assert (length (sources ++ destinations) / 2 = length sources) as Hmid.
    { rewrite length_app, <-Hlen.
      replace (length sources + length sources) with (length sources * 2) by lia.
      by rewrite Nat.div_mul. }
    assert ((length (sources ++ destinations) mod 2 =? 0) = true) as Heven.
    { apply Nat.eqb_eq. rewrite length_app, <-Hlen.
      replace (length sources + length sources) with (length sources * 2) by lia.
      by rewrite Nat.Div0.mod_mul. }
    unfold run, generate_shell_testdata.
    change (List.skipn 1 (path :: sources ++ destinations)) with (sources ++ destinations).
    cbn [lookup list_lookup orelse]. rewrite bind_eq, ret_eq, bind_eq, Heven.
    cbn [assert]. rewrite ret_eq. cbv zeta. rewrite Hmid.
    rewrite take_app_length, drop_app_length.
    rewrite bind_eq, (testdata_loop E sources destinations (length sources) 0 "" [])
      by (simpl; lia).
    rewrite !drop_0. rewrite firstn_all. rewrite Hlen, firstn_all.
    eexists. split; [reflexivity|]. split.
    + intros Hcwd. apply Forall_forall. intros s _. by apply abspath_isabs.
    + intros Hcwd [Hs Hd]%Forall_app. rewrite str_app_nil_l.
      apply text_lines_each.
      apply Forall_forall. intros line (s & d & -> & Hin_s & Hin_d)%elem_of_zip_with.
      rewrite Forall_forall in Hs, Hd.
      rewrite !contains_char_app, abspath_chars by auto.
      by rewrite (Hd d Hin_d).
Qed.

(** ** Library descriptors *)

Lemma foldM_ext {A S} (f g : S → A → M S) s xs l :
  (∀ s x l, f s x l = g s x l) → foldM f s xs l = foldM g s xs l.
Proof.
  intros Hfg. revert s l. induction xs as [|x xs IH]; intros s l; [done|].
  rewrite !foldM_cons, !bind_eq, Hfg. destruct (g s x l) as [l' [s'| |]]; [apply IH|done..].
Qed.

Section Digests.
Variable fnmatch : string → string → bool.
Variable zip_bytes : list entry → string.
Variable E : env.
Variable pl1 pl2 : string → option pylib.
Hypothesis same : ∀ p,
match pl1 p, pl2 p with
| Some d1, Some d2 => same_paths d1 d2
| None, None => True
| _, _ => False
end.

Lemma pylib_srcs_same pybin base exclusions srcs1 srcs2 :
srcs1.*1 = srcs2.*1 →
∀ st l,
  foldM (pylib_add_src fnmatch (with_pylibs pl1 E) pybin base exclusions) st srcs1 l
  = foldM (pylib_add_src fnmatch (with_pylibs pl2 E) pybin base exclusions) st srcs2 l.
Proof.
revert srcs2. induction srcs1 as [|[s1 g1] srcs1 IH]; intros [|[s2 g2] srcs2] Heq st l;
  try done.
injection Heq as <- Heq. rewrite !foldM_cons, !bind_eq.
assert (pylib_add_src fnmatch (with_pylibs pl1 E) pybin base exclusions st (s1, g1) l
        = pylib_add_src fnmatch (with_pylibs pl2 E) pybin base exclusions st (s1, g2) l)
  as ->.
{ by destruct st. }
destruct (pylib_add_src _ _ _ _ _ _ _ _) as [l' [st'| |]]; [by apply IH|done..].
Qed.

Lemma pybin_add_same pybin exclusions st arg l :
pybin_add fnmatch (with_pylibs pl1 E) pybin exclusions st arg l
= pybin_add fnmatch (with_pylibs pl2 E) pybin exclusions st arg l.
Proof using same.
destruct st as [dirs dwi]. unfold pybin_add.
destruct (Str.endswith ".pylib" arg); [|done].
unfold _pybin_add_pylib. rewrite !bind_eq.
specialize (same arg). cbn [pylibs with_pylibs].
destruct (pl1 arg) as [d1|], (pl2 arg) as [d2|]; try done.
destruct same as [Hbase Hsrcs]. cbn [orelse]. rewrite !ret_eq. rewrite Hbase.
by apply pylib_srcs_same.
Qed.

Lemma python_binary_same pybin basedir exclusions mainentry args l :
generate_python_binary fnmatch zip_bytes (with_pylibs pl1 E) pybin basedir exclusions
  mainentry args l
= generate_python_binary fnmatch zip_bytes (with_pylibs pl2 E) pybin basedir exclusions
    mainentry args l.
Proof using same.
unfold generate_python_binary. rewrite !bind_eq.
change (zip_open pybin ZipDeflated l) with (l ++ [Open pybin ZipDeflated], Ok tt).
cbv iota beta zeta. rewrite !bind_eq.
rewrite (foldM_ext _ _ _ _ _ (pybin_add_same pybin (Str.split "," exclusions))).
destruct (foldM _ _ _ _) as [l' [[dirs dwi]| |]]; done.
Qed.
End Digests.

(** X15. The digests a library descriptor records are never looked at:
    two sets of descriptors that agree on every base directory and on the
    paths listed, whatever digests they give, yield the same run of
    [generate_python_binary], effect by effect. A descriptor that is out of
    date is not detected; the members are the files as they are when the
    binary is composed. *)
Lemma python_binary_ignores_digests fnmatch zip_bytes E pl1 pl2 pybin basedir exclusions
    mainentry args :
  (∀ p, match pl1 p, pl2 p with
        | Some d1, Some d2 => same_paths d1 d2
        | None, None => True
        | _, _ => False
        end) →
  run (generate_python_binary fnmatch zip_bytes (with_pylibs pl1 E) pybin basedir
         exclusions mainentry args)
  = run (generate_python_binary fnmatch zip_bytes (with_pylibs pl2 E) pybin basedir
           exclusions mainentry args).
Proof. intros Hsame. by apply python_binary_same. Qed.

Section LibraryFacts.
Variable md5sum : string → string.
Variable pylib_str : pylib → string.
Variable E : env.

(** The loop of [generate_python_library] over the sources. *)
Lemma library_loop_ok args : ∀ acc l,
Forall (λ py, is_Some (files E py)) args →
foldM (λ sources py,
         digest ← md5sum_file md5sum E py;
         mret (sources ++ [(py, digest)]))
      acc args l
= (l, Ok (acc ++ omap (λ py, f ← files E py; Some (py, md5sum (f_data f))) args)).
Proof.
induction args as [|py args IH]; intros acc l HF.
- by rewrite app_nil_r.
- apply Forall_cons in HF as [[f Hf] HF].
  rewrite foldM_cons, bind_eq. unfold md5sum_file at 1, read_file.
  rewrite !bind_eq, Hf. cbn [orelse]. rewrite !ret_eq.
  rewrite IH by done. cbn [omap list_omap]. rewrite Hf. cbn [mbind option_bind].
  by rewrite <-app_assoc.
Qed.

Lemma library_loop_missing args : ∀ acc l,
Exists (λ py, files E py = None) args →
foldM (λ sources py,
         digest ← md5sum_file md5sum E py;
         mret (sources ++ [(py, digest)]))
      acc args l
= (l, Raise IOError).
Proof.
induction args as [|py args IH]; intros acc l HE; [by apply Exists_nil in HE|].
rewrite foldM_cons, bind_eq. unfold md5sum_file at 1, read_file.
rewrite !bind_eq. destruct (files E py) as [f|] eqn:Hf; [|done].
cbn [orelse]. rewrite !ret_eq. apply IH.
apply Exists_cons in HE as [?|?]; [congruence|done].
Qed.
End LibraryFacts.

(** X16. A library descriptor is written whole or not at all: the digests
    of all the sources are taken before the file is opened. When every
    source is a file, the one effect of [generate_python_library] is the
    descriptor, which lists the sources in the order given, each with the
    digest of its content, under the base directory given. When a source
    is missing, the call raises [IOError] and nothing is written. *)
Lemma generate_python_library_whole md5sum pylib_str E pylib basedir args :
  (Forall (λ py, is_Some (files E py)) args →
   ∃ sources,
     run (generate_python_library md5sum pylib_str E pylib basedir args)
     = ([WriteFile pylib (pylib_str (Pylib basedir sources) +:+ LF)], Ok tt)
     ∧ sources.*1 = args
     ∧ Forall (λ src, ∃ f, files E src.1 = Some f ∧ src.2 = md5sum (f_data f)) sources)
  ∧ (Exists (λ py, files E py = None) args →
     run (generate_python_library md5sum pylib_str E pylib basedir args)
     = ([], Raise IOError)).
Proof.
  split.
  - intros HF. unfold run, generate_python_library.
    rewrite bind_eq, (library_loop_ok md5sum E args [] [] HF). cbn [app].
    eexists. split; [reflexivity|]. split.
    + induction HF as [|py args [f Hf] _ IH]; [done|].
      cbn [omap list_omap]. rewrite Hf. cbn [mbind option_bind fmap list_fmap fst].
      by rewrite IH.
    + apply Forall_forall. intros [py g] (py' & _ & Hsrc)%list_elem_of_omap.
      destruct (files E py') as [f|] eqn:Hf; [|done].
      cbn [mbind option_bind] in Hsrc. injection Hsrc as <- <-. by exists f.
  - intros HE. unfold run, generate_python_library.
    by rewrite bind_eq, (library_loop_missing md5sum E args [] [] HE).
Qed.

(** The descriptors of the examples with other digests. *)
Lemma python_binary_ignores_digests_witness :
  run (generate_python_binary glob_fnmatch TrailerCodec.zip_bytes
         (with_pylibs (pylibs sample_env) sample_env) "out" "" "*.pyc" "main"
         ["a.pylib"; "b.pylib"])
  = run (generate_python_binary glob_fnmatch TrailerCodec.zip_bytes
           (with_pylibs
              (table [("a.pylib", Pylib "src/a" [("src/a/pkg/mod.py", "stale")]);
                      ("b.pylib", Pylib "src/b" [("src/b/pkg/mod.py", "")])])
              sample_env)
           "out" "" "*.pyc" "main" ["a.pylib"; "b.pylib"]).
Proof.
  apply python_binary_ignores_digests. intros p.
  cbn [pylibs sample_env table].
  destruct (String.eqb "a.pylib" p); [done|].
  destruct (String.eqb "b.pylib" p); done.
Defined.

(** ** Copies of files *)

Lemma written_nil name : written name [] = None.
Proof. reflexivity. Qed.

Lemma written_snoc name l p d :
  written name (l ++ [WriteFile p d])
  = if decide (p = name) then Some d else written name l.
Proof.
  unfold written. rewrite omap_app. cbn [omap list_omap].
  destruct (decide (p = name)); [by rewrite last_snoc|by rewrite app_nil_r].
Qed.

Lemma copy_file_eq E src dst l :
  copy_file E src dst l
  = match content_after E l src with
    | Some data => (l ++ [WriteFile dst data], Ok tt)
    | None => (l, Raise IOError)
    end.
Proof.
  unfold copy_file. rewrite bind_eq. unfold get_log. rewrite bind_eq.
  by destruct (content_after E l src).
Qed.

Section CopiesFacts.
Variable md5sum : string → string.
Variable E : env.
Variable shutil_copy : string → string → M unit.
Hypothesis shutil_copy_distinct : copies E shutil_copy.

(** X17. [generate_securecc_object] makes the object file agree with the
  phony object, and touches it only when it has to. Let the phony object
  be a regular file. When the object is a regular file too, the call
  returns, having written nothing when the two digests agree (so that
  the object keeps its time), and the content of the phony object to the
  object when they differ. And whenever the call returns, whatever was
  at the path of the object before, it has written nothing or the
  content of the phony object to the object, and afterwards the content
  of the object has the digest of the phony object. *)
Lemma securecc_object_agrees obj phony_obj fp :
files E phony_obj = Some fp →
(∀ fo, files E obj = Some fo →
   run (generate_securecc_object md5sum E shutil_copy [obj; phony_obj])
   = (if decide (md5sum (f_data fo) = md5sum (f_data fp))
      then [] else [WriteFile obj (f_data fp)], Ok tt))
∧ (∀ l, run (generate_securecc_object md5sum E shutil_copy [obj; phony_obj]) = (l, Ok tt) →
     (l = [] ∨ l = [WriteFile obj (f_data fp)])
     ∧ ∃ d, content_after E l obj = Some d ∧ md5sum d = md5sum (f_data fp)).
Proof using shutil_copy_distinct.
intros Hp.
assert (content_after E [] phony_obj = Some (f_data fp)) as Hcontent.
{ unfold content_after. by rewrite written_nil, Hp. }
assert (obj ≠ phony_obj →
        shutil_copy phony_obj obj [] = ([WriteFile obj (f_data fp)], Ok tt)) as Hcopy.
{ intros Hne. rewrite shutil_copy_distinct by (left; congruence).
  by rewrite copy_file_eq, Hcontent. }
assert (content_after E [WriteFile obj (f_data fp)] obj = Some (f_data fp)) as Hafter.
{ unfold content_after. change [WriteFile obj (f_data fp)] with ([] ++ [WriteFile obj (f_data fp)]).
  rewrite (written_snoc obj [] obj). by rewrite decide_True. }
assert (run (generate_securecc_object md5sum E shutil_copy [obj; phony_obj])
        = match files E obj with
          | Some fo => (if decide (md5sum (f_data fo) = md5sum (f_data fp))
                        then [] else [WriteFile obj (f_data fp)], Ok tt)
          | None => ([WriteFile obj (f_data fp)], Ok tt)
          end) as ->.
{ unfold run, generate_securecc_object.
  destruct (files E obj) as [fo|] eqn:Ho.
  - rewrite bind_eq. unfold md5sum_file at 1, read_file. rewrite !bind_eq, Ho.
    cbn [orelse]. rewrite !ret_eq, bind_eq.
    unfold md5sum_file at 1, read_file. rewrite !bind_eq, Hp.
    cbn [orelse]. rewrite !ret_eq.
    destruct (String.eqb_spec (md5sum (f_data fo)) (md5sum (f_data fp))) as [Heq|Hne];
      cbn [negb].
    + by rewrite decide_True.
    + rewrite decide_False by done. apply Hcopy. intros ->. congruence.
  - apply Hcopy. intros ->. congruence. }
destruct (files E obj) as [fo|] eqn:Ho.
- split; [by intros fo' [= <-]|].
  destruct (decide (md5sum (f_data fo) = md5sum (f_data fp))) as [Heq|Hne].
  + intros l [= <-]. split; [by left|]. exists (f_data fo). split; [|done].
    unfold content_after. by rewrite written_nil, Ho.
  + intros l [= <-]. split; [by right|]. by exists (f_data fp).
- split; [done|]. intros l [= <-]. split; [by right|]. by exists (f_data fp).
Qed.

(** The loop of [generate_java_resource]: no source is a target, so every
  copy reads a file of the inputs. *)
Lemma java_resource_loop sources targets n : ∀ k l,
k + n ≤ length sources → k + n ≤ length targets →
Forall (λ s, is_Some (files E s)) sources →
(∀ s, s ∈ sources → s ∉ targets) →
(∀ s, s ∈ sources → written s l = None) →
foldM (λ _ i,
         s ← orelse (sources !! i) IndexError;
         t ← orelse (targets !! i) IndexError;
         shutil_copy s t)
      tt (seq k n) l
= (l ++ omap (λ '(t, s), f ← files E s; Some (WriteFile t (f_data f)))
          (zip (take n (drop k targets)) (take n (drop k sources))),
   Ok tt).
Proof using shutil_copy_distinct.
induction n as [|n IH]; intros k l Hs Ht Hfiles Hdisj Hfresh.
- cbn. by rewrite app_nil_r.
- cbn [seq]. rewrite foldM_cons, bind_eq.
  destruct (lookup_lt_is_Some_2 sources k) as [s Hsk]; [lia|].
  destruct (lookup_lt_is_Some_2 targets k) as [t Htk]; [lia|].
  rewrite bind_eq, Hsk. cbn [orelse]. rewrite ret_eq, bind_eq, Htk.
  cbn [orelse]. rewrite !ret_eq.
  assert (s ∈ sources) as Hin by (by eapply list_elem_of_lookup_2).
  assert (t ∈ targets) as Hint by (by eapply list_elem_of_lookup_2).
  rewrite Forall_forall in Hfiles. destruct (Hfiles s Hin) as [f Hf].
  rewrite shutil_copy_distinct by (left; intros ->; by apply (Hdisj t)).
  rewrite copy_file_eq. unfold content_after at 1. rewrite (Hfresh s Hin), Hf.
  cbn [fmap option_fmap option_map].
  rewrite IH; [|lia|lia|by apply Forall_forall|done|].
  + rewrite (drop_S _ _ _ Hsk), (drop_S _ _ _ Htk).
    cbn [take zip zip_with omap list_omap]. rewrite Hf. cbn [mbind option_bind].
    by rewrite <-app_assoc.
  + intros s' Hs'. rewrite written_snoc.
    destruct (decide (t = s')) as [->|_]; [|by apply Hfresh].
    by destruct (Hdisj s' Hs').
Qed.

End CopiesFacts.

Lemma copy_file_copies E : copies E (copy_file E).
Proof. by intros src dst l _. Qed.

(** The object file [a.txt] differs from the phony object [b.txt]: it is
    overwritten. *)
Lemma securecc_object_agrees_witness :
  (∀ fo, files sample_env "a.txt" = Some fo →
     run (generate_securecc_object sum_digest sample_env (copy_file sample_env)
            ["a.txt"; "b.txt"])
     = (if decide (sum_digest (f_data fo) = sum_digest (f_data (File 2 "beta")))
        then [] else [WriteFile "a.txt" (f_data (File 2 "beta"))], Ok tt))
  ∧ (∀ l, run (generate_securecc_object sum_digest sample_env (copy_file sample_env)
                 ["a.txt"; "b.txt"]) = (l, Ok tt) →
       (l = [] ∨ l = [WriteFile "a.txt" (f_data (File 2 "beta"))])
       ∧ ∃ d, content_after sample_env l "a.txt" = Some d
              ∧ sum_digest d = sum_digest (f_data (File 2 "beta"))).
Proof.
  exact (securecc_object_agrees sum_digest sample_env (copy_file sample_env)
           (copy_file_copies sample_env) "a.txt" "b.txt" (File 2 "beta") eq_refl).
Defined.

Example securecc_object_ex1 :
  run (generate_securecc_object sum_digest sample_env (copy_file sample_env)
         ["a.txt"; "b.txt"]) = ([WriteFile "a.txt" "beta"], Ok tt).
Proof. reflexivity. Qed.

Example securecc_object_ex2 :
  run (generate_securecc_object sum_digest sample_env (copy_file sample_env)
         ["a.txt"; "a.txt"]) = ([], Ok tt).
Proof. reflexivity. Qed.

Example securecc_object_ex3 :
  run (generate_securecc_object sum_digest sample_env (copy_file sample_env) ["a.txt"])
  = ([], Raise ValueError).
Proof. reflexivity. Qed.


(** A source that is also an earlier target is read as it was written. *)
Example java_resource_chain :
  run (generate_java_resource (copy_file sample_env) ["t1"; "t2"; "a.txt"; "t1"])
  = ([WriteFile "t1" "alpha"; WriteFile "t2" "alpha"], Ok tt).
Proof. reflexivity. Qed.

(** ** The other generators *)

Example replace_ex1 : replace ".jar" ".resources" "build/a.jar" = "build/a.resources".
Proof. reflexivity. Qed.
Example replace_ex2 : replace ".jar" ".resources" "x.jar.d/a.jar" = "x.resources.d/a.resources".
Proof. reflexivity. Qed.
Example replace_ex3 : replace "aa" "b" "aaa" = "ba".
Proof. reflexivity. Qed.
Example decimal_ex1 : decimal 0 = "0". Proof. reflexivity. Qed.
Example decimal_ex2 : decimal 1205 = "1205". Proof. reflexivity. Qed.

(** ** The command line tool *)

Lemma exit_status_range ret : (0 ≤ exit_status ret < 256)%Z.
Proof.
  unfold exit_status. destruct (decide _); [|lia].
  apply Z.mod_pos_bound. lia.
Qed.

Lemma exit_status_zero ret :
  exit_status ret = 0%Z ↔ (- 2 ^ 63 ≤ ret < 2 ^ 63)%Z ∧ (ret mod 256 = 0)%Z.
Proof.
  unfold exit_status. destruct (decide _) as [Hr|Hr]; [tauto|].
  split; [discriminate|]. by intros [? _].
Qed.

Example exit_status_ex1 : exit_status (-9) = 247%Z. Proof. reflexivity. Qed.
Example exit_status_ex2 : exit_status 256 = 0%Z. Proof. reflexivity. Qed.
Example exit_status_ex3 : exit_status 2 = 2%Z. Proof. reflexivity. Qed.

Section MainFacts.
Variable fnmatch : string → string → bool.
Variable md5sum : string → string.
Variable zip_bytes : list entry → string.
Variable pylib_str : pylib → string.
Variable E : env.
Variable asctime : Z → string.
Variable getuser gethostname : string.
Variable regular_variable_name : string → string.
Variable shell : list string → M (option Z).
Variable shutil_copy shutil_copy2 : string → string → M unit.
Variable console_set_log_file : string → M unit.
Variable console_enable_color : bool → M unit.
Variable fatjar_generate_fat_jar : string → list string → M unit.

Local Abbreviation tools :=
(_BUILTIN_TOOLS fnmatch md5sum zip_bytes pylib_str E asctime getuser gethostname
   regular_variable_name shell shutil_copy shutil_copy2 console_set_log_file
   console_enable_color fatjar_generate_fat_jar).
Local Abbreviation the_tool :=
(builtin_tool fnmatch md5sum zip_bytes pylib_str E asctime getuser gethostname
   regular_variable_name shell shutil_copy shutil_copy2 console_set_log_file
   console_enable_color fatjar_generate_fat_jar).
Local Abbreviation the_main :=
(main fnmatch md5sum zip_bytes pylib_str E asctime getuser gethostname
   regular_variable_name shell shutil_copy shutil_copy2 console_set_log_file
   console_enable_color fatjar_generate_fat_jar).

Lemma parsed_option rest arg n v :
arg ∈ rest → option_form arg n v → n ∈ dom (parse_command_line rest).1.
Proof.
intros Harg Hform%classify_form.
rewrite parse_fold, fold_step_options. cbn [fst].
rewrite (right_id_L ∅ (∪)), dom_list_to_map_L, elem_of_list_to_set.
apply list_elem_of_fmap. exists (n, v). split; [done|].
rewrite elem_of_reverse. apply list_elem_of_omap. by exists arg.
Qed.

(** X19. [main] runs a tool only when it is given exactly the options the
  tool has parameters for. A name that is no tool, an option the tool
  does not know, or a parameter without its option end the program with
  exit code 1 and without any effect; so a single argument
  [--name=value] makes the tools that take positional arguments only,
  such as [package], do nothing. *)
Lemma main_refuses prog name rest l :
(the_tool name = None → the_main (prog :: name :: rest) l = (l, Exit 1))
∧ (∀ t, the_tool name = Some t →
     dom (parse_command_line rest).1 ≠ list_to_set (tool_params t) →
     the_main (prog :: name :: rest) l = (l, Exit 1))
∧ (∀ arg n v, name = "package" → arg ∈ rest → option_form arg n v →
     the_main (prog :: name :: rest) l = (l, Exit 1)).
Proof.
unfold main. cbn [lookup list_lookup].
change (List.skipn 2 (prog :: name :: rest)) with rest.
split_and!.
- intros Hn. destruct (parse_command_line rest) as [options args]. by rewrite Hn.
- intros t Ht Hdom. destruct (parse_command_line rest) as [options args].
  cbn [fst] in Hdom. rewrite Ht. unfold call_tool. by rewrite decide_False.
- intros arg n v -> Harg Hform.
  pose proof (parsed_option rest arg n v Harg Hform) as Hn.
  destruct (parse_command_line rest) as [options args]. cbn [fst] in Hn.
  change (the_tool "package")
    with (Some (Tool [] (λ kw args, returns_none (generate_package md5sum E args)))).
  cbv iota. unfold call_tool. cbn [tool_params].
  rewrite decide_False; [done|]. intros Heq. rewrite Heq in Hn. set_solver.
Qed.

(** X20. No exception leaves [main] once the command line names a tool:
  whatever the tool raises, the program ends with exit status 1, leaving
  the effects of the tool up to that point. The exit status lies between
  0 and 255, since the system keeps the low eight bits of what [sys.exit]
  is given. It is 0 exactly when the tool was called and returned [None]
  or an [int] that is a multiple of 256, such as 0. *)
Lemma main_exit_code prog name rest l l' st :
the_main (prog :: name :: rest) l = (l', st) →
(∀ e, st ≠ Uncaught e)
∧ (∀ c, st = Exit c → (0 ≤ c < 256)%Z)
∧ (st = Exit 0
   ↔ ∃ t m r, the_tool name = Some t
              ∧ call_tool t (parse_command_line rest).1 (parse_command_line rest).2
                = Some m
              ∧ m l = (l', Ok r)
              ∧ (r = None
                 ∨ ∃ ret, r = Some ret ∧ (- 2 ^ 63 ≤ ret < 2 ^ 63)%Z
                          ∧ (ret mod 256 = 0)%Z))
∧ (∀ t m e, the_tool name = Some t →
     call_tool t (parse_command_line rest).1 (parse_command_line rest).2 = Some m →
     m l = (l', Raise e) → st = Exit 1).
Proof.
unfold main. cbn [lookup list_lookup].
change (List.skipn 2 (prog :: name :: rest)) with rest.
destruct (parse_command_line rest) as [options args]. cbn [fst snd].
destruct (the_tool name) as [t|].
2: { intros [= <- <-]. split; [intros e Hst; discriminate Hst|].
     split; [intros c [= <-]; lia|]. split.
     - split; [intros Hst; discriminate Hst|]. intros (t' & m' & r & Ht & _). discriminate Ht.
     - reflexivity. }
destruct (call_tool t options args) as [m|] eqn:Hcall.
2: { intros [= <- <-]. split; [intros e Hst; discriminate Hst|].
     split; [intros c [= <-]; lia|]. split.
     - split; [intros Hst; discriminate Hst|].
       intros (t' & m' & r & [= <-] & Hm & _). rewrite Hcall in Hm. discriminate Hm.
     - reflexivity. }
intros Hfin.
assert (∀ t' m', Some t = Some t' → call_tool t' options args = Some m' → m' = m)
  as Hsame.
{ intros t' m' [= <-] Hm'. rewrite Hcall in Hm'. by injection Hm'. }
unfold finish in Hfin. destruct (m l) as [l1 [[code|]|e|]] eqn:Hm;
  injection Hfin as <- <-.
- split; [intros e Hst; discriminate Hst|].
  split; [intros c [= <-]; apply exit_status_range|]. split.
  + split.
    * intros [= Hz]. apply exit_status_zero in Hz.
      exists t, m, (Some code). split_and!; [done..|]. right. by exists code.
    * intros (t' & m' & r & Ht & Hc & Hr & Hcase).
      rewrite (Hsame t' m' Ht Hc), Hm in Hr. injection Hr as <-.
      destruct Hcase as [Hc'|(ret & [= ->] & Hret)]; [discriminate Hc'|].
      f_equal. by apply exit_status_zero.
  + intros t' m' e Ht Hc Hr. rewrite (Hsame t' m' Ht Hc), Hm in Hr. discriminate Hr.
- split; [intros e Hst; discriminate Hst|].
  split; [intros c [= <-]; lia|]. split.
  + split; [|reflexivity]. intros _. exists t, m, None. split_and!; auto.
  + intros t' m' e Ht Hc Hr. rewrite (Hsame t' m' Ht Hc), Hm in Hr. discriminate Hr.
- split; [intros e' Hst; discriminate Hst|].
  split; [intros c [= <-]; lia|]. split.
  + split; [intros Hst; discriminate Hst|]. intros (t' & m' & r & Ht & Hc & Hr & _).
    rewrite (Hsame t' m' Ht Hc), Hm in Hr. discriminate Hr.
  + reflexivity.
- split; [intros e Hst; discriminate Hst|].
  split; [intros c Hst; discriminate Hst|]. split.
  + split; [intros Hst; discriminate Hst|]. intros (t' & m' & r & Ht & Hc & Hr & _).
    rewrite (Hsame t' m' Ht Hc), Hm in Hr. discriminate Hr.
  + intros t' m' e Ht Hc Hr. rewrite (Hsame t' m' Ht Hc), Hm in Hr. discriminate Hr.
Qed.

(** X21. The command line of a python binary, as the build system writes
  it, runs [generate_python_binary] with the values of the four options
  and the other arguments as sources, and nothing else; the exit code is
  0 when the binary was composed and 1 when the composer raised. *)
Lemma main_python_binary prog pybin basedir exclusions mainentry args l :
Forall (λ a, Str.startswith "--" a = false ∨ Str.contains_char "=" a = false) args →
the_main (prog :: "python_binary"
            :: (option_arg <$> [("pybin", pybin); ("basedir", basedir);
                                ("exclusions", exclusions); ("mainentry", mainentry)])
            ++ args) l
= match generate_python_binary fnmatch zip_bytes E pybin basedir exclusions mainentry
          args l with
  | (l', Ok _) => (l', Exit 0)
  | (l', Raise _) => (l', Exit 1)
  | (l', Diverge) => (l', Hang)
  end.
Proof.
intros Hargs. unfold main. cbn [lookup list_lookup].
match goal with |- context [List.skipn 2 (prog :: ?n :: ?r)] =>
  change (List.skipn 2 (prog :: n :: r)) with r
end.
rewrite parse_options_args; [|repeat constructor|done].
match goal with |- context [the_tool "python_binary"] =>
  change (the_tool "python_binary")
    with (Some (Tool ["pybin"; "basedir"; "exclusions"; "mainentry"]
                  (λ kw args, returns_none
                     (generate_python_binary fnmatch zip_bytes E (kw "pybin")
                        (kw "basedir") (kw "exclusions") (kw "mainentry") args))))
end.
cbv iota. unfold call_tool. cbn [tool_params tool_call].
change (reverse [("pybin", pybin); ("basedir", basedir); ("exclusions", exclusions);
                 ("mainentry", mainentry)])
  with [("mainentry", mainentry); ("exclusions", exclusions); ("basedir", basedir);
        ("pybin", pybin)].
rewrite decide_True by (rewrite dom_list_to_map_L; cbn; set_solver).
cbn [list_to_map foldr uncurry fst snd].
repeat (rewrite lookup_insert || rewrite lookup_insert_ne by done).
cbn [default]. unfold returns_none, finish. rewrite bind_eq.
by destruct (generate_python_binary _ _ _ _ _ _ _ _ _) as [l1 [[]| |]].
Qed.
End MainFacts.

(** ** The command line tool, on examples *)

(** The command line of scenario A. *)
Lemma main_exit_code_witness :
  (∀ e, Exit 0 ≠ Uncaught e)
  ∧ (∀ c, Exit 0 = Exit c → (0 ≤ c < 256)%Z)
  ∧ (Exit 0 = Exit 0
     ↔ ∃ t m r,
         builtin_tool glob_fnmatch sum_digest TrailerCodec.zip_bytes (λ _, "") sample_env
           (λ _, "") "" "" (λ s, s) (λ _, mret None)
           (copy_file sample_env) (copy_file sample_env)
           (λ _, mret tt) (λ _, mret tt) (λ _ _, mret tt) "package" = Some t
         ∧ call_tool t (parse_command_line ["out.zip"; "a.txt"; "x"]).1
             (parse_command_line ["out.zip"; "a.txt"; "x"]).2 = Some m
         ∧ m [] = ((run (generate_package sum_digest sample_env ["out.zip"; "a.txt"; "x"])).1,
                   Ok r)
         ∧ (r = None
            ∨ ∃ ret, r = Some ret ∧ (- 2 ^ 63 ≤ ret < 2 ^ 63)%Z ∧ (ret mod 256 = 0)%Z))
  ∧ (∀ t m e,
       builtin_tool glob_fnmatch sum_digest TrailerCodec.zip_bytes (λ _, "") sample_env
         (λ _, "") "" "" (λ s, s) (λ _, mret None)
         (copy_file sample_env) (copy_file sample_env)
         (λ _, mret tt) (λ _, mret tt) (λ _ _, mret tt) "package" = Some t →
       call_tool t (parse_command_line ["out.zip"; "a.txt"; "x"]).1
         (parse_command_line ["out.zip"; "a.txt"; "x"]).2 = Some m →
       m [] = ((run (generate_package sum_digest sample_env ["out.zip"; "a.txt"; "x"])).1,
               Raise e) →
       Exit 0 = Exit 1).
Proof.
  apply (main_exit_code glob_fnmatch sum_digest TrailerCodec.zip_bytes (λ _, "") sample_env
           (λ _, "") "" "" (λ s, s) (λ _, mret None)
           (copy_file sample_env) (copy_file sample_env)
           (λ _, mret tt) (λ _, mret tt) (λ _ _, mret tt)
           "builtin_tools.py" "package" ["out.zip"; "a.txt"; "x"] []).
  vm_compute. reflexivity.
Defined.

(** The command line of scenario B. *)
Lemma main_python_binary_witness :
  sample_main ("builtin_tools.py" :: "python_binary"
                 :: (option_arg <$> [("pybin", "out"); ("basedir", "");
                                     ("exclusions", "*.pyc"); ("mainentry", "main")])
                 ++ ["a.pylib"; "b.pylib"]) []
  = match generate_python_binary glob_fnmatch TrailerCodec.zip_bytes sample_env
            "out" "" "*.pyc" "main" ["a.pylib"; "b.pylib"] [] with
    | (l', Ok _) => (l', Exit 0)
    | (l', Raise _) => (l', Exit 1)
    | (l', Diverge) => (l', Hang)
    end.
Proof.
  apply main_python_binary.
  apply Forall_cons. split; [by left|].
  apply Forall_cons. split; [by left|]. apply Forall_nil_2.
Defined.

Example main_ex1 :
  sample_main ["builtin_tools.py"; "package"; "out.zip"; "a.txt"; "x"] []
  = ((run (generate_package sum_digest sample_env ["out.zip"; "a.txt"; "x"])).1, Exit 0).
Proof. vm_compute. reflexivity. Qed.

Example main_ex2 :
  sample_main ["builtin_tools.py"; "package"; "--verbose=1"; "out.zip"; "a.txt"; "x"] []
  = ([], Exit 1).
Proof. vm_compute. reflexivity. Qed.

Example main_ex3 : sample_main ["builtin_tools.py"; "pakage"; "out.zip"] [] = ([], Exit 1).
Proof. vm_compute. reflexivity. Qed.

Example main_ex4 : sample_main ["builtin_tools.py"] [] = ([], Uncaught IndexError).
Proof. reflexivity. Qed.

Example main_ex5 :
  sample_main ["builtin_tools.py"; "package"; "out.zip"; "a.txt"] [] = ([], Exit 1).
Proof. vm_compute. reflexivity. Qed.

(** ** Resource indexes and jars of resources *)

Lemma relpath_none cwd path start : Path.relpath cwd path start = None ↔ path = "".
Proof.
  split.
  - intros Hnone. destruct (decide (path = "")) as [|Hne]; [done|].
    destruct (relpath_some cwd path start Hne) as [a Ha]. congruence.
  - by intros ->.
Qed.

Section ResourceIndex.
Variable E : env.
Variable regular_variable_name : string → string.

(** The loop of [_generate_resource_index] adds to both texts. *)
Lemma resource_entries_spec path sources : ∀ h c,
∃ h' c' r,
  resource_entries E regular_variable_name path sources h c = (h +:+ h', c +:+ c', r).
Proof.
induction sources as [|s sources IH]; intros h c.
- exists "", "", None. cbn [resource_entries]. by rewrite !str_app_nil_r.
- cbn [resource_entries]. cbv zeta.
  destruct (Path.relpath (cwd E) s path) as [entry_name|] eqn:Hrel.
  2: { exists "", "", (Some ValueError). by rewrite !str_app_nil_r. }
  destruct (files E s) as [f|] eqn:Hf.
  2: { exists "", "", (Some OSError). by rewrite !str_app_nil_r. }
  match goal with |- ∃ h' c' r, resource_entries _ _ _ _ ?h1 ?c1 = _ =>
    destruct (IH h1 c1) as (h' & c' & r & Hrun)
  end.
  rewrite Hrun. rewrite !str_app_assoc. by eexists _, _, r.
Qed.

(** X22. [_generate_resource_index] writes to the header and to the
  source file and to nothing else, however it ends. When it returns,
  and the two are different files, the header begins with its fixed head
  and ends with the declarations of the index and the closing guard, and
  the source file begins with its fixed head and ends with the length of
  the index, which is the number of sources. *)
Lemma resource_index_files header source sources name path l r :
run (_generate_resource_index E regular_variable_name (header, source) sources
       name path) = (l, r) →
Forall (λ ev, ∃ d, ev = WriteFile header d ∨ ev = WriteFile source d) l
∧ (r = Ok tt → header ≠ source →
   ∃ h c,
     written header l = Some h ∧ written source l = Some c
     ∧ Str.startswith
         (resource_header_head
            ("BLADE_RESOURCE_"
             +:+ Str.upper (regular_variable_name (Path.join path [name])) +:+ "_H_")) h
       = true
     ∧ Str.endswith
         (resource_header_tail
            ("RESOURCE_INDEX_" +:+ regular_variable_name (Path.join path [name]))
            ("BLADE_RESOURCE_"
             +:+ Str.upper (regular_variable_name (Path.join path [name])) +:+ "_H_")) h
       = true
     ∧ Str.startswith
         (resource_source_head header
            ("RESOURCE_INDEX_" +:+ regular_variable_name (Path.join path [name]))) c
       = true
     ∧ Str.endswith
         (resource_source_tail
            ("RESOURCE_INDEX_" +:+ regular_variable_name (Path.join path [name]))
            (length sources)) c
       = true).
Proof.
unfold run, _generate_resource_index. cbv zeta.
match goal with |- context [resource_entries _ _ path sources ?h0 ?c0] =>
  destruct (resource_entries_spec path sources h0 c0) as (h' & c' & r' & ->)
end.
destruct r' as [e|].
- intros [= <- <-]. split; [|done].
  apply Forall_cons. split; [eexists; by left|].
  apply Forall_cons. split; [eexists; by right|]. apply Forall_nil_2.
- intros [= <- <-]. split.
  { apply Forall_cons. split; [eexists; by left|].
    apply Forall_cons. split; [eexists; by right|]. apply Forall_nil_2. }
  intros _ Hne. eexists _, _. split_and!.
  + unfold written. cbn [omap list_omap].
    rewrite decide_True by done. rewrite decide_False by done. reflexivity.
  + unfold written. cbn [omap list_omap].
    rewrite decide_False by done. rewrite decide_True by done. reflexivity.
  + rewrite str_app_assoc. apply startswith_app.
  + apply endswith_app.
  + rewrite str_app_assoc. apply startswith_app.
  + apply endswith_app.
Qed.
End ResourceIndex.

(** The index of one resource. *)
Lemma resource_index_files_witness :
  Forall (λ ev, ∃ d, ev = WriteFile "res.h" d ∨ ev = WriteFile "res.c" d)
    (run (_generate_resource_index sample_env (λ s, s) ("res.h", "res.c") ["a.txt"]
            "res" ".")).1
  ∧ (Ok tt = Ok tt → "res.h" ≠ "res.c" →
     ∃ h c,
       written "res.h"
         (run (_generate_resource_index sample_env (λ s, s) ("res.h", "res.c") ["a.txt"]
                 "res" ".")).1 = Some h
       ∧ written "res.c"
           (run (_generate_resource_index sample_env (λ s, s) ("res.h", "res.c") ["a.txt"]
                   "res" ".")).1 = Some c
       ∧ Str.startswith
           (resource_header_head
              ("BLADE_RESOURCE_" +:+ Str.upper (Path.join "." ["res"]) +:+ "_H_")) h = true
       ∧ Str.endswith
           (resource_header_tail ("RESOURCE_INDEX_" +:+ Path.join "." ["res"])
              ("BLADE_RESOURCE_" +:+ Str.upper (Path.join "." ["res"]) +:+ "_H_")) h = true
       ∧ Str.startswith
           (resource_source_head "res.h" ("RESOURCE_INDEX_" +:+ Path.join "." ["res"])) c
         = true
       ∧ Str.endswith
           (resource_source_tail ("RESOURCE_INDEX_" +:+ Path.join "." ["res"])
              (length ["a.txt"])) c = true).
Proof.
  apply (resource_index_files sample_env (λ s, s) "res.h" "res.c" ["a.txt"] "res" ".").
  vm_compute. reflexivity.
Defined.

Example resource_index_source :
  written "res.c"
    (run (_generate_resource_index sample_env (λ s, s) ("res.h", "res.c") ["a.txt"]
            "res" ".")).1
  = Some ("// This file was automatically generated by blade" +:+ LF +:+
          "#include " +:+ DQ +:+ "res.h" +:+ DQ +:+ LF +:+ LF +:+
          "const struct BladeResourceEntry RESOURCE_INDEX_./res[] = {" +:+
          "    { " +:+ DQ +:+ "a.txt" +:+ DQ +:+ ", RESOURCE_a.txt, 5 }," +:+ LF +:+
          "};" +:+ LF +:+
          "const unsigned RESOURCE_INDEX_./res_len = 1;").
Proof. vm_compute. reflexivity. Qed.

Section JavaJar.
Variable E : env.
Variable shell : list string → M (option Z).
Variable shutil_copy2 : string → string → M unit.

Lemma jar_command_loop resources_dir resources : ∀ cmd l,
Forall (λ r, r ≠ "") resources →
foldM (λ cmd resource,
         rel ← orelse (Path.relpath (cwd E) resource resources_dir) ValueError;
         mret (cmd ++ ["-C '" +:+ resources_dir +:+ "' '" +:+ rel +:+ "'"]))
      cmd resources l
= (l, Ok (cmd ++ omap (λ resource,
                         rel ← Path.relpath (cwd E) resource resources_dir;
                         Some ("-C '" +:+ resources_dir +:+ "' '" +:+ rel +:+ "'"))
                   resources)).
Proof.
induction resources as [|r resources IH]; intros cmd l HF.
- by rewrite app_nil_r.
- apply Forall_cons in HF as [Hr HF].
  destruct (relpath_some (cwd E) r resources_dir Hr) as [rel Hrel].
  rewrite foldM_cons, bind_eq, bind_eq, Hrel. cbn [orelse]. rewrite !ret_eq.
  rewrite IH by done. cbn [omap list_omap]. rewrite Hrel. cbn [mbind option_bind].
  by rewrite <-app_assoc.
Qed.

Lemma archive_resources_eq jar target resources_dir resources new l :
Forall (λ r, r ≠ "") resources →
archive_resources E shell jar target resources_dir resources new l
= shell (jar_command E jar (if new then "cf" else "uf") target resources_dir resources) l.
Proof.
intros HF. unfold archive_resources. cbv zeta. rewrite bind_eq.
by rewrite jar_command_loop.
Qed.

(** X23. [generate_java_jar] needs the jar tool, the target and one more
  argument: with fewer it raises [IndexError] and nothing is copied or
  run, so a jar with neither classes nor resources cannot be asked for.
  With a classes jar the target is first made a copy of it, and the jar
  tool is run, in update mode [uf], only when there are resources;
  without one the jar tool is run in create mode [cf]. The one command
  run names every resource by [-C], the directory of resources (the
  target with every [.jar] turned into [.resources]) and the path of the
  resource relative to it. *)
Lemma java_jar_command args :
(length args < 3 →
 run (generate_java_jar E shell shutil_copy2 args) = ([], Raise IndexError))
∧ (∀ jar target arg rest,
     args = jar :: target :: arg :: rest →
     Forall (λ r, r ≠ "") (arg :: rest) →
     run (generate_java_jar E shell shutil_copy2 args)
     = if Str.endswith "__classes__.jar" arg
       then run (shutil_copy2 arg target;;
                 match rest with
                 | [] => mret None
                 | _ => shell (jar_command E jar "uf" target
                                 (replace ".jar" ".resources" target) rest)
                 end)
       else run (shell (jar_command E jar "cf" target
                          (replace ".jar" ".resources" target) (arg :: rest)))).
Proof.
split.
- intros Hlen. unfold run, generate_java_jar.
  destruct args as [|jar [|target [|arg rest]]]; try done. simpl in Hlen. lia.
- intros jar target arg rest -> HF.
  unfold run, generate_java_jar. cbn [lookup list_lookup orelse].
  rewrite bind_eq, ret_eq, bind_eq, ret_eq. cbv zeta. rewrite bind_eq, ret_eq.
  change (List.skipn 3 (jar :: target :: arg :: rest)) with rest.
  change (List.skipn 2 (jar :: target :: arg :: rest)) with (arg :: rest).
  destruct (Str.endswith "__classes__.jar" arg) eqn:Hcj.
  + assert (arg ≠ "") as Hne by (by apply Forall_cons in HF as [? _]).
    destruct (String.eqb_spec arg "") as [?|_]; [done|]. cbn [negb].
    rewrite !bind_eq. destruct (shutil_copy2 arg target []) as [l [[]| |]]; [|done..].
    destruct rest as [|r rest]; [done|].
    apply archive_resources_eq. by apply Forall_cons in HF as [_ ?].
  + cbn [String.eqb negb]. by apply archive_resources_eq.
Qed.
End JavaJar.

Section MainJavaJar.
Variable fnmatch : string → string → bool.
Variable md5sum : string → string.
Variable zip_bytes : list entry → string.
Variable pylib_str : pylib → string.
Variable E : env.
Variable asctime : Z → string.
Variable getuser gethostname : string.
Variable regular_variable_name : string → string.
Variable shell : list string → M (option Z).
Variable shutil_copy shutil_copy2 : string → string → M unit.
Variable console_set_log_file : string → M unit.
Variable console_enable_color : bool → M unit.
Variable fatjar_generate_fat_jar : string → list string → M unit.

(** X24. The exit status of a jar of resources is that of the jar tool:
  the command line [java_jar jar target resources...], without a classes
  jar, makes [main] run the one command [jar cf target -C ...] and end
  with the exit status of the value [blade_util.shell] returns for it, 0
  when that is [None]. It is the one tool whose failure can be a status
  other than 1; a jar tool killed by signal 9, for which [shell] returns
  [-9], gives the status 247. *)
Lemma main_java_jar_status prog jar target arg rest l l' code :
Forall (λ a, Str.startswith "--" a = false ∨ Str.contains_char "=" a = false)
  (jar :: target :: arg :: rest) →
Forall (λ r, r ≠ "") (arg :: rest) →
Str.endswith "__classes__.jar" arg = false →
shell (jar_command E jar "cf" target (replace ".jar" ".resources" target) (arg :: rest)) l
= (l', Ok code) →
main fnmatch md5sum zip_bytes pylib_str E asctime getuser gethostname
  regular_variable_name shell shutil_copy shutil_copy2 console_set_log_file
  console_enable_color fatjar_generate_fat_jar
  (prog :: "java_jar" :: jar :: target :: arg :: rest) l
= (l', Exit (from_option exit_status 0%Z code)).
Proof.
intros Hargs Hne Hcj Hshell. unfold main. cbn [lookup list_lookup].
match goal with |- context [List.skipn 2 (prog :: ?n :: ?r)] =>
  change (List.skipn 2 (prog :: n :: r)) with r
end.
pose proof (parse_options_args [] (jar :: target :: arg :: rest) (Forall_nil_2 _) Hargs)
  as Hparse.
cbn [fmap list_fmap app] in Hparse. rewrite Hparse.
match goal with |- context [builtin_tool ?a ?b ?c ?d ?e ?f ?g ?h ?i ?j ?k ?m ?n ?o ?p "java_jar"] =>
  change (builtin_tool a b c d e f g h i j k m n o p "java_jar")
    with (Some (Tool [] (λ kw args, generate_java_jar E shell shutil_copy2 args)))
end.
cbv iota. unfold call_tool. cbn [tool_params tool_call reverse list_to_map foldr].
rewrite decide_True by set_solver.
unfold generate_java_jar. cbn [lookup list_lookup orelse].
rewrite bind_eq, ret_eq, bind_eq, ret_eq. cbv zeta. rewrite bind_eq, ret_eq.
change (List.skipn 2 (jar :: target :: arg :: rest)) with (arg :: rest).
rewrite Hcj. cbn [String.eqb negb].
rewrite archive_resources_eq by done. rewrite Hshell. by destruct code.
Qed.
End MainJavaJar.

(** The jar tool is killed by signal 9. *)
Lemma main_java_jar_status_witness :
  main glob_fnmatch sum_digest TrailerCodec.zip_bytes (λ _, "") sample_env
    (λ _, "") "" "" (λ s, s) (λ _, mret (Some (-9)%Z))
    (copy_file sample_env) (copy_file sample_env)
    (λ _, mret tt) (λ _, mret tt) (λ _ _, mret tt)
    ("builtin_tools.py" :: "java_jar" :: "jar" :: "out/a.jar" :: "res/a.txt" :: []) []
  = ([], Exit 247).
Proof.
  apply (main_java_jar_status glob_fnmatch sum_digest TrailerCodec.zip_bytes (λ _, "")
           sample_env (λ _, "") "" "" (λ s, s) (λ _, mret (Some (-9)%Z))
           (copy_file sample_env) (copy_file sample_env)
           (λ _, mret tt) (λ _, mret tt) (λ _ _, mret tt)
           "builtin_tools.py" "jar" "out/a.jar" "res/a.txt" [] [] [] (Some (-9)%Z)).
  - repeat (apply Forall_cons; split; [by left|]). apply Forall_nil_2.
  - repeat constructor. discriminate.
  - reflexivity.
  - reflexivity.
Defined.
